(** * goagen/gen_main: the scaffold generator of goa

    A shallow embedding of [goagen/gen_main/generator.go]: the temp-name
    allocator [tempvar], the success-response resolver [okResp], the
    templates, the rollback [Cleanup] and the entry point [Generate].

    Files are a finite map from paths to contents, Go's [int] is a [Z] that
    wraps around at 64 bits, Go strings are byte strings, and the packages
    the generator imports ([design], [codegen], [filepath], [net]) are the
    fields of the class [Collaborators]. A run is sequential: the goroutine
    [Generate] starts to call [Cleanup] on a signal is left out. *)

From Stdlib Require Import Ascii String.
From stdpp Require Import gmap strings list pretty.

Local Open Scope Z_scope.

(** ** Go primitives *)

(** Go's [int] (64-bit platform): two's complement wrap-around. *)
Definition int_wrap (z : Z) : Z := (z + 2 ^ 63) `mod` 2 ^ 64 - 2 ^ 63.

(** [strings.HasPrefix(s, "*")]. *)
Definition HasPrefix_star (s : string) : bool :=
  match s with
  | String c _ => bool_decide (c = "*"%char)
  | EmptyString => false
  end.

(** [s[1:]], used only behind [strings.HasPrefix(s, "*")]. *)
Definition slice1 (s : string) : string :=
  match s with
  | String _ t => t
  | EmptyString => EmptyString
  end.

(** [strings.HasSuffix]. *)
Fixpoint HasSuffix (s suffix : string) : bool :=
  bool_decide (s = suffix) ||
  match s with
  | String _ t => HasSuffix t suffix
  | EmptyString => false
  end.

Definition nl : string := String "010"%char EmptyString.
Definition tab : string := String "009"%char EmptyString.
Definition dq : string := String "034"%char EmptyString.

(** Go's [error]: a message; [None] is [nil]. *)
Definition error : Type := string.

(** ** design: the API model *)

(** Modelled from the spec: [design.DefaultView] is declared in the design
    package; the spec gives it as the literal default view name, "default". *)
Definition DefaultView : string := "default".

(** Modelled from the spec: a declared response, with the fields [okResp]
    reads: its name, status code, media-type identifier and view. *)
Record ResponseDefinition := {
  Resp_Name : string;
  Resp_Status : Z;
  Resp_MediaType : string;
  Resp_ViewName : string
}.

(** Modelled from the spec: [Responses] is the mapping of the action's
    responses, which the spec keys by HTTP status code; the loop of
    [okResp] ranges over its values and reads the status of each, not its
    key. [Parent] is kept as the parent resource's name, the only field of
    it the generator reads. *)
Record ActionDefinition := {
  Action_Name : string;
  Action_Parent_Name : string;
  Action_Responses : gmap Z ResponseDefinition;
  Action_WebSocket : bool
}.

(** Modelled from the spec: a resource, with its [Actions] in the order
    [IterateActions] visits them. *)
Record ResourceDefinition := {
  Resource_Name : string;
  Resource_Actions : list ActionDefinition
}.

(** The response mapping is keyed by status code, as the spec has it. *)
Definition keyed_by_status (m : gmap Z ResponseDefinition) : Prop :=
  map_Forall (λ k resp, Resp_Status resp = k) m.

Global Instance keyed_by_status_dec m : Decision (keyed_by_status m).
Proof. unfold keyed_by_status. apply _. Defined.

(** One order in which [range a.Responses] may visit the responses. *)
Definition range_values (m : gmap Z ResponseDefinition) : list ResponseDefinition :=
  (map_to_list m).*2.

(** The descriptor [okResp] hands to the action template
    (a [map[string]interface{}] with these three keys). *)
Record Descriptor := {
  Name : string;
  GoType : string;
  TypeRef : string
}.

(** ** The process state *)

(** [tempCount], [codegen.Reserved] and the files on disk. *)
Record World := {
  fs : gmap string string;
  tempCount : Z;
  Reserved : gmap string bool
}.

Definition set_fs (f : gmap string string → gmap string string) (w : World) : World :=
  {| fs := f (fs w); tempCount := tempCount w; Reserved := Reserved w |}.

(** The name [tempvar] returns when the counter has reached [n]:
    "c" at 1, [fmt.Sprintf("c%d", n)] otherwise. *)
Definition temp_name (n : Z) : string :=
  if bool_decide (n = 1) then "c" else "c" +:+ pretty n.

(** [tempvar]: [tempCount++], then the name at the new count. *)
Definition tempvar (w : World) : string * World :=
  let n := int_wrap (tempCount w + 1) in
  (temp_name n, {| fs := fs w; tempCount := n; Reserved := Reserved w |}).

(** [n] consecutive calls: the names in call order and the state after. *)
Fixpoint tempvars (n : nat) (w : World) : list string * World :=
  match n with
  | O => ([], w)
  | S n' =>
      let '(x, w') := tempvar w in
      let '(xs, w'') := tempvars n' w' in
      (x :: xs, w'')
  end.

(** The state after [n] calls and the name the [k]-th call returns,
    counted in binary so that calls far into the run can be stated. *)
Definition after_calls (n : N) (w : World) : World :=
  N.iter n (λ w, (tempvar w).2) w.

Definition kth_call (k : N) (w : World) : string :=
  (tempvar (after_calls (k - 1) w)).1.

(** ** Steps of a run

    [M S R]: a step on a state [S] that returns an [R]. *)

Definition M (S R : Type) : Type := S → R * S.

Definition ret {S R : Type} (x : R) : M S R := λ s, (x, s).

Definition bind {S R R' : Type} (m : M S R) (k : R → M S R') : M S R' :=
  λ s, let '(x, s') := m s in k x s'.

Notation "'let*' x ':=' m 'in' k" := (bind m (λ x, k))
  (at level 10, x name, m at level 100, k at level 200).
Notation "m ';;' k" := (bind m (λ _, k))
  (at level 100, k at level 200, right associativity).

(** ** The packages the generator imports *)

Inductive result (A : Type) : Type :=
  | Ok (a : A)
  | Err (e : error).
Global Arguments Ok {A} a.
Global Arguments Err {A} e.

(** The collaborators of the generator, at their interfaces: the media
    types and their projection ([design]), identifier casing and type
    naming ([codegen]), paths ([filepath], [path], [net]), [printf "%q"],
    and the source-file utility ([codegen.SourceFile]). A call that returns
    a Go error returns [None] or [Err] here. The source-file utility fails
    where [SourceFileFor_fault] (opening a path) and [ExecuteTemplate_fault]
    (rendering a template into a path) say so, and [gofmt] is the
    formatting pass of [FormatCode]. *)
Class Collaborators := {
  MediaTypeDefinition : Type;
  CanonicalIdentifier : string → string;
  Project : MediaTypeDefinition → string → option MediaTypeDefinition;
  IsError : MediaTypeDefinition → bool;
  AllRequired : MediaTypeDefinition → list string;
  GoTypeRef : MediaTypeDefinition → list string → Z → bool → string;
  GoNativeType : MediaTypeDefinition → string;
  Goify : string → bool → string;
  SnakeCase : string → string;
  PackagePath : string → result string;
  filepath_Join : string → string → string;
  path_Join : string → string → string;
  ToSlash : string → string;
  SplitHostPort : string → option (string * string);
  Quote : string → string;
  Header : string → string → list string → string;
  gofmt : string → result string;
  SourceFileFor_fault : string → option error;
  ExecuteTemplate_fault : string → string → string → option error
}.

Section Generator.
Context {C : Collaborators}.

(** Modelled from the spec: the API definition, with its [Resources] in
    the order [IterateResources] (and the [range] of the main template,
    which sorts the keys) visits them, and its [MediaTypes] keyed by
    canonical identifier. *)
Record APIDefinition := {
  API_Name : string;
  API_Host : string;
  API_Resources : list ResourceDefinition;
  API_MediaTypes : gmap string MediaTypeDefinition
}.

Record Generator := {
  API : APIDefinition;
  OutDir : string;
  DesignPkg : string;
  Target : string;
  Force : bool;
  genfiles : list string
}.

Definition set_Target (t : string) (g : Generator) : Generator :=
  {| API := API g; OutDir := OutDir g; DesignPkg := DesignPkg g;
     Target := t; Force := Force g; genfiles := genfiles g |}.

Definition set_genfiles (l : list string) (g : Generator) : Generator :=
  {| API := API g; OutDir := OutDir g; DesignPkg := DesignPkg g;
     Target := Target g; Force := Force g; genfiles := l |}.

(** [design.Design], the global design the resolver reads. *)
Variable Design : APIDefinition.

(** ** okResp *)

(** The loop of [okResp] over the responses in the order they are visited:
    the first one with status 200. *)
Definition find_ok (visited : list ResponseDefinition) : option ResponseDefinition :=
  List.find (λ resp, bool_decide (Resp_Status resp = 200)) visited.

(** [view := ok.ViewName], and [design.DefaultView] when that is empty. *)
Definition effective_view (ok : ResponseDefinition) : string :=
  if bool_decide (Resp_ViewName ok = EmptyString) then DefaultView
  else Resp_ViewName ok.

(** The constructor expression of a projected media type. *)
Definition typeref_of (g : Generator) (pmt : MediaTypeDefinition) : string :=
  if IsError pmt then
    "goa.ErrInternal(" +:+ dq +:+ "not implemented" +:+ dq +:+ ")"
  else
    let name := GoTypeRef pmt (AllRequired pmt) 1 false in
    let '(name, pointer) :=
      if HasPrefix_star name then (slice1 name, "*") else (name, EmptyString) in
    let typeref := pointer +:+ Target g +:+ "." +:+ name in
    let typeref :=
      if HasPrefix_star typeref then "&" +:+ slice1 typeref else typeref in
    typeref +:+ "{}".

Definition name_suffix (view : string) : string :=
  if bool_decide (view ≠ "default") then Goify view true else EmptyString.

(** [okResp] from the response the loop found on. *)
Definition okResp_of (g : Generator) (ok : option ResponseDefinition) : option Descriptor :=
  match ok with
  | None => None
  | Some ok =>
      match API_MediaTypes Design !! CanonicalIdentifier (Resp_MediaType ok) with
      | None => None
      | Some mt =>
          let view := effective_view ok in
          match Project mt view with
          | None => None
          | Some pmt =>
              Some {| Name := Resp_Name ok +:+ name_suffix view;
                      GoType := GoNativeType pmt;
                      TypeRef := typeref_of g pmt |}
          end
      end
  end.

(** [okResp] when [range a.Responses] visits the responses as [visited]. *)
Definition okResp_visiting (g : Generator) (visited : list ResponseDefinition) : option Descriptor :=
  okResp_of g (find_ok visited).

Definition okResp (g : Generator) (a : ActionDefinition) : option Descriptor :=
  okResp_visiting g (range_values (Action_Responses a)).

(** ** The templates

    What [text/template] renders for each of the four templates. Only
    [mainT] changes the state, through [tempvar]. *)

(** [getPort]: the port of [hostport], "8080" when it has none. *)
Definition getPort (hostport : string) : string :=
  match SplitHostPort hostport with
  | Some (_, port) => port
  | None => "8080"
  end.

(** The body of the [range] of [mainT] for one resource. *)
Definition mainT_mount (g : Generator) (res : ResourceDefinition) (w : World) : string * World :=
  let name := Goify (Resource_Name res) true in
  let '(tmp, w) := tempvar w in
  (" // Mount " +:+ dq +:+ Resource_Name res +:+ dq +:+ " controller" +:+ nl +:+
   tab +:+ tmp +:+ " := New" +:+ name +:+ "Controller(service)" +:+ nl +:+
   tab +:+ Target g +:+ ".Mount" +:+ name +:+ "Controller(service, " +:+ tmp +:+ ")" +:+ nl,
   w).

Fixpoint mainT_range (g : Generator) (rs : list ResourceDefinition) (w : World) : string * World :=
  match rs with
  | [] => (EmptyString, w)
  | res :: rs' =>
      let '(x, w) := mainT_mount g res w in
      let '(xs, w) := mainT_range g rs' w in
      (x +:+ xs, w)
  end.

Definition mainT (g : Generator) (w : World) : string * World :=
  let '(mounts, w) := mainT_range g (API_Resources (API g)) w in
  (nl +:+ "func main() {" +:+ nl +:+
   tab +:+ "// Create service" +:+ nl +:+
   tab +:+ "service := goa.New(" +:+ Quote (API_Name (API g)) +:+ ")" +:+ nl +:+
   nl +:+
   tab +:+ "// Mount middleware" +:+ nl +:+
   tab +:+ "service.Use(middleware.RequestID())" +:+ nl +:+
   tab +:+ "service.Use(middleware.LogRequest(true))" +:+ nl +:+
   tab +:+ "service.Use(middleware.ErrorHandler(service, true))" +:+ nl +:+
   tab +:+ "service.Use(middleware.Recover())" +:+ nl +:+
   nl +:+
   mounts +:+
   nl +:+
   nl +:+
   tab +:+ "// Start service" +:+ nl +:+
   tab +:+ "if err := service.ListenAndServe(" +:+ dq +:+ ":" +:+
     getPort (API_Host (API g)) +:+ dq +:+ "); err != nil {" +:+ nl +:+
   tab +:+ tab +:+ "service.LogError(" +:+ dq +:+ "startup" +:+ dq +:+ ", " +:+
     dq +:+ "err" +:+ dq +:+ ", err)" +:+ nl +:+
   tab +:+ "}" +:+ nl +:+
   "}" +:+ nl,
   w).

Definition ctrlT (r : ResourceDefinition) : string :=
  let ctrlName := Goify (Resource_Name r) true +:+ "Controller" in
  "// " +:+ ctrlName +:+ " implements the " +:+ Resource_Name r +:+ " resource." +:+ nl +:+
  "type " +:+ ctrlName +:+ " struct {" +:+ nl +:+
  tab +:+ "*goa.Controller" +:+ nl +:+
  "}" +:+ nl +:+
  nl +:+
  "// New" +:+ ctrlName +:+ " creates a " +:+ Resource_Name r +:+ " controller." +:+ nl +:+
  "func New" +:+ ctrlName +:+ "(service *goa.Service) *" +:+ ctrlName +:+ " {" +:+ nl +:+
  tab +:+ "return &" +:+ ctrlName +:+ "{Controller: service.NewController(" +:+
    dq +:+ ctrlName +:+ dq +:+ ")}" +:+ nl +:+
  "}" +:+ nl.

(** [actionT] up to and with the line of the [end_implement] marker. *)
Definition actionT_head (g : Generator) (a : ActionDefinition) : string :=
  let ctrlName := Goify (Action_Parent_Name a) true +:+ "Controller" in
  let name := Goify (Action_Name a) true in
  "// " +:+ name +:+ " runs the " +:+ Action_Name a +:+ " action." +:+ nl +:+
  "func (c *" +:+ ctrlName +:+ ") " +:+ name +:+ "(ctx *" +:+ Target g +:+ "." +:+
    name +:+ Goify (Action_Parent_Name a) true +:+ "Context) error {" +:+ nl +:+
  tab +:+ "// " +:+ ctrlName +:+ "_" +:+ name +:+ ": start_implement" +:+ nl +:+
  nl +:+
  tab +:+ "// Put your logic here" +:+ nl +:+
  nl +:+
  tab +:+ "// " +:+ ctrlName +:+ "_" +:+ name +:+ ": end_implement" +:+ nl.

(** The rest of [actionT], from [$ok := okResp .]: the handler's result. *)
Definition actionT_result (ok : option Descriptor) : string :=
  match ok with
  | Some d =>
      " res := " +:+ TypeRef d +:+ nl +:+
      " return " +:+ "ctx." +:+ Name d +:+ "(res)" +:+ nl +:+
      "}" +:+ nl
  | None =>
      " return " +:+ "nil" +:+ nl +:+
      "}" +:+ nl
  end.

Definition actionT (g : Generator) (a : ActionDefinition) : string :=
  actionT_head g a +:+ actionT_result (okResp g a).

Definition actionWST (g : Generator) (a : ActionDefinition) : string :=
  let ctrlName := Goify (Action_Parent_Name a) true +:+ "Controller" in
  let name := Goify (Action_Name a) true in
  let ctx := Target g +:+ "." +:+ name +:+ Goify (Action_Parent_Name a) true +:+ "Context" in
  "// " +:+ name +:+ " runs the " +:+ Action_Name a +:+ " action." +:+ nl +:+
  "func (c *" +:+ ctrlName +:+ ") " +:+ name +:+ "(ctx *" +:+ ctx +:+ ") error {" +:+ nl +:+
  tab +:+ "c." +:+ name +:+ "WSHandler(ctx).ServeHTTP(ctx.ResponseWriter, ctx.Request)" +:+ nl +:+
  tab +:+ "return nil" +:+ nl +:+
  "}" +:+ nl +:+
  nl +:+
  "// " +:+ name +:+ "WSHandler establishes a websocket connection to run the " +:+
    Action_Name a +:+ " action." +:+ nl +:+
  "func (c *" +:+ ctrlName +:+ ") " +:+ name +:+ "WSHandler(ctx *" +:+ ctx +:+
    ") websocket.Handler {" +:+ nl +:+
  tab +:+ "return func(ws *websocket.Conn) {" +:+ nl +:+
  tab +:+ tab +:+ "// " +:+ ctrlName +:+ "_" +:+ name +:+ ": start_implement" +:+ nl +:+
  nl +:+
  tab +:+ tab +:+ "// Put your logic here" +:+ nl +:+
  nl +:+
  tab +:+ tab +:+ "// " +:+ ctrlName +:+ "_" +:+ name +:+ ": end_implement" +:+ nl +:+
  tab +:+ tab +:+ "ws.Write([]byte(" +:+ dq +:+ Action_Name a +:+ " " +:+
    Action_Parent_Name a +:+ dq +:+ "))" +:+ nl +:+
  tab +:+ tab +:+ "// Dummy echo websocket server" +:+ nl +:+
  tab +:+ tab +:+ "io.Copy(ws, ws)" +:+ nl +:+
  tab +:+ "}" +:+ nl +:+
  "}" +:+ nl.

(** ** Files

    [os.Remove] and [os.Stat] on the file map, and the source-file utility
    of [codegen], a collaborator that the spec names (section 1, "the
    file-writing/formatting utility") and does not describe. A
    [*SourceFile] is the path it stands for. Its calls fail where the
    oracles of the collaborators say so, and a call that fails is taken to
    have written nothing; the errors of [Write] and [WriteHeader], which
    the generator drops, are not modelled. *)

(** [os.Remove(p)]; the generator drops its error. *)
Definition os_Remove (p : string) (w : World) : World :=
  set_fs (delete p) w.

(** [os.Stat(p)]: [true] when it returns no error, the file is there. *)
Definition os_Stat (p : string) (w : World) : bool :=
  bool_decide (is_Some (fs w !! p)).

(** Modelled from the spec: [codegen.SourceFileFor], of the file-writing
    utility, builds the handle on [p], or fails; it touches no file. *)
Definition SourceFileFor (p : string) (w : World) : option error * World :=
  match SourceFileFor_fault p with
  | Some err => (Some err, w)
  | None => (None, w)
  end.

(** Modelled from the spec: [file.Write], of the file-writing utility,
    appends to the file, which it creates when it is not there. *)
Definition file_Write (p : string) (text : string) (w : World) : World :=
  set_fs (λ m, <[p := default EmptyString (m !! p) +:+ text]> m) w.

(** Modelled from the spec: [file.WriteHeader] appends the header of a
    source file: title, package clause and imports. *)
Definition WriteHeader (p : string) (title pack : string) (imports : list string) (w : World) : World :=
  file_Write p (Header title pack imports) w.

(** Modelled from the spec: [file.ExecuteTemplate], of the file-writing
    utility, appends the rendered [text] of the template [name], or fails
    and returns the error, the file left as it was. *)
Definition ExecuteTemplate (p : string) (name : string) (text : string) (w : World) : option error * World :=
  match ExecuteTemplate_fault name p text with
  | Some err => (Some err, w)
  | None => (None, file_Write p text w)
  end.

(** Modelled from the spec: [file.FormatCode], the source-formatting pass
    (section 5), replaces the content of the file by its formatted form, or
    fails and returns the error. *)
Definition FormatCode (p : string) (w : World) : option error * World :=
  match gofmt (default EmptyString (fs w !! p)) with
  | Err err => (Some err, w)
  | Ok formatted => (None, set_fs <[p := formatted]> w)
  end.

(** ** The run

    A run threads the generator ([g], whose [genfiles] it appends to) and
    the process state. [M State R] is a step of it that returns an [R]. *)

Definition State : Type := Generator * World.

(** Reading and updating [g]. *)
Definition get_gen : M State Generator := λ s, (s.1, s).

Definition modify_gen (f : Generator → Generator) : M State unit :=
  λ s, (tt, (f s.1, s.2)).

(** A step on the process state alone. *)
Definition on_world {R : Type} (f : World → R * World) : M State R :=
  λ s, let '(x, w) := f s.2 in (x, (s.1, w)).

Definition update_world (f : World → World) : M State unit :=
  λ s, (tt, (s.1, f s.2)).

Definition read_world {R : Type} (f : World → R) : M State R :=
  λ s, (f s.2, s).

(** [g.genfiles = append(g.genfiles, f)]. *)
Definition record_file (f : string) : M State unit :=
  modify_gen (λ g, set_genfiles (genfiles g ++ [f]) g).

(** Modelled from the spec: [IterateResources] and [IterateActions] call
    the iterator on each element in their fixed order and stop at the
    first error, which they return. *)
Fixpoint Iterate {A : Type} (it : A → M State (option error)) (l : list A) : M State (option error) :=
  match l with
  | [] => ret None
  | x :: l' =>
      let* err := it x in
      if err is Some e then ret (Some e) else Iterate it l'
  end.

(** ** Cleanup *)

(** [for _, f := range g.genfiles { os.Remove(f) }; g.genfiles = nil]. *)
Definition Cleanup : M State unit :=
  let* g := get_gen in
  update_world (λ w, foldl (λ w f, os_Remove f w) w (genfiles g)) ;;
  modify_gen (set_genfiles []).

(** ** Generate *)

(** [file.ExecuteTemplate("main", mainT, funcs, data)]: the template calls
    [tempvar] as it is executed, so the counter moves with the text: a call
    that fails leaves both the file and the counter as they were. *)
Definition ExecuteTemplate_main (p : string) (g : Generator) (w : World) : option error * World :=
  let '(text, w') := mainT g w in
  match ExecuteTemplate_fault "main" p text with
  | Some err => (Some err, w)
  | None => (None, file_Write p text w')
  end.

(** [createMainFile] once the handle is there. *)
Definition write_main (mainFile : string) : M State (option error) :=
  let* g := get_gen in
  match PackagePath (OutDir g) with
  | Err err => ret (Some err)
  | Ok outPkg =>
      let appPkg := path_Join outPkg "app" in
      let imports :=
        ["time"; "github.com/goadesign/goa";
         "github.com/goadesign/goa/middleware"; appPkg] in
      update_world
        (file_Write mainFile
           ("//go:generate goagen bootstrap -d " +:+ DesignPkg g +:+ nl +:+ nl)) ;;
      update_world (WriteHeader mainFile EmptyString "main" imports) ;;
      let* err := on_world (ExecuteTemplate_main mainFile g) in
      if err is Some e then ret (Some e)
      else on_world (FormatCode mainFile)
  end.

Definition createMainFile (mainFile : string) : M State (option error) :=
  record_file mainFile ;;
  let* err := on_world (SourceFileFor mainFile) in
  if err is Some e then ret (Some e)
  else write_main mainFile.

(** The action iterator of the per-resource closure. *)
Definition per_action (filename : string) (a : ActionDefinition) : M State (option error) :=
  let* g := get_gen in
  if Action_WebSocket a then
    on_world (ExecuteTemplate filename "actionWS" (actionWST g a))
  else
    on_world (ExecuteTemplate filename "action" (actionT g a)).

(** The stub of a resource once its handle is there. [err] is the named
    result of [Generate], which the closure captures: the error exits of
    the templates return it, and not the [err2] they tested. *)
Definition write_stub (err : option error) (imports : list string) (r : ResourceDefinition) (filename : string) : M State (option error) :=
  update_world (WriteHeader filename EmptyString "main" imports) ;;
  let* err2 := on_world (ExecuteTemplate filename "controller" (ctrlT r)) in
  if err2 is Some _ then ret err
  else
    let* err2 := Iterate (per_action filename) (Resource_Actions r) in
    if err2 is Some _ then ret err
    else
      let* err2 := on_world (FormatCode filename) in
      if err2 is Some e2 then ret (Some e2)
      else ret None.

(** The stub of a resource, for a file that is not there yet; the error
    exit of [SourceFileFor] returns the captured [err] as well. *)
Definition resource_stub (err : option error) (imports : list string) (r : ResourceDefinition) (filename : string) : M State (option error) :=
  record_file filename ;;
  let* err2 := on_world (SourceFileFor filename) in
  if err2 is Some _ then ret err
  else write_stub err imports r filename.

(** [if g.Force { os.Remove(p) }]. *)
Definition remove_if_forced (p : string) : M State unit :=
  let* g := get_gen in
  if Force g then update_world (os_Remove p) else ret tt.

(** The closure [Generate] hands to [IterateResources]. *)
Definition per_resource (err : option error) (imports : list string) (r : ResourceDefinition) : M State (option error) :=
  let* g := get_gen in
  let filename := filepath_Join (OutDir g) (SnakeCase (Resource_Name r) +:+ ".go") in
  remove_if_forced filename ;;
  let* there := read_world (os_Stat filename) in
  if there then ret None
  else resource_stub err imports r filename.

(** [Generate] up to its return, before the deferred function runs. *)
Definition Generate_body : M State (result (list string)) :=
  modify_gen (λ g, if bool_decide (Target g = EmptyString) then set_Target "app" g else g) ;;
  let* g := get_gen in
  update_world (λ w, {| fs := fs w; tempCount := tempCount w;
                        Reserved := <[Target g := true]> (Reserved w) |}) ;;
  let mainFile := filepath_Join (OutDir g) "main.go" in
  remove_if_forced mainFile ;;
  match PackagePath (OutDir g) with
  | Err err => ret (Err err)
  | Ok imp =>
      let imp := path_Join (ToSlash imp) "app" in
      let* there := read_world (os_Stat mainFile) in
      let* err := if there then ret None else createMainFile mainFile in
      if err is Some e then ret (Err e)
      else
        let imports :=
          ["io"; "github.com/goadesign/goa"; imp; "golang.org/x/net/websocket"] in
        let* err := Iterate (per_resource err imports) (API_Resources (API g)) in
        if err is Some e then ret (Err e)
        else
          let* g := get_gen in
          ret (Ok (genfiles g))
  end.

(** [Generate]: the body, then the deferred [if err != nil { g.Cleanup() }]. *)
Definition Generate : M State (result (list string)) :=
  let* res := Generate_body in
  match res with
  | Err e => Cleanup ;; ret (Err e)
  | Ok files => ret (Ok files)
  end.

(** The values of the flags of the entry point once [set.Parse] has read
    the command line: [-out], [-design], [-pkg], [-version], [-force]. *)
Record Flags := {
  flag_out : string;
  flag_design : string;
  flag_pkg : string;
  flag_version : string;
  flag_force : bool
}.

(** The package-level [Generate], the entry point the meta generator
    calls, from the parsed flags on; [CheckVersion] is the check of
    [codegen]. The generator it builds is its own: what is left of a run is
    the process state. *)
Definition genmain_Generate (CheckVersion : string → option error) (flags : Flags) (w : World) : result (list string) * World :=
  match CheckVersion (flag_version flags) with
  | Some err => (Err err, w)
  | None =>
      let target := Goify (flag_pkg flags) false in
      let g := {| API := Design; OutDir := flag_out flags;
                  DesignPkg := flag_design flags; Target := target;
                  Force := flag_force flags; genfiles := [] |} in
      let '(res, (_, w)) := Generate (g, w) in
      (res, w)
  end.

(** The generator as [Generate] configures it, and the target paths of a
    run: the main file and the file of each resource. *)
Definition configured (g : Generator) : Generator :=
  if bool_decide (Target g = EmptyString) then set_Target "app" g else g.

Definition mainFile_of (g : Generator) : string :=
  filepath_Join (OutDir g) "main.go".

Definition filename_of (g : Generator) (r : ResourceDefinition) : string :=
  filepath_Join (OutDir g) (SnakeCase (Resource_Name r) +:+ ".go").

Definition targets (g : Generator) : list string :=
  mainFile_of g :: (filename_of g <$> API_Resources (API g)).

(** Whether a run from [w] executes the main template to its end: the
    package path resolves, the main file is missing or removed by force,
    its handle is built and executing the template does not fail. *)
Definition renders_main (g : Generator) (w : World) : bool :=
  match PackagePath (OutDir g), SourceFileFor_fault (mainFile_of g),
        ExecuteTemplate_fault "main" (mainFile_of g) (mainT (configured g) w).1 with
  | Ok _, None, None => Force g || negb (os_Stat (mainFile_of g) w)
  | _, _, _ => false
  end.

(** The state [Generate] works on once it has fixed the target package,
    reserved it and, when forced, removed the main file. *)
Definition prepared (g : Generator) (w : World) : State :=
  (configured g,
   let w := {| fs := fs w; tempCount := tempCount w;
               Reserved := <[Target (configured g) := true]> (Reserved w) |} in
   if Force g then os_Remove (mainFile_of g) w else w).

Definition resource_imports (imp : string) : list string :=
  ["io"; "github.com/goadesign/goa"; path_Join (ToSlash imp) "app";
   "golang.org/x/net/websocket"].

(** ** What ends up in a file *)

(** The world with the content [c] at [f]. *)
Definition with_file (f c : string) (w : World) : World :=
  set_fs <[f := c]> w.

(** The template the closure renders for an action, and its text. *)
Definition action_template (a : ActionDefinition) : string :=
  if Action_WebSocket a then "actionWS" else "action".

Definition action_text (g : Generator) (a : ActionDefinition) : string :=
  if Action_WebSocket a then actionWST g a else actionT g a.

Definition actions_text (g : Generator) (l : list ActionDefinition) : string :=
  foldr (λ a rest, action_text g a +:+ rest) EmptyString l.

(** What the closure writes to the file of a resource, before formatting. *)
Definition stub_text (g : Generator) (imports : list string) (r : ResourceDefinition) : string :=
  Header EmptyString "main" imports +:+ ctrlT r +:+ actions_text g (Resource_Actions r).

(** What [createMainFile] writes before formatting, [outPkg] being the
    package path of the output directory and [text] the rendered [mainT]. *)
Definition main_text (g : Generator) (outPkg : string) (text : string) : string :=
  ("//go:generate goagen bootstrap -d " +:+ DesignPkg g +:+ nl +:+ nl) +:+
  Header EmptyString "main"
    ["time"; "github.com/goadesign/goa"; "github.com/goadesign/goa/middleware";
     path_Join outPkg "app"] +:+
  text.

(** What the [range] of [mainT] renders for [res] when [tempvar] returns
    [tmp]. *)
Definition mount_text (g : Generator) (res : ResourceDefinition) (tmp : string) : string :=
  let name := Goify (Resource_Name res) true in
  " // Mount " +:+ dq +:+ Resource_Name res +:+ dq +:+ " controller" +:+ nl +:+
  tab +:+ tmp +:+ " := New" +:+ name +:+ "Controller(service)" +:+ nl +:+
  tab +:+ Target g +:+ ".Mount" +:+ name +:+ "Controller(service, " +:+ tmp +:+ ")" +:+ nl.

(** ** What a step may depend on and change *)

(** Two generators with the same configuration: all but [genfiles]. *)
Definition same_config (g g' : Generator) : Prop :=
  API g = API g' ∧ OutDir g = OutDir g' ∧ DesignPkg g = DesignPkg g' ∧
  Target g = Target g' ∧ Force g = Force g'.

(** Two states with the same generator, the same counter and the same
    file (or none) at [p]. *)
Definition alike (p : string) (s1 s2 : State) : Prop :=
  s1.1 = s2.1 ∧ tempCount s1.2 = tempCount s2.2 ∧ fs s1.2 !! p = fs s2.2 !! p.

(** A step that works on the file at [p]: it leaves the other files as
    they are, what it returns and does is the same from states alike at
    [p], it keeps the file at [p] once it is there, and it keeps the
    configuration. *)
Record local (p : string) {R : Type} (op : M State R) : Prop := {
  local_frame : ∀ s q, q ≠ p → fs (op s).2.2 !! q = fs s.2 !! q;
  local_reads : ∀ s1 s2, alike p s1 s2 →
                  (op s1).1 = (op s2).1 ∧ alike p (op s1).2 (op s2).2;
  local_keeps : ∀ s, is_Some (fs s.2 !! p) → is_Some (fs (op s).2.2 !! p);
  local_config : ∀ s, same_config s.1 (op s).2.1
}.

(** The same for a step on the process state alone. *)
Record local_world (p : string) {R : Type} (f : World → R * World) : Prop := {
  local_world_frame : ∀ w q, q ≠ p → fs (f w).2 !! q = fs w !! q;
  local_world_reads : ∀ w1 w2,
                        tempCount w1 = tempCount w2 → fs w1 !! p = fs w2 !! p →
                        (f w1).1 = (f w2).1 ∧
                        tempCount (f w1).2 = tempCount (f w2).2 ∧
                        fs (f w1).2 !! p = fs (f w2).2 !! p;
  local_world_keeps : ∀ w, is_Some (fs w !! p) → is_Some (fs (f w).2 !! p)
}.

(** A step that leaves the generator, and so its log, as it is. *)
Definition keeps_gen {R : Type} (op : M State R) : Prop :=
  ∀ s, (op s).2.1 = s.1.

(** A step that works on files only: it leaves the counter of [tempvar]
    and [codegen.Reserved] as they are. *)
Definition files_only {R : Type} (op : M State R) : Prop :=
  ∀ s, tempCount (op s).2.2 = tempCount s.2 ∧ Reserved (op s).2.2 = Reserved s.2.

Definition files_only_world {R : Type} (f : World → R * World) : Prop :=
  ∀ w, tempCount (f w).2 = tempCount w ∧ Reserved (f w).2 = Reserved w.

(** A step that records every path whose file it changes, and keeps the
    log it found. *)
Definition logs_changes {R : Type} (op : M State R) : Prop :=
  ∀ s p, (p ∈ genfiles s.1 → p ∈ genfiles (op s).2.1) ∧
         (fs (op s).2.2 !! p = fs s.2 !! p ∨ p ∈ genfiles (op s).2.1).

(** A state reached from the files [fs0] by creating files only: the files
    of [fs0] are there as they were, the recorded paths had no file in
    [fs0], and every other path that had none still has none. *)
Definition created_only (fs0 : gmap string string) (s : State) : Prop :=
  (∀ p c, fs0 !! p = Some c → fs s.2 !! p = Some c) ∧
  (∀ p, p ∈ genfiles s.1 → fs0 !! p = None) ∧
  (∀ p, fs0 !! p = None → p ∉ genfiles s.1 → fs s.2 !! p = None).

End Generator.

(** ** A sample design

    Concrete collaborators and a small design, to run the generator on. *)

(** A media type of the sample: its type name, the views it has, and
    whether it is the error media type. *)
Record SampleMT := {
  mt_TypeName : string;
  mt_Views : list string;
  mt_IsError : bool
}.

Definition upper (c : ascii) : ascii :=
  let n := nat_of_ascii c in
  if bool_decide (97 ≤ n ∧ n ≤ 122)%nat then ascii_of_nat (n - 32) else c.

Definition sample_Goify (s : string) (firstUpper : bool) : string :=
  match s with
  | String c t => if firstUpper then String (upper c) t else s
  | EmptyString => EmptyString
  end.

Definition sample_Project (mt : SampleMT) (view : string) : option SampleMT :=
  if bool_decide (view ∈ mt_Views mt) then
    Some {| mt_TypeName :=
              mt_TypeName mt +:+
              (if bool_decide (view = "default") then EmptyString
               else sample_Goify view true);
            mt_Views := [view];
            mt_IsError := mt_IsError mt |}
  else None.

(** The sample collaborators, failing where [open_fault] and [exec_fault]
    say so, with [fmt] for the formatting pass. *)
Definition sample (open_fault : string → option error) (exec_fault : string → string → string → option error) (fmt : string → result string) : Collaborators :=
  {| MediaTypeDefinition := SampleMT;
     CanonicalIdentifier := λ id, id;
     Project := sample_Project;
     IsError := mt_IsError;
     AllRequired := λ _, [];
     GoTypeRef := λ mt _ _ _, "*" +:+ mt_TypeName mt;
     GoNativeType := λ mt, mt_TypeName mt;
     Goify := sample_Goify;
     SnakeCase := λ s, s;
     PackagePath := λ dir, Ok dir;
     filepath_Join := λ dir f, dir +:+ "/" +:+ f;
     path_Join := λ dir f, dir +:+ "/" +:+ f;
     ToSlash := λ s, s;
     SplitHostPort := λ _, None;
     Quote := λ s, dq +:+ s +:+ dq;
     Header := λ _ pack _, "package " +:+ pack +:+ nl;
     gofmt := fmt;
     SourceFileFor_fault := open_fault;
     ExecuteTemplate_fault := exec_fault |}.

(** No fault at all. *)
Definition sample_ok : Collaborators :=
  sample (λ _, None) (λ _ _ _, None) Ok.

(** Rendering the controller template fails. *)
Definition sample_ctrl_fault : Collaborators :=
  sample (λ _, None)
    (λ name _ _, if bool_decide (name = "controller") then Some "render" else None)
    Ok.

(** Formatting fails on every file but the main one. *)
Definition sample_fmt_fault : Collaborators :=
  sample (λ _, None) (λ _ _ _, None)
    (λ content, if String.prefix "//go:generate" content then Ok content
                else Err "format").

Definition world0 : World :=
  {| fs := ∅; tempCount := 0; Reserved := ∅ |}.

Definition resp_ok : ResponseDefinition :=
  {| Resp_Name := "OK"; Resp_Status := 200;
     Resp_MediaType := "application/vnd.bottle"; Resp_ViewName := EmptyString |}.

Definition resp_ok_tiny : ResponseDefinition :=
  {| Resp_Name := "OK"; Resp_Status := 200;
     Resp_MediaType := "application/vnd.bottle"; Resp_ViewName := "tiny" |}.

Definition resp_ok_unknown : ResponseDefinition :=
  {| Resp_Name := "OK"; Resp_Status := 200;
     Resp_MediaType := "application/vnd.unknown"; Resp_ViewName := EmptyString |}.

Definition resp_ok_again : ResponseDefinition :=
  {| Resp_Name := "Found"; Resp_Status := 200;
     Resp_MediaType := "application/vnd.bottle"; Resp_ViewName := EmptyString |}.

Definition resp_not_found : ResponseDefinition :=
  {| Resp_Name := "NotFound"; Resp_Status := 404;
     Resp_MediaType := EmptyString; Resp_ViewName := EmptyString |}.

Definition action_of (name : string) (resps : list ResponseDefinition) : ActionDefinition :=
  {| Action_Name := name; Action_Parent_Name := "bottle";
     Action_Responses := list_to_map ((λ r, (Resp_Status r, r)) <$> resps);
     Action_WebSocket := false |}.

Definition show : ActionDefinition := action_of "show" [resp_ok; resp_not_found].
Definition show_tiny : ActionDefinition := action_of "show" [resp_ok_tiny; resp_not_found].
Definition show_unknown : ActionDefinition := action_of "show" [resp_ok_unknown].
Definition delete_action : ActionDefinition := action_of "delete" [resp_not_found].

(** An action with two responses of status 200, under keys that are not
    their status. *)
Definition show_twice : ActionDefinition :=
  {| Action_Name := "show"; Action_Parent_Name := "bottle";
     Action_Responses := {[ 1 := resp_ok; 2 := resp_ok_again ]};
     Action_WebSocket := false |}.

Definition bottle : ResourceDefinition :=
  {| Resource_Name := "bottle"; Resource_Actions := [delete_action; show] |}.

Definition bottle_mt : SampleMT :=
  {| mt_TypeName := "Bottle"; mt_Views := ["default"; "tiny"]; mt_IsError := false |}.

Definition sample_design {C : Collaborators} (mts : gmap string MediaTypeDefinition) : APIDefinition :=
  {| API_Name := "cellar"; API_Host := "localhost";
     API_Resources := [bottle]; API_MediaTypes := mts |}.

Definition sample_generator {C : Collaborators} (mts : gmap string MediaTypeDefinition) (force : bool) : Generator :=
  {| API := sample_design mts; OutDir := "out"; DesignPkg := "design";
     Target := "app"; Force := force; genfiles := [] |}.

Definition bottle_mts : gmap string SampleMT :=
  {[ "application/vnd.bottle" := bottle_mt ]}.

(** The sample design and its generator under the fault-free collaborators. *)
Definition demo_design : @APIDefinition sample_ok :=
  sample_design (C := sample_ok) bottle_mts.

Definition demo_generator (force : bool) : @Generator sample_ok :=
  sample_generator (C := sample_ok) bottle_mts force.

(** The sample design and its generator where rendering the controller
    template fails, and where formatting a resource file fails. *)
Definition ctrl_fault_design : @APIDefinition sample_ctrl_fault :=
  sample_design (C := sample_ctrl_fault) bottle_mts.

Definition ctrl_fault_generator : @Generator sample_ctrl_fault :=
  sample_generator (C := sample_ctrl_fault) bottle_mts false.

Definition fmt_fault_design : @APIDefinition sample_fmt_fault :=
  sample_design (C := sample_fmt_fault) bottle_mts.

Definition fmt_fault_generator : @Generator sample_fmt_fault :=
  sample_generator (C := sample_fmt_fault) bottle_mts false.

(** The package path of the output directory does not resolve. *)
Definition sample_pkg_fault : Collaborators :=
  {| MediaTypeDefinition := SampleMT;
     CanonicalIdentifier := λ id, id;
     Project := sample_Project;
     IsError := mt_IsError;
     AllRequired := λ _, [];
     GoTypeRef := λ mt _ _ _, "*" +:+ mt_TypeName mt;
     GoNativeType := λ mt, mt_TypeName mt;
     Goify := sample_Goify;
     SnakeCase := λ s, s;
     PackagePath := λ _, Err "no package";
     filepath_Join := λ dir f, dir +:+ "/" +:+ f;
     path_Join := λ dir f, dir +:+ "/" +:+ f;
     ToSlash := λ s, s;
     SplitHostPort := λ _, None;
     Quote := λ s, dq +:+ s +:+ dq;
     Header := λ _ pack _, "package " +:+ pack +:+ nl;
     gofmt := Ok;
     SourceFileFor_fault := λ _, None;
     ExecuteTemplate_fault := λ _ _ _, None |}.

Definition pkg_fault_design : @APIDefinition sample_pkg_fault :=
  sample_design (C := sample_pkg_fault) bottle_mts.

Definition pkg_fault_forced : @Generator sample_pkg_fault :=
  sample_generator (C := sample_pkg_fault) bottle_mts true.

(** The generator of the formatting fault, with force. *)
Definition fmt_fault_forced : @Generator sample_fmt_fault :=
  sample_generator (C := sample_fmt_fault) bottle_mts true.

(** The error media type, and an action that answers 200 with it. *)
Definition error_mt : SampleMT :=
  {| mt_TypeName := "error"; mt_Views := ["default"]; mt_IsError := true |}.

Definition resp_ok_error : ResponseDefinition :=
  {| Resp_Name := "OK"; Resp_Status := 200;
     Resp_MediaType := "application/vnd.goa.error"; Resp_ViewName := EmptyString |}.

Definition show_error : ActionDefinition := action_of "show" [resp_ok_error].

Definition error_design : @APIDefinition sample_ok :=
  sample_design (C := sample_ok) {[ "application/vnd.goa.error" := error_mt ]}.

Definition error_generator : @Generator sample_ok :=
  sample_generator (C := sample_ok) {[ "application/vnd.goa.error" := error_mt ]} false.

(** A streaming action and its resource. *)
Definition watch : ActionDefinition :=
  {| Action_Name := "watch"; Action_Parent_Name := "feed";
     Action_Responses := ∅; Action_WebSocket := true |}.

Definition feed : ResourceDefinition :=
  {| Resource_Name := "feed"; Resource_Actions := [watch] |}.

(** The flags of a run of the entry point on the sample. *)
Definition sample_flags (force : bool) : Flags :=
  {| flag_out := "out"; flag_design := "design"; flag_pkg := "app";
     flag_version := "v1"; flag_force := force |}.

(** The sample with the streaming resource beside the bottles. *)
Definition stream_design : @APIDefinition sample_ok :=
  @Build_APIDefinition sample_ok "cellar" "localhost:8081" [bottle; feed] bottle_mts.

Definition stream_generator (force : bool) : @Generator sample_ok :=
  @Build_Generator sample_ok stream_design "out" "design" EmptyString force [].

(** A process state with hand-edited files at both target paths. *)
Definition world_old : World :=
  {| fs := {[ "out/main.go" := "// edited"; "out/bottle.go" := "// edited" ]};
     tempCount := 0; Reserved := ∅ |}.

(** The same, with a file of the user's beside them. *)
Definition world_notes : World :=
  set_fs <["out/README.md" := "notes"]> world_old.

(** * Properties *)

(** ** The temp-name allocator *)

Lemma int_wrap_small (z : Z) : - 2 ^ 63 ≤ z < 2 ^ 63 → int_wrap z = z.
Proof. intros Hz. unfold int_wrap. rewrite Z.mod_small by lia. lia. Qed.

Lemma int_wrap_range (z : Z) : - 2 ^ 63 ≤ int_wrap z < 2 ^ 63.
Proof.
  unfold int_wrap.
  pose proof (Z.mod_pos_bound (z + 2 ^ 63) (2 ^ 64) ltac:(lia)). lia.
Qed.

Lemma int_wrap_succ (z : Z) : int_wrap (int_wrap z + 1) = int_wrap (z + 1).
Proof.
  unfold int_wrap. f_equal.
  replace ((z + 2 ^ 63) `mod` 2 ^ 64 - 2 ^ 63 + 1 + 2 ^ 63)
    with ((z + 2 ^ 63) `mod` 2 ^ 64 + 1) by lia.
  replace (z + 1 + 2 ^ 63) with ((z + 2 ^ 63) + 1) by lia.
  by rewrite Zplus_mod_idemp_l.
Qed.

Lemma after_calls_succ (n : N) (w : World) :
  after_calls (N.succ n) w = (tempvar (after_calls n w)).2.
Proof. unfold after_calls. by rewrite N.iter_succ. Qed.

Lemma after_calls_shift (n : N) (w : World) :
  after_calls (N.succ n) w = after_calls n (tempvar w).2.
Proof.
  unfold after_calls. rewrite N.iter_succ.
  by rewrite (N.iter_swap n World (λ w, (tempvar w).2)).
Qed.

Lemma after_calls_tempCount (n : N) (w : World) :
  - 2 ^ 63 ≤ tempCount w < 2 ^ 63 →
  tempCount (after_calls n w) = int_wrap (tempCount w + Z.of_N n).
Proof.
  intros Hw. induction n as [|n IH] using N.peano_ind.
  - unfold after_calls. simpl. rewrite Z.add_0_r. by rewrite int_wrap_small.
  - rewrite after_calls_succ. unfold tempvar at 1. simpl. rewrite IH.
    rewrite int_wrap_succ. f_equal. lia.
Qed.

Lemma kth_call_eq (k : N) (w : World) :
  - 2 ^ 63 ≤ tempCount w < 2 ^ 63 → (1 ≤ k)%N →
  kth_call k w = temp_name (int_wrap (tempCount w + Z.of_N k)).
Proof.
  intros Hw Hk. unfold kth_call, tempvar. simpl.
  rewrite after_calls_tempCount by done. rewrite int_wrap_succ.
  do 2 f_equal. lia.
Qed.

Lemma tempvars_S (n : nat) (w : World) :
  (tempvars (S n) w).1 = (tempvar w).1 :: (tempvars n (tempvar w).2).1.
Proof.
  simpl. by destruct (tempvars n _) as [xs w2].
Qed.

Lemma kth_call_1 (w : World) : kth_call 1 w = (tempvar w).1.
Proof. done. Qed.

Lemma kth_call_shift (k : N) (w : World) :
  (1 ≤ k)%N → kth_call (N.succ k) w = kth_call k (tempvar w).2.
Proof.
  intros Hk. unfold kth_call.
  replace (N.succ k - 1)%N with (N.succ (k - 1)) by lia.
  by rewrite after_calls_shift.
Qed.

Lemma tempvars_lookup (n : nat) (w : World) (i : nat) :
  (i < n)%nat → (tempvars n w).1 !! i = Some (kth_call (N.of_nat (S i)) w).
Proof.
  revert w i. induction n as [|n IH]; intros w i Hi; [lia|].
  rewrite tempvars_S. destruct i as [|i].
  - by rewrite kth_call_1.
  - cbn [lookup list_lookup]. rewrite IH by lia. f_equal.
    rewrite (Nat2N.inj_succ (S i)). by rewrite kth_call_shift by lia.
Qed.

Lemma tempvars_length (n : nat) (w : World) : length (tempvars n w).1 = n.
Proof.
  revert w. induction n as [|n IH]; intros w; [done|].
  rewrite tempvars_S. cbn [length]. by rewrite IH.
Qed.

Lemma pretty_N_go_nonempty (x : N) (s : string) :
  s ≠ EmptyString → pretty_N_go x s ≠ EmptyString.
Proof.
  revert s. induction (N.lt_wf_0 x) as [x _ IH]; intros s Hs.
  assert (x = 0 ∨ 0 < x)%N as [->|?] by lia.
  - by rewrite pretty_N_go_0.
  - rewrite pretty_N_go_step by done. apply IH; [by apply N.div_lt|done].
Qed.

Lemma pretty_N_nonempty (x : N) : pretty x ≠ EmptyString.
Proof.
  unfold pretty, pretty_N. case_decide; [done|].
  rewrite pretty_N_go_step by lia. by apply pretty_N_go_nonempty.
Qed.

Lemma pretty_Z_nonempty (z : Z) : pretty z ≠ EmptyString.
Proof.
  destruct z as [|p|p]; unfold pretty, pretty_Z; [done| |done].
  apply pretty_N_nonempty.
Qed.

Lemma temp_name_inj (a b : Z) : temp_name a = temp_name b → a = b.
Proof.
  unfold temp_name. repeat case_bool_decide; subst; try done.
  - intros [= Heq]. by destruct (pretty_Z_nonempty b).
  - intros [= Heq]. by destruct (pretty_Z_nonempty a).
  - intros [= Heq]. by apply (inj pretty).
Qed.

Lemma tempvars_state (n : nat) (w : World) :
  (tempvars n w).2 = after_calls (N.of_nat n) w.
Proof.
  revert w. induction n as [|n IH]; intros w; [done|].
  rewrite Nat2N.inj_succ, after_calls_shift, <- IH.
  simpl. by destruct (tempvars n _).
Qed.

(** C8, as the code has it: within the first 2^63 - 1 calls of a process
    (the counter starts at 0), [n] consecutive calls of [tempvar] return [n]
    pairwise distinct names, "c" at the first call and "c" followed by the
    decimal [k] at the [k]-th call for [k >= 2], and leave the counter at
    [n]. *)
Theorem tempvar_names (n : nat) (w : World) :
  tempCount w = 0 → Z.of_nat n < 2 ^ 63 →
  length (tempvars n w).1 = n ∧
  NoDup (tempvars n w).1 ∧
  (∀ k : nat, (1 ≤ k ≤ n)%nat →
     (tempvars n w).1 !! (k - 1)%nat =
       Some (if bool_decide (k = 1%nat) then "c" else "c" +:+ pretty (Z.of_nat k))) ∧
  tempCount (tempvars n w).2 = Z.of_nat n.
Proof.
  intros Hw Hn.
  assert (Hk : ∀ i : nat, (i < n)%nat →
            (tempvars n w).1 !! i = Some (temp_name (Z.of_nat (S i)))).
  { intros i Hi. rewrite tempvars_lookup by done. f_equal.
    rewrite kth_call_eq by lia. rewrite Hw, int_wrap_small by lia.
    f_equal; lia. }
  split_and!.
  - apply tempvars_length.
  - apply NoDup_alt. intros i j x Hi Hj.
    pose proof (lookup_lt_Some _ _ _ Hi) as Hi'.
    pose proof (lookup_lt_Some _ _ _ Hj) as Hj'.
    rewrite tempvars_length in Hi', Hj'.
    rewrite Hk in Hi, Hj by done.
    assert (Z.of_nat (S i) = Z.of_nat (S j)) by (apply temp_name_inj; congruence).
    lia.
  - intros k Hk1. rewrite Hk by lia. f_equal.
    replace (S (k - 1)) with k by lia. unfold temp_name.
    repeat case_bool_decide; try done; lia.
  - rewrite tempvars_state, after_calls_tempCount by lia.
    rewrite Hw, int_wrap_small by lia. lia.
Qed.

Lemma tempvar_names_witness :
  tempCount world0 = 0 ∧ Z.of_nat 3 < 2 ^ 63 ∧
  NoDup (tempvars 3 world0).1 ∧
  (tempvars 3 world0).1 !! 2%nat = Some "c3".
Proof.
  split; [reflexivity|]. split; [reflexivity|].
  destruct (tempvar_names 3 world0 eq_refl eq_refl) as (_ & Hnodup & Hk & _).
  split; [exact Hnodup|]. exact (Hk 3%nat (conj (le_S _ _ (le_S _ _ (le_n 1))) (le_n 3))).
Defined.

(** C8 as stated fails where Go's [int] overflows: the call number 2^63
    returns "c-9223372036854775808", not "c" followed by the decimal
    number of the call, and the call number 2^64 + 1 returns the name of the
    first call again. *)
Lemma tempvar_overflow :
  kth_call 9223372036854775808 world0 = "c-9223372036854775808" ∧
  kth_call 9223372036854775808 world0 ≠ "c" +:+ pretty 9223372036854775808%Z ∧
  kth_call 18446744073709551617 world0 = kth_call 1 world0.
Proof.
  assert (H0 : - 2 ^ 63 ≤ tempCount world0 < 2 ^ 63) by (simpl; lia).
  rewrite !kth_call_eq by (done || lia).
  split_and!; by vm_compute.
Qed.

(** ** Strings *)

Lemma append_cons (c : ascii) (s t : string) :
  String c s +:+ t = String c (s +:+ t).
Proof. reflexivity. Qed.

Lemma append_nil_l (s : string) : EmptyString +:+ s = s.
Proof. reflexivity. Qed.

Lemma append_nil_r (s : string) : s +:+ EmptyString = s.
Proof.
  induction s as [|c s IH]; [done|]. rewrite append_cons. by f_equal.
Qed.

Lemma append_cancel_l (s t : string) : s +:+ t = s → t = EmptyString.
Proof.
  intros H. apply (inj (String.append s)). by rewrite append_nil_r.
Qed.

Lemma HasSuffix_append (s suffix : string) : HasSuffix (s +:+ suffix) suffix = true.
Proof.
  induction s as [|c s IH].
  - rewrite append_nil_l. destruct suffix as [|c t]; simpl; [done|].
    by rewrite bool_decide_eq_true_2.
  - rewrite append_cons. simpl. rewrite IH. apply orb_true_r.
Qed.

(** ** Running a step *)

Lemma bind_run {S R R' : Type} (m : M S R) (k : R → M S R') (s : S) :
  bind m k s = k (m s).1 (m s).2.
Proof. unfold bind. by destruct (m s). Qed.

Lemma per_action_run {C : Collaborators} (D : APIDefinition) (filename : string) (a : ActionDefinition) (g : Generator) (w : World) :
  per_action D filename a (g, w) =
    if Action_WebSocket a then
      ((ExecuteTemplate filename "actionWS" (actionWST g a) w).1,
       (g, (ExecuteTemplate filename "actionWS" (actionWST g a) w).2))
    else
      ((ExecuteTemplate filename "action" (actionT D g a) w).1,
       (g, (ExecuteTemplate filename "action" (actionT D g a) w).2)).
Proof.
  unfold per_action. rewrite bind_run. unfold get_gen, on_world. cbn [fst snd].
  destruct (Action_WebSocket a); cbn beta; cbn [fst snd];
    by destruct (ExecuteTemplate _ _ _ w).
Qed.

(** ** The success-response resolver *)

Section okResp_properties.
Context {C : Collaborators}.
Variable Design : APIDefinition.

Lemma elem_of_range_values (m : gmap Z ResponseDefinition) (resp : ResponseDefinition) :
  resp ∈ range_values m ↔ ∃ k, m !! k = Some resp.
Proof.
  unfold range_values. rewrite list_elem_of_fmap. split.
  - intros ([k r] & -> & Hin). exists k. by apply elem_of_map_to_list.
  - intros [k Hk]. exists (k, resp). split; [done|]. by apply elem_of_map_to_list.
Qed.

Lemma find_ok_Some (visited : list ResponseDefinition) (resp : ResponseDefinition) :
  find_ok visited = Some resp → resp ∈ visited ∧ Resp_Status resp = 200.
Proof.
  intros H. apply find_some in H as [Hin Hst].
  split; [by apply list_elem_of_In|]. by apply bool_decide_eq_true in Hst.
Qed.

Lemma find_ok_None (visited : list ResponseDefinition) :
  find_ok visited = None ↔ ∀ resp, resp ∈ visited → Resp_Status resp ≠ 200.
Proof.
  split.
  - intros H resp Hin Hst.
    pose proof (find_none _ _ H resp (proj1 (list_elem_of_In _ _) Hin)) as Hf.
    apply bool_decide_eq_false in Hf. done.
  - intros H. destruct (find_ok visited) as [resp|] eqn:Hf; [|done].
    apply find_ok_Some in Hf as [Hin Hst]. by destruct (H resp Hin).
Qed.

(** Whatever the order [range] visits a mapping keyed by status code in,
    the loop ends on the entry at 200. *)
Lemma find_ok_keyed (m : gmap Z ResponseDefinition) (visited : list ResponseDefinition) :
  keyed_by_status m → visited ≡ₚ range_values m → find_ok visited = m !! 200.
Proof.
  intros Hkey Hperm. destruct (find_ok visited) as [resp|] eqn:Hf.
  - apply find_ok_Some in Hf as [Hin Hst]. rewrite Hperm in Hin.
    apply elem_of_range_values in Hin as [k Hk].
    pose proof (map_Forall_lookup_1 _ _ _ _ Hkey Hk) as Hk'. simpl in Hk'.
    by rewrite <- Hst, Hk'.
  - destruct (m !! 200) as [resp|] eqn:Hm; [|done].
    pose proof (map_Forall_lookup_1 _ _ _ _ Hkey Hm) as Hst. simpl in Hst.
    pose proof (proj1 (find_ok_None visited) Hf resp) as Hno.
    destruct Hno; [|done]. rewrite Hperm. apply elem_of_range_values. eauto.
Qed.

Lemma okResp_is_Some (g : Generator) (a : ActionDefinition) :
  is_Some (okResp Design g a) ↔
  ∃ resp mt,
    find_ok (range_values (Action_Responses a)) = Some resp ∧
    API_MediaTypes Design !! CanonicalIdentifier (Resp_MediaType resp) = Some mt ∧
    is_Some (Project mt (effective_view resp)).
Proof.
  unfold okResp, okResp_visiting, okResp_of. split.
  - destruct (find_ok _) as [resp|]; [|by intros [? ?]].
    destruct (API_MediaTypes Design !! _) as [mt|] eqn:Hmt; [|by intros [? ?]].
    destruct (Project mt _) as [pmt|] eqn:Hp; [|by intros [? ?]].
    intros _. exists resp, mt. rewrite Hp. eauto.
  - intros (resp & mt & -> & -> & [pmt ->]). eauto.
Qed.

Lemma okResp_resolved (g : Generator) (a : ActionDefinition) (resp : ResponseDefinition) (mt pmt : MediaTypeDefinition) :
  find_ok (range_values (Action_Responses a)) = Some resp →
  API_MediaTypes Design !! CanonicalIdentifier (Resp_MediaType resp) = Some mt →
  Project mt (effective_view resp) = Some pmt →
  okResp Design g a =
    Some {| Name := Resp_Name resp +:+ name_suffix (effective_view resp);
            GoType := GoNativeType pmt;
            TypeRef := typeref_of g pmt |}.
Proof.
  intros Hf Hmt Hp. unfold okResp, okResp_visiting, okResp_of.
  by rewrite Hf, Hmt, Hp.
Qed.


Lemma okResp_no_200 (g : Generator) (a : ActionDefinition) :
  (∀ k resp, Action_Responses a !! k = Some resp → Resp_Status resp ≠ 200) →
  okResp Design g a = None.
Proof.
  intros H. unfold okResp, okResp_visiting.
  assert (find_ok (range_values (Action_Responses a)) = None) as ->; [|done].
  apply find_ok_None. intros resp [k Hk]%elem_of_range_values. eauto.
Qed.

(** The action template on an action without a success descriptor. *)
Lemma actionT_nil (g : Generator) (a : ActionDefinition) :
  okResp Design g a = None →
  actionT Design g a = actionT_head g a +:+ " return nil" +:+ nl +:+ "}" +:+ nl.
Proof. intros H. unfold actionT. by rewrite H. Qed.

(** C2, as the code has it: [okResp] produces a descriptor only if some
    entry of the action's response mapping has status code exactly 200,
    and exactly when the 200 entry the loop finds has a media type that
    resolves and projects through the effective view; when no entry has
    status 200 [okResp] returns empty and the handler the action template
    emits ends in [return nil], with no [res := ...] line. *)
Theorem okResp_status_200 (g : Generator) (a : ActionDefinition) :
  (is_Some (okResp Design g a) →
     ∃ k resp, Action_Responses a !! k = Some resp ∧ Resp_Status resp = 200) ∧
  (is_Some (okResp Design g a) ↔
     ∃ resp mt,
       find_ok (range_values (Action_Responses a)) = Some resp ∧
       API_MediaTypes Design !! CanonicalIdentifier (Resp_MediaType resp) = Some mt ∧
       is_Some (Project mt (effective_view resp))) ∧
  ((∀ k resp, Action_Responses a !! k = Some resp → Resp_Status resp ≠ 200) →
     okResp Design g a = None ∧
     actionT Design g a = actionT_head g a +:+ " return nil" +:+ nl +:+ "}" +:+ nl).
Proof.
  split_and!.
  - intros (resp & mt & Hf & _)%okResp_is_Some.
    apply find_ok_Some in Hf as [[k Hk]%elem_of_range_values Hst]. eauto.
  - apply okResp_is_Some.
  - intros H. pose proof (okResp_no_200 g a H) as Hnone.
    split; [done|]. by apply actionT_nil.
Qed.


(** C4: for a resolvable 200 response the view projected through is the
    response's view name when it is not empty and "default" otherwise; the
    descriptor's name is the response's name when that view is "default"
    and the response's name followed by [Goify view true] when it is not
    (so the two names agree only for the default view, or where [Goify]
    returns the empty string). *)
Theorem okResp_view_name (g : Generator) (a : ActionDefinition) (resp : ResponseDefinition) (mt pmt : MediaTypeDefinition) :
  find_ok (range_values (Action_Responses a)) = Some resp →
  API_MediaTypes Design !! CanonicalIdentifier (Resp_MediaType resp) = Some mt →
  Project mt (effective_view resp) = Some pmt →
  (Resp_ViewName resp ≠ EmptyString → effective_view resp = Resp_ViewName resp) ∧
  (Resp_ViewName resp = EmptyString → effective_view resp = "default") ∧
  ∃ d, okResp Design g a = Some d ∧
       GoType d = GoNativeType pmt ∧
       (effective_view resp = "default" → Name d = Resp_Name resp) ∧
       (effective_view resp ≠ "default" →
          Name d = Resp_Name resp +:+ Goify (effective_view resp) true) ∧
       (Name d = Resp_Name resp ↔
          effective_view resp = "default" ∨ Goify (effective_view resp) true = EmptyString).
Proof.
  intros Hf Hmt Hp. split_and!.
  - intros Hv. unfold effective_view. by rewrite bool_decide_eq_false_2.
  - intros Hv. unfold effective_view. by rewrite bool_decide_eq_true_2.
  - eexists. split; [by apply (okResp_resolved g a resp mt pmt)|]. simpl.
    unfold name_suffix. split_and!; [done|..].
    + intros Hv. rewrite bool_decide_eq_false_2 by (by intros []).
      apply append_nil_r.
    + intros Hv. by rewrite bool_decide_eq_true_2.
    + case_bool_decide as Hv.
      * split; [intros ?%append_cancel_l; by right|].
        intros [?| ->]; [done|]. apply append_nil_r.
      * split; [intros _; left; by destruct (decide (effective_view resp = "default"))|].
        intros _. apply append_nil_r.
Qed.

End okResp_properties.

Lemma append_assoc (s t u : string) : (s +:+ t) +:+ u = s +:+ (t +:+ u).
Proof.
  induction s as [|c s IH]; [done|]. rewrite !append_cons. by f_equal.
Qed.

Lemma HasPrefix_star_append (s t : string) :
  s ≠ EmptyString → HasPrefix_star (s +:+ t) = HasPrefix_star s.
Proof. destruct s as [|c s]; [done|]. by rewrite append_cons. Qed.

Lemma HasPrefix_star_cons (s : string) :
  HasPrefix_star s = true → s = "*" +:+ slice1 s.
Proof.
  destruct s as [|c s]; [done|]. simpl. intros ->%bool_decide_eq_true. done.
Qed.

Section typeref_properties.
Context {C : Collaborators}.
Variable Design : APIDefinition.

Lemma qualified_nonempty (target name : string) :
  target +:+ "." +:+ name ≠ EmptyString.
Proof. by destruct target. Qed.

(** The constructor expression of a media type that is not error-shaped. *)
Lemma typeref_of_shape (g : Generator) (pmt : MediaTypeDefinition) :
  IsError pmt = false →
  HasSuffix (typeref_of g pmt) "{}" = true ∧
  HasPrefix_star (typeref_of g pmt) = false ∧
  (HasPrefix_star (GoTypeRef pmt (AllRequired pmt) 1 false) = true →
     typeref_of g pmt =
       "&" +:+ Target g +:+ "." +:+
       slice1 (GoTypeRef pmt (AllRequired pmt) 1 false) +:+ "{}") ∧
  (HasPrefix_star (GoTypeRef pmt (AllRequired pmt) 1 false) = false →
     HasPrefix_star (Target g) = false →
     typeref_of g pmt =
       Target g +:+ "." +:+ GoTypeRef pmt (AllRequired pmt) 1 false +:+ "{}").
Proof.
  intros Herr. unfold typeref_of. rewrite Herr.
  set (name := GoTypeRef pmt (AllRequired pmt) 1 false).
  destruct (HasPrefix_star name) eqn:Hname.
  - change ("*" +:+ Target g +:+ "." +:+ slice1 name)
      with (String "*"%char (Target g +:+ "." +:+ slice1 name)).
    cbn [HasPrefix_star slice1]. rewrite bool_decide_eq_true_2 by done.
    split_and!; [apply HasSuffix_append|done| |done].
    intros _. by rewrite !append_assoc.
  - rewrite append_nil_l.
    destruct (HasPrefix_star (Target g +:+ "." +:+ name)) eqn:Hq.
    + split_and!; [apply HasSuffix_append|done|done|].
      intros _ Ht. rewrite HasPrefix_star_append in Hq; [congruence|].
      intros Hempty. rewrite Hempty in Hq. done.
    + split_and!; [apply HasSuffix_append| |done|].
      * rewrite HasPrefix_star_append by apply qualified_nonempty. done.
      * intros _ _. by rewrite !append_assoc.
Qed.

(** C10: for a resolvable 200 response whose projected media type is not
    error-shaped, the [TypeRef] of the descriptor ends with "{}" and does
    not begin with "*": when [GoTypeRef] returns a name that begins with
    "*" it is "&", the target package, "." and the rest of the name, and
    otherwise (the target package being a name that does not itself begin
    with "*") it is the target package, "." and the name. *)
Theorem okResp_typeref (g : Generator) (a : ActionDefinition) (resp : ResponseDefinition) (mt pmt : MediaTypeDefinition) :
  find_ok (range_values (Action_Responses a)) = Some resp →
  API_MediaTypes Design !! CanonicalIdentifier (Resp_MediaType resp) = Some mt →
  Project mt (effective_view resp) = Some pmt →
  IsError pmt = false →
  ∃ d, okResp Design g a = Some d ∧
       HasSuffix (TypeRef d) "{}" = true ∧
       HasPrefix_star (TypeRef d) = false ∧
       (HasPrefix_star (GoTypeRef pmt (AllRequired pmt) 1 false) = true →
          TypeRef d =
            "&" +:+ Target g +:+ "." +:+
            slice1 (GoTypeRef pmt (AllRequired pmt) 1 false) +:+ "{}") ∧
       (HasPrefix_star (GoTypeRef pmt (AllRequired pmt) 1 false) = false →
          HasPrefix_star (Target g) = false →
          TypeRef d =
            Target g +:+ "." +:+ GoTypeRef pmt (AllRequired pmt) 1 false +:+ "{}").
Proof.
  intros Hf Hmt Hp Herr. eexists.
  split; [by apply (okResp_resolved Design g a resp mt pmt)|].
  simpl. by apply typeref_of_shape.
Qed.

End typeref_properties.

(** ** Determinism of the resolver *)

Section okResp_determinism.
Context {C : Collaborators}.

Lemma typeref_of_Target (g1 g2 : Generator) (pmt : MediaTypeDefinition) :
  Target g1 = Target g2 → typeref_of g1 pmt = typeref_of g2 pmt.
Proof. intros H. unfold typeref_of. by rewrite H. Qed.

Lemma okResp_of_frame (D1 D2 : APIDefinition) (g1 g2 : Generator) (ok : option ResponseDefinition) :
  API_MediaTypes D1 = API_MediaTypes D2 → Target g1 = Target g2 →
  okResp_of D1 g1 ok = okResp_of D2 g2 ok.
Proof.
  intros HD Hg. unfold okResp_of. destruct ok as [resp|]; [|done].
  rewrite HD. destruct (API_MediaTypes D2 !! _) as [mt|]; [|done].
  destruct (Project mt _) as [pmt|]; [|done].
  by rewrite (typeref_of_Target g1 g2 pmt Hg).
Qed.

Lemma file_Write_frame (p : string) (text : string) (w : World) :
  tempCount (file_Write p text w) = tempCount w ∧
  Reserved (file_Write p text w) = Reserved w ∧
  ∀ q, q ≠ p → fs (file_Write p text w) !! q = fs w !! q.
Proof.
  split_and!; [done|done|]. intros q Hq. simpl. by rewrite lookup_insert_ne.
Qed.

Lemma find_ok_cons_200 (resp : ResponseDefinition) (rest : list ResponseDefinition) :
  Resp_Status resp = 200 → find_ok (resp :: rest) = Some resp.
Proof. intros H. unfold find_ok. cbn [find]. by rewrite bool_decide_eq_true_2. Qed.

(** Two visiting orders of the same responses give the same descriptor
    when all the responses of status 200 give the same one. *)
Lemma okResp_visiting_perm (D1 D2 : APIDefinition) (g1 g2 : Generator) (vals visited1 visited2 : list ResponseDefinition) :
  API_MediaTypes D1 = API_MediaTypes D2 →
  Target g1 = Target g2 →
  (∀ r1 r2, r1 ∈ vals → r2 ∈ vals → Resp_Status r1 = 200 → Resp_Status r2 = 200 →
            okResp_of D1 g1 (Some r1) = okResp_of D1 g1 (Some r2)) →
  visited1 ≡ₚ vals → visited2 ≡ₚ vals →
  okResp_visiting D1 g1 visited1 = okResp_visiting D2 g2 visited2.
Proof.
  intros HD Hg Hsame H1 H2. unfold okResp_visiting.
  rewrite <- (okResp_of_frame D1 D2 g1 g2 (find_ok visited2) HD Hg).
  destruct (find_ok visited1) as [r1|] eqn:Hf1, (find_ok visited2) as [r2|] eqn:Hf2.
  - apply find_ok_Some in Hf1 as [Hin1 Hst1]. apply find_ok_Some in Hf2 as [Hin2 Hst2].
    rewrite H1 in Hin1. rewrite H2 in Hin2. by apply Hsame.
  - apply find_ok_Some in Hf1 as [Hin1 Hst1].
    rewrite H1, <- H2 in Hin1. by destruct (proj1 (find_ok_None visited2) Hf2 r1 Hin1).
  - apply find_ok_Some in Hf2 as [Hin2 Hst2].
    rewrite H2, <- H1 in Hin2. by destruct (proj1 (find_ok_None visited1) Hf1 r2 Hin2).
  - done.
Qed.

Lemma keyed_one_200 (m : gmap Z ResponseDefinition) (r1 r2 : ResponseDefinition) :
  keyed_by_status m →
  r1 ∈ range_values m → r2 ∈ range_values m →
  Resp_Status r1 = 200 → Resp_Status r2 = 200 → r1 = r2.
Proof.
  intros Hkey [k1 H1]%elem_of_range_values [k2 H2]%elem_of_range_values Hs1 Hs2.
  pose proof (map_Forall_lookup_1 _ _ _ _ Hkey H1) as Hk1.
  pose proof (map_Forall_lookup_1 _ _ _ _ Hkey H2) as Hk2.
  cbn beta in Hk1, Hk2. congruence.
Qed.

(** C7, as the code has it: [okResp] assigns nothing but its locals, and
    what it returns is a function of the responses in the order the range
    visits them, of [design.Design.MediaTypes] and of the target package.
    Every two visiting orders of an action's responses give the same
    descriptor exactly when all its responses of status 200 give the same
    one; so they do for an action with at most one response of status 200,
    and so for a mapping keyed by status code, and the descriptor is then
    the one of [okResp]. *)
Theorem okResp_deterministic (D1 D2 : APIDefinition) (g1 g2 : Generator) (a : ActionDefinition) :
  API_MediaTypes D1 = API_MediaTypes D2 →
  Target g1 = Target g2 →
  ((∀ visited1 visited2,
      visited1 ≡ₚ range_values (Action_Responses a) →
      visited2 ≡ₚ range_values (Action_Responses a) →
      okResp_visiting D1 g1 visited1 = okResp_visiting D2 g2 visited2) ↔
   (∀ r1 r2,
      r1 ∈ range_values (Action_Responses a) →
      r2 ∈ range_values (Action_Responses a) →
      Resp_Status r1 = 200 → Resp_Status r2 = 200 →
      okResp_of D1 g1 (Some r1) = okResp_of D1 g1 (Some r2))) ∧
  ((∀ r1 r2,
      r1 ∈ range_values (Action_Responses a) →
      r2 ∈ range_values (Action_Responses a) →
      Resp_Status r1 = 200 → Resp_Status r2 = 200 → r1 = r2) →
   ∀ visited1 visited2,
     visited1 ≡ₚ range_values (Action_Responses a) →
     visited2 ≡ₚ range_values (Action_Responses a) →
     okResp_visiting D1 g1 visited1 = okResp D1 g1 a ∧
     okResp_visiting D2 g2 visited2 = okResp D1 g1 a) ∧
  (keyed_by_status (Action_Responses a) →
   ∀ r1 r2,
     r1 ∈ range_values (Action_Responses a) →
     r2 ∈ range_values (Action_Responses a) →
     Resp_Status r1 = 200 → Resp_Status r2 = 200 → r1 = r2).
Proof.
  intros HD Hg. split_and!.
  - split.
    + intros Hall r1 r2 Hin1 Hin2 Hs1 Hs2.
      apply elem_of_Permutation in Hin1 as [k1 Hk1].
      apply elem_of_Permutation in Hin2 as [k2 Hk2].
      pose proof (Hall (r1 :: k1) (r2 :: k2) (symmetry Hk1) (symmetry Hk2)) as Heq.
      unfold okResp_visiting in Heq.
      rewrite (find_ok_cons_200 r1 k1 Hs1), (find_ok_cons_200 r2 k2 Hs2) in Heq.
      rewrite Heq. symmetry. by apply okResp_of_frame.
    + intros Hsame visited1 visited2 H1 H2.
      by apply (okResp_visiting_perm D1 D2 g1 g2 (range_values (Action_Responses a))).
  - intros Hone visited1 visited2 H1 H2.
    assert (Hsame : ∀ r1 r2,
              r1 ∈ range_values (Action_Responses a) →
              r2 ∈ range_values (Action_Responses a) →
              Resp_Status r1 = 200 → Resp_Status r2 = 200 →
              okResp_of D1 g1 (Some r1) = okResp_of D1 g1 (Some r2)).
    { intros r1 r2 Hin1 Hin2 Hs1 Hs2. by rewrite (Hone r1 r2 Hin1 Hin2 Hs1 Hs2). }
    split.
    + by apply (okResp_visiting_perm D1 D1 g1 g1 (range_values (Action_Responses a))).
    + symmetry.
      by apply (okResp_visiting_perm D1 D2 g1 g2 (range_values (Action_Responses a))).
  - intros Hkey r1 r2. by apply keyed_one_200.
Qed.

End okResp_determinism.

(** ** The resolver on the sample design *)

(** C2 as stated fails: an action whose 200 response names a media type
    that is not in [design.Design.MediaTypes] has an entry with status 200
    and no descriptor. *)
Lemma okResp_200_not_sufficient :
  ¬ (is_Some (okResp demo_design (demo_generator false) show_unknown) ↔
     ∃ k resp, Action_Responses show_unknown !! k = Some resp ∧ Resp_Status resp = 200).
Proof.
  intros [_ H].
  assert (Hnone : okResp demo_design (demo_generator false) show_unknown = None)
    by (vm_compute; reflexivity).
  rewrite Hnone in H. destruct H as [d Hd]; [|discriminate Hd].
  exists 200, resp_ok_unknown. split; vm_compute; reflexivity.
Qed.


Lemma okResp_view_name_witness :
  find_ok (range_values (Action_Responses show_tiny)) = Some resp_ok_tiny ∧
  API_MediaTypes demo_design !! "application/vnd.bottle" = Some bottle_mt ∧
  is_Some (sample_Project bottle_mt "tiny") ∧
  ∃ d, okResp demo_design (demo_generator false) show_tiny = Some d ∧
       Name d = "OK" +:+ "Tiny".
Proof.
  assert (H1 : find_ok (range_values (Action_Responses show_tiny)) = Some resp_ok_tiny)
    by (vm_compute; reflexivity).
  assert (H2 : API_MediaTypes demo_design !! "application/vnd.bottle" = Some bottle_mt)
    by (vm_compute; reflexivity).
  destruct (sample_Project bottle_mt "tiny") as [pmt|] eqn:H3; [|discriminate H3].
  split; [exact H1|]. split; [exact H2|]. split; [by exists pmt|].
  destruct (okResp_view_name demo_design (demo_generator false) show_tiny
              resp_ok_tiny bottle_mt pmt H1 H2 H3)
    as (_ & _ & d & Hd & _ & _ & Hname & _).
  exists d. split; [exact Hd|]. apply Hname. discriminate.
Defined.

Lemma okResp_typeref_witness :
  find_ok (range_values (Action_Responses show)) = Some resp_ok ∧
  API_MediaTypes demo_design !! "application/vnd.bottle" = Some bottle_mt ∧
  is_Some (sample_Project bottle_mt "default") ∧
  ∃ d, okResp demo_design (demo_generator false) show = Some d ∧
       TypeRef d = "&app.Bottle{}".
Proof.
  assert (H1 : find_ok (range_values (Action_Responses show)) = Some resp_ok)
    by (vm_compute; reflexivity).
  assert (H2 : API_MediaTypes demo_design !! "application/vnd.bottle" = Some bottle_mt)
    by (vm_compute; reflexivity).
  destruct (sample_Project bottle_mt "default") as [pmt|] eqn:H3; [|discriminate H3].
  split; [exact H1|]. split; [exact H2|]. split; [by exists pmt|].
  assert (H4 : mt_IsError pmt = false)
    by (injection H3 as <-; reflexivity).
  destruct (okResp_typeref demo_design (demo_generator false) show
              resp_ok bottle_mt pmt H1 H2 H3 H4)
    as (d & Hd & _ & _ & Hptr & _).
  exists d. split; [exact Hd|]. rewrite Hptr.
  - injection H3 as <-. reflexivity.
  - injection H3 as <-. reflexivity.
Defined.

(** C7 as stated fails: an action with two responses of status 200, which
    the loop tells apart by their values alone, gets the descriptor of the
    one the range visits first, "OK" in one order and "Found" in the
    other. *)
Lemma okResp_order_dependent :
  [resp_ok; resp_ok_again] ≡ₚ range_values (Action_Responses show_twice) ∧
  [resp_ok_again; resp_ok] ≡ₚ range_values (Action_Responses show_twice) ∧
  Name <$> okResp_visiting demo_design (demo_generator false) [resp_ok; resp_ok_again] =
    Some "OK" ∧
  Name <$> okResp_visiting demo_design (demo_generator false) [resp_ok_again; resp_ok] =
    Some "Found" ∧
  okResp_visiting demo_design (demo_generator false) [resp_ok; resp_ok_again] ≠
  okResp_visiting demo_design (demo_generator false) [resp_ok_again; resp_ok].
Proof.
  split_and!.
  - vm_compute. first [reflexivity | apply perm_swap].
  - vm_compute. first [reflexivity | apply perm_swap].
  - vm_compute. reflexivity.
  - vm_compute. reflexivity.
  - vm_compute. discriminate.
Qed.

Lemma okResp_deterministic_witness :
  [resp_ok; resp_not_found] ≡ₚ range_values (Action_Responses show) ∧
  [resp_not_found; resp_ok] ≡ₚ range_values (Action_Responses show) ∧
  okResp_visiting demo_design (demo_generator false) [resp_ok; resp_not_found] =
    okResp demo_design (demo_generator false) show ∧
  okResp_visiting demo_design (demo_generator true) [resp_not_found; resp_ok] =
    okResp demo_design (demo_generator false) show.
Proof.
  assert (H1 : keyed_by_status (Action_Responses show))
    by (refine (bool_decide_unpack _ _); vm_compute; exact I).
  assert (H2 : [resp_ok; resp_not_found] ≡ₚ range_values (Action_Responses show))
    by (vm_compute; first [reflexivity | apply perm_swap]).
  assert (H3 : [resp_not_found; resp_ok] ≡ₚ range_values (Action_Responses show))
    by (vm_compute; first [reflexivity | apply perm_swap]).
  split; [exact H2|]. split; [exact H3|].
  destruct (okResp_deterministic demo_design demo_design
              (demo_generator false) (demo_generator true) show eq_refl eq_refl)
    as (_ & Hone & Hkeyed).
  exact (Hone (Hkeyed H1) _ _ H2 H3).
Defined.

(** ** Steps that work on one file *)

Section locality.
Context {C : Collaborators}.
Variable Design : APIDefinition.

Lemma same_config_refl (g : Generator) : same_config g g.
Proof. by repeat split. Qed.

Lemma same_config_trans (g1 g2 g3 : Generator) :
  same_config g1 g2 → same_config g2 g3 → same_config g1 g3.
Proof.
  intros (?&?&?&?&?) (?&?&?&?&?). repeat split; congruence.
Qed.

Lemma same_config_genfiles (l : list string) (g : Generator) :
  same_config g (set_genfiles l g).
Proof. by repeat split. Qed.

Lemma local_ret (p : string) {R : Type} (x : R) : local p (ret (S := State) x).
Proof. split; try done; intros s; apply same_config_refl. Qed.

Lemma local_bind (p : string) {R R' : Type} (m : M State R) (k : R → M State R') :
  local p m → (∀ x, local p (k x)) → local p (bind m k).
Proof.
  intros Hm Hk. split.
  - intros s q Hq. rewrite bind_run.
    rewrite (local_frame _ _ (Hk _)) by done. by apply (local_frame _ _ Hm).
  - intros s1 s2 Hs. rewrite !bind_run.
    destruct (local_reads _ _ Hm s1 s2 Hs) as [Hx Hs']. rewrite Hx.
    by apply (local_reads _ _ (Hk _)).
  - intros s Hs. rewrite bind_run.
    apply (local_keeps _ _ (Hk _)). by apply (local_keeps _ _ Hm).
  - intros s. rewrite bind_run.
    eapply same_config_trans; [apply (local_config _ _ Hm)|apply (local_config _ _ (Hk _))].
Qed.

Lemma local_get_gen (p : string) : local p get_gen.
Proof.
  split; try done.
  intros s1 s2 Hs. split; [apply Hs|done].
Qed.

Lemma local_record_file (p f : string) : local p (record_file f).
Proof.
  split; try done.
  intros [g1 w1] [g2 w2] (Hg & Ht & Hf). simpl in *. subst. by repeat split.
Qed.

Lemma local_on_world (p : string) {R : Type} (f : World → R * World) :
  local_world p f → local p (on_world f).
Proof.
  intros Hf. split.
  - intros [g w] q Hq. unfold on_world. simpl.
    destruct (f w) as [x w'] eqn:Hw. simpl.
    pose proof (local_world_frame _ _ Hf w q Hq) as H. by rewrite Hw in H.
  - intros [g1 w1] [g2 w2] (Hg & Ht & Hp). simpl in *. unfold on_world. simpl.
    destruct (local_world_reads _ _ Hf w1 w2 Ht Hp) as (Hx & Ht' & Hp').
    destruct (f w1) as [x1 w1'], (f w2) as [x2 w2']. simpl in *.
    by repeat split.
  - intros [g w] Hs. unfold on_world. simpl in *.
    pose proof (local_world_keeps _ _ Hf w Hs) as H.
    by destruct (f w) as [x w'].
  - intros [g w]. unfold on_world. simpl. destruct (f w). apply same_config_refl.
Qed.

Lemma local_update_world (p : string) (f : World → World) :
  local_world p (λ w, (tt, f w)) → local p (update_world f).
Proof.
  intros Hf. split.
  - intros [g w] q Hq. by apply (local_world_frame _ _ Hf w q).
  - intros [g1 w1] [g2 w2] (Hg & Ht & Hp). simpl in *.
    destruct (local_world_reads _ _ Hf w1 w2 Ht Hp) as (_ & Ht' & Hp').
    by repeat split.
  - intros [g w] Hs. by apply (local_world_keeps _ _ Hf w).
  - intros [g w]. apply same_config_refl.
Qed.

Lemma local_Iterate (p : string) {A : Type} (it : A → M State (option error)) (l : list A) :
  (∀ x, local p (it x)) → local p (Iterate it l).
Proof.
  intros Hit. induction l as [|x l IH]; simpl.
  - apply local_ret.
  - apply local_bind; [done|]. intros [e|]; [apply local_ret|done].
Qed.

(** The steps of the source-file utility work on the file they are given. *)

Lemma local_world_SourceFileFor (p : string) : local_world p (SourceFileFor p).
Proof.
  split; unfold SourceFileFor; destruct (SourceFileFor_fault p); simpl; done.
Qed.

Lemma local_world_file_Write (p text : string) :
  local_world p (λ w, (tt, file_Write p text w)).
Proof.
  split; simpl.
  - intros w q Hq. by rewrite lookup_insert_ne.
  - intros w1 w2 Ht Hp. split_and!; [done..|]. rewrite !lookup_insert_eq. by rewrite Hp.
  - intros w _. rewrite lookup_insert_eq. by eexists.
Qed.

Lemma local_world_WriteHeader (p title pack : string) (imports : list string) :
  local_world p (λ w, (tt, WriteHeader p title pack imports w)).
Proof. apply local_world_file_Write. Qed.

Lemma local_world_ExecuteTemplate (p name text : string) :
  local_world p (ExecuteTemplate p name text).
Proof.
  unfold ExecuteTemplate. destruct (ExecuteTemplate_fault name p text) as [e|].
  - split; simpl; done.
  - destruct (local_world_file_Write p text) as [H1 H2 H3]. split; simpl in *.
    + done.
    + intros w1 w2 Ht Hp. destruct (H2 w1 w2 Ht Hp) as (_ & ? & ?). done.
    + done.
Qed.

Lemma local_world_FormatCode (p : string) : local_world p (FormatCode p).
Proof.
  split.
  - intros w q Hq. unfold FormatCode. destruct (gofmt _); simpl; [|done].
    by rewrite lookup_insert_ne.
  - intros w1 w2 Ht Hp. unfold FormatCode. rewrite Hp.
    destruct (gofmt _); simpl; [|done]. by rewrite !lookup_insert_eq.
  - intros w Hw. unfold FormatCode. destruct (gofmt _); simpl; [|done].
    rewrite lookup_insert_eq. by eexists.
Qed.

(** The main template reads and advances the counter, and no file. *)

Lemma mainT_mount_fs (g : Generator) (res : ResourceDefinition) (w : World) :
  fs (mainT_mount g res w).2 = fs w.
Proof. done. Qed.

Lemma mainT_mount_reads (g : Generator) (res : ResourceDefinition) (w1 w2 : World) :
  tempCount w1 = tempCount w2 →
  (mainT_mount g res w1).1 = (mainT_mount g res w2).1 ∧
  tempCount (mainT_mount g res w1).2 = tempCount (mainT_mount g res w2).2.
Proof. intros Ht. unfold mainT_mount, tempvar. simpl. by rewrite Ht. Qed.

Lemma mainT_range_cons (g : Generator) (res : ResourceDefinition) (rs : list ResourceDefinition) (w : World) :
  mainT_range g (res :: rs) w =
    ((mainT_mount g res w).1 +:+ (mainT_range g rs (mainT_mount g res w).2).1,
     (mainT_range g rs (mainT_mount g res w).2).2).
Proof.
  cbn [mainT_range]. destruct (mainT_mount g res w) as [x w1]. cbn [fst snd].
  by destruct (mainT_range g rs w1) as [xs w2].
Qed.

Lemma mainT_range_fs (g : Generator) (rs : list ResourceDefinition) (w : World) :
  fs (mainT_range g rs w).2 = fs w.
Proof.
  revert w. induction rs as [|res rs IH]; intros w; [done|].
  rewrite mainT_range_cons. cbn [snd]. by rewrite IH.
Qed.

Lemma mainT_range_reads (g : Generator) (rs : list ResourceDefinition) (w1 w2 : World) :
  tempCount w1 = tempCount w2 →
  (mainT_range g rs w1).1 = (mainT_range g rs w2).1 ∧
  tempCount (mainT_range g rs w1).2 = tempCount (mainT_range g rs w2).2.
Proof.
  revert w1 w2. induction rs as [|res rs IH]; intros w1 w2 Ht; [done|].
  rewrite !mainT_range_cons. cbn [fst snd].
  destruct (mainT_mount_reads g res w1 w2 Ht) as [Hx Ht'].
  destruct (IH _ _ Ht') as [Hxs Ht'']. by rewrite Hx, Hxs.
Qed.

Lemma mainT_run (g : Generator) (w : World) :
  fs (mainT g w).2 = fs w ∧
  (mainT g w).2 = (mainT_range g (API_Resources (API g)) w).2 ∧
  ∃ text : string → string,
    ∀ w', (mainT g w').1 = text (mainT_range g (API_Resources (API g)) w').1.
Proof.
  unfold mainT. split_and!.
  - pose proof (mainT_range_fs g (API_Resources (API g)) w) as H.
    by destruct (mainT_range g _ w).
  - by destruct (mainT_range g _ w).
  - eexists (λ mounts, _). intros w'.
    destruct (mainT_range g _ w') as [mounts w'']. cbn [fst]. reflexivity.
Qed.

Lemma local_world_mainT (p : string) (g : Generator) : local_world p (mainT g).
Proof.
  split.
  - intros w q _. by rewrite (proj1 (mainT_run g w)).
  - intros w1 w2 Ht Hp.
    destruct (mainT_run g w1) as (Hfs1 & Hw1 & text & Htext).
    destruct (mainT_run g w2) as (Hfs2 & Hw2 & _).
    destruct (mainT_range_reads g (API_Resources (API g)) w1 w2 Ht) as [Hx Ht'].
    split_and!; [by rewrite !Htext, Hx|by rewrite Hw1, Hw2|].
    by rewrite Hfs1, Hfs2.
  - intros w Hw. by rewrite (proj1 (mainT_run g w)).
Qed.

Lemma ExecuteTemplate_main_run (p : string) (g : Generator) (w : World) :
  ExecuteTemplate_main p g w =
    match ExecuteTemplate_fault "main" p (mainT g w).1 with
    | Some err => (Some err, w)
    | None => (None, file_Write p (mainT g w).1 (mainT g w).2)
    end.
Proof. unfold ExecuteTemplate_main. by destruct (mainT g w). Qed.

Lemma local_world_ExecuteTemplate_main (p : string) (g : Generator) :
  local_world p (ExecuteTemplate_main p g).
Proof.
  destruct (local_world_mainT p g) as [Hm1 Hm2 Hm3].
  split.
  - intros w q Hq. rewrite ExecuteTemplate_main_run.
    destruct (ExecuteTemplate_fault _ _ _); cbn [snd]; [done|].
    rewrite (proj2 (proj2 (file_Write_frame p (mainT g w).1 (mainT g w).2)) q Hq).
    by apply Hm1.
  - intros w1 w2 Ht Hp. rewrite !ExecuteTemplate_main_run.
    destruct (Hm2 w1 w2 Ht Hp) as (Hx & Ht' & Hp'). rewrite <- Hx.
    destruct (ExecuteTemplate_fault _ _ _); cbn [fst snd]; [done|].
    split_and!; [done|done|]. cbn [fs file_Write set_fs].
    by rewrite !lookup_insert_eq, Hp'.
  - intros w Hw. rewrite ExecuteTemplate_main_run.
    destruct (ExecuteTemplate_fault _ _ _); cbn [snd]; [done|].
    cbn [fs file_Write set_fs]. rewrite lookup_insert_eq. by eexists.
Qed.

(** The steps of [Generate] on one file are built from the ones above. *)

Ltac local_step :=
  first
    [ apply local_ret
    | apply local_get_gen
    | apply local_record_file
    | apply local_on_world;
      first [ apply local_world_SourceFileFor
            | apply local_world_ExecuteTemplate
            | apply local_world_FormatCode
            | apply local_world_ExecuteTemplate_main
            | apply local_world_mainT ]
    | apply local_update_world;
      first [ apply local_world_file_Write | apply local_world_WriteHeader ]
    | apply local_Iterate; intros ?
    | apply local_bind; [|intros ?]
    | match goal with
      | |- local _ (match ?x with _ => _ end) => destruct x
      end ].

Lemma local_per_action (p : string) (a : ActionDefinition) :
  local p (per_action Design p a).
Proof. unfold per_action. repeat local_step. Qed.

Lemma local_write_stub (err : option error) (imports : list string) (r : ResourceDefinition) (p : string) :
  local p (write_stub Design err imports r p).
Proof. unfold write_stub. repeat local_step. Qed.

Lemma local_resource_stub (err : option error) (imports : list string) (r : ResourceDefinition) (p : string) :
  local p (resource_stub Design err imports r p).
Proof. unfold resource_stub. repeat local_step. Qed.

Lemma local_write_main (p : string) : local p (write_main p).
Proof. unfold write_main. repeat local_step. Qed.

(** The first write creates the file, and what follows keeps it. *)
Lemma write_stub_exists (err : option error) (imports : list string) (r : ResourceDefinition) (p : string) (s : State) :
  is_Some (fs (write_stub Design err imports r p s).2.2 !! p).
Proof.
  unfold write_stub. rewrite bind_run. cbn beta.
  eapply (local_keeps p); [repeat local_step|].
  cbn [update_world fst snd WriteHeader file_Write fs set_fs].
  rewrite lookup_insert_eq. by eexists.
Qed.

Lemma write_main_exists (p : string) (s : State) :
  (write_main p s).1 = None → is_Some (fs (write_main p s).2.2 !! p).
Proof.
  unfold write_main. rewrite bind_run. unfold get_gen. cbn [fst snd].
  destruct (PackagePath (OutDir s.1)) as [outPkg|e]; [|done]. intros _.
  rewrite bind_run. cbn beta.
  eapply (local_keeps p); [repeat local_step|].
  cbn [update_world fst snd file_Write fs set_fs].
  rewrite lookup_insert_eq. by eexists.
Qed.

Lemma local_createMainFile (p : string) : local p (createMainFile p).
Proof. unfold createMainFile. repeat local_step. Qed.

(** A local step keeps every file that is there. *)
Lemma local_keeps_all (p : string) {R : Type} (op : M State R) (s : State) (q : string) :
  local p op → is_Some (fs s.2 !! q) → is_Some (fs (op s).2.2 !! q).
Proof.
  intros Hop Hq. destruct (decide (q = p)) as [->|Hne].
  - by apply (local_keeps _ _ Hop).
  - by rewrite (local_frame _ _ Hop).
Qed.

End locality.

(** ** Running Generate *)

Section generate_run.
Context {C : Collaborators}.
Variable Design : APIDefinition.

Lemma Cleanup_run (g : Generator) (w : World) :
  Cleanup (g, w) =
    (tt, (set_genfiles [] g, foldl (λ w f, os_Remove f w) w (genfiles g))).
Proof. done. Qed.

Lemma remove_if_forced_run (p : string) (g : Generator) (w : World) :
  remove_if_forced p (g, w) = (tt, (g, if Force g then os_Remove p w else w)).
Proof.
  unfold remove_if_forced. rewrite bind_run. unfold get_gen. cbn [fst snd].
  by destruct (Force g).
Qed.

Lemma resource_stub_run (err : option error) (imports : list string) (r : ResourceDefinition) (f : string) (g : Generator) (w : World) :
  resource_stub Design err imports r f (g, w) =
    if (SourceFileFor f w).1 is Some _ then
      (err, (set_genfiles (genfiles g ++ [f]) g, (SourceFileFor f w).2))
    else
      write_stub Design err imports r f
        (set_genfiles (genfiles g ++ [f]) g, (SourceFileFor f w).2).
Proof.
  unfold resource_stub. rewrite !bind_run. unfold record_file, modify_gen, on_world.
  cbn [fst snd]. by destruct (SourceFileFor f w) as [[e|] w'].
Qed.

Lemma createMainFile_run (f : string) (g : Generator) (w : World) :
  createMainFile f (g, w) =
    if (SourceFileFor f w).1 is Some e then
      (Some e, (set_genfiles (genfiles g ++ [f]) g, (SourceFileFor f w).2))
    else
      write_main f (set_genfiles (genfiles g ++ [f]) g, (SourceFileFor f w).2).
Proof.
  unfold createMainFile. rewrite !bind_run. unfold record_file, modify_gen, on_world.
  cbn [fst snd]. by destruct (SourceFileFor f w) as [[e|] w'].
Qed.

Lemma per_resource_run (err : option error) (imports : list string) (r : ResourceDefinition) (g : Generator) (w : World) :
  per_resource Design err imports r (g, w) =
    if os_Stat (filename_of g r) (if Force g then os_Remove (filename_of g r) w else w) then
      (None, (g, if Force g then os_Remove (filename_of g r) w else w))
    else
      resource_stub Design err imports r (filename_of g r)
        (g, if Force g then os_Remove (filename_of g r) w else w).
Proof.
  unfold per_resource. rewrite bind_run. unfold get_gen. cbn [fst snd].
  rewrite bind_run, remove_if_forced_run. cbn [fst snd].
  rewrite bind_run. unfold read_world. cbn [fst snd]. fold (filename_of g r).
  by destruct (os_Stat _ _).
Qed.

Lemma Iterate_cons {A : Type} (it : A → M State (option error)) (x : A) (l : list A) (s : State) :
  Iterate it (x :: l) s =
    if (it x s).1 is Some e then (Some e, (it x s).2) else Iterate it l (it x s).2.
Proof. cbn [Iterate]. rewrite bind_run. by destruct (it x s).1. Qed.

Lemma configured_config (g : Generator) :
  API (configured g) = API g ∧ OutDir (configured g) = OutDir g ∧
  Force (configured g) = Force g ∧ genfiles (configured g) = genfiles g.
Proof. unfold configured. by case_bool_decide. Qed.

Lemma Generate_body_run (g : Generator) (w : World) :
  Generate_body Design (g, w) =
    match PackagePath (OutDir g) with
    | Err err => (Err err, prepared g w)
    | Ok imp =>
        let main :=
          if os_Stat (mainFile_of g) (prepared g w).2 then (None, prepared g w)
          else createMainFile (mainFile_of g) (prepared g w) in
        if main.1 is Some e then (Err e, main.2)
        else
          let stubs :=
            Iterate (per_resource Design None (resource_imports imp))
              (API_Resources (API g)) main.2 in
          if stubs.1 is Some e then (Err e, stubs.2)
          else (Ok (genfiles stubs.2.1), stubs.2)
    end.
Proof.
  destruct (configured_config g) as (HAPI & HOut & HForce & _).
  unfold Generate_body, remove_if_forced, prepared, mainFile_of, resource_imports.
  unfold bind, modify_gen, get_gen, update_world, read_world, ret.
  cbn [fst snd]. fold (configured g). rewrite HOut, HAPI, HForce.
  destruct (Force g); cbn [fst snd];
    (destruct (PackagePath (OutDir g)) as [imp|e]; [|done]);
    (destruct (os_Stat _ _); cbn [fst snd];
     [|destruct (createMainFile _ _) as [[e|] s1]; [done|]; cbn [fst snd]]);
    by destruct (Iterate _ _ _) as [[e|] [g' w']].
Qed.

Lemma Generate_run (g : Generator) (w : World) :
  Generate Design (g, w) =
    match (Generate_body Design (g, w)).1 with
    | Err e => (Err e, (Cleanup (Generate_body Design (g, w)).2).2)
    | Ok files => (Ok files, (Generate_body Design (g, w)).2)
    end.
Proof.
  unfold Generate. rewrite bind_run.
  destruct (Generate_body Design (g, w)) as [[files|e] s]; [done|].
  cbn [fst snd]. rewrite bind_run. by destruct s.
Qed.

End generate_run.

(** ** Rollback *)

Section rollback.
Context {C : Collaborators}.
Variable Design : APIDefinition.

Lemma remove_all_lookup (l : list string) (w : World) (p : string) :
  fs (foldl (λ w f, os_Remove f w) w l) !! p =
    if decide (p ∈ l) then None else fs w !! p.
Proof.
  revert w. induction l as [|f l IH]; intros w; cbn [foldl].
  - case_decide; [set_solver|done].
  - rewrite IH. unfold os_Remove. cbn [fs set_fs].
    destruct (decide (p = f)) as [->|Hne].
    + rewrite lookup_delete_eq. rewrite (decide_True _ _ (list_elem_of_here f l)).
      by case_decide.
    + rewrite lookup_delete_ne by done.
      destruct (decide (p ∈ l)) as [Hin|Hnin].
      * by rewrite (decide_True _ _ (list_elem_of_further p f l Hin)).
      * rewrite decide_False; [done|]. by intros [?|?]%elem_of_cons.
Qed.

(** C9: [Cleanup] leaves the creation log empty, and a second [Cleanup]
    changes nothing: neither the log nor any file. *)
Theorem Cleanup_idempotent (g : Generator) (w : World) :
  genfiles (Cleanup (g, w)).2.1 = [] ∧
  Cleanup (Cleanup (g, w)).2 = (tt, (Cleanup (g, w)).2).
Proof. by rewrite Cleanup_run. Qed.

(** A run that returns an error has removed every file it recorded and
    returns with an empty log. *)
Lemma Generate_Err_rolls_back (g : Generator) (w : World) (e : error) :
  (Generate Design (g, w)).1 = Err e →
  genfiles (Generate Design (g, w)).2.1 = [] ∧
  ∀ p, p ∈ genfiles (Generate_body Design (g, w)).2.1 →
       fs (Generate Design (g, w)).2.2 !! p = None.
Proof.
  rewrite Generate_run.
  destruct (Generate_body Design (g, w)) as [[files|e'] [g' w']]; [done|].
  intros _. cbn [fst snd]. rewrite Cleanup_run. cbn [fst snd]. split; [done|].
  intros p Hp. rewrite remove_all_lookup. by rewrite decide_True.
Qed.

End rollback.

(** C1, where the code departs from it: rendering the controller template
    of the sample's one resource fails, and [Generate] returns the list of
    files and no error, with the file of the resource left behind, holding
    its header only. *)
Lemma Generate_swallows_render_error :
  @ExecuteTemplate_fault sample_ctrl_fault
    "controller" "out/bottle.go" (@ctrlT sample_ctrl_fault bottle) = Some "render" ∧
  (Generate ctrl_fault_design (ctrl_fault_generator, world0)).1 =
    Ok ["out/main.go"; "out/bottle.go"] ∧
  fs (Generate ctrl_fault_design (ctrl_fault_generator, world0)).2.2 !! "out/bottle.go" =
    Some ("package main" +:+ nl).
Proof. split_and!; by vm_compute. Qed.

Lemma Generate_Err_rolls_back_witness :
  (Generate fmt_fault_design (fmt_fault_generator, world0)).1 = Err "format" ∧
  genfiles (Generate fmt_fault_design (fmt_fault_generator, world0)).2.1 = [].
Proof.
  assert (Herr : (Generate fmt_fault_design (fmt_fault_generator, world0)).1 =
                 Err "format")
    by (vm_compute; reflexivity).
  split; [exact Herr|].
  exact (proj1 (Generate_Err_rolls_back fmt_fault_design fmt_fault_generator
                  world0 "format" Herr)).
Defined.

(** The error exit of [FormatCode] is the one that does as C1 says: the
    error is returned, and neither file of the run is left. *)
Lemma Generate_format_error_rolls_back :
  (Generate fmt_fault_design (fmt_fault_generator, world0)).1 = Err "format" ∧
  fs (Generate fmt_fault_design (fmt_fault_generator, world0)).2.2 = ∅ ∧
  genfiles (Generate fmt_fault_design (fmt_fault_generator, world0)).2.1 = [].
Proof. split_and!; by vm_compute. Qed.

(** ** A run without force *)

Section without_force.
Context {C : Collaborators}.
Variable Design : APIDefinition.

Lemma filename_of_config (g g' : Generator) (r : ResourceDefinition) :
  same_config g g' → filename_of g r = filename_of g' r.
Proof. intros (_ & HOut & _). unfold filename_of. by rewrite HOut. Qed.

Lemma os_Stat_true (p : string) (w : World) :
  os_Stat p w = true ↔ is_Some (fs w !! p).
Proof. unfold os_Stat. apply bool_decide_eq_true. Qed.

Lemma os_Stat_false (p : string) (w : World) :
  os_Stat p w = false ↔ fs w !! p = None.
Proof.
  unfold os_Stat. rewrite bool_decide_eq_false. rewrite <- eq_None_not_Some. done.
Qed.

Lemma SourceFileFor_result (p : string) (w : World) :
  (SourceFileFor p w).1 = SourceFileFor_fault p.
Proof. unfold SourceFileFor. by destruct (SourceFileFor_fault p). Qed.

Lemma SourceFileFor_fault_state (p : string) (w : World) :
  is_Some (SourceFileFor_fault p) → (SourceFileFor p w).2 = w.
Proof. unfold SourceFileFor. by intros [e ->]. Qed.

(** An error of [createMainFile] apart, the main file is there after it. *)
Lemma createMainFile_exists (f : string) (s : State) :
  (createMainFile f s).1 = None → is_Some (fs (createMainFile f s).2.2 !! f).
Proof.
  destruct s as [g w]. rewrite createMainFile_run.
  pose proof (SourceFileFor_result f w) as Hres.
  destruct (SourceFileFor f w).1 as [e|] eqn:Hopen; [done|].
  apply write_main_exists.
Qed.

(** After the stub of a resource, its file is there unless
    [SourceFileFor] failed. *)
Lemma resource_stub_exists (err : option error) (imports : list string) (r : ResourceDefinition) (f : string) (s : State) :
  is_Some (fs (resource_stub Design err imports r f s).2.2 !! f) ∨
  is_Some (SourceFileFor_fault f).
Proof.
  destruct s as [g w]. rewrite resource_stub_run.
  pose proof (SourceFileFor_result f w) as Hres.
  destruct (SourceFileFor f w).1 as [e|] eqn:Hopen.
  - right. rewrite <- Hres. by eexists.
  - left. apply write_stub_exists.
Qed.

(** One resource, without force: the configuration and the files that are
    there are kept, and the file of the resource is there afterwards unless
    [SourceFileFor] failed. *)
Lemma per_resource_keeps (err : option error) (imports : list string) (r : ResourceDefinition) (s : State) :
  Force s.1 = false →
  same_config s.1 (per_resource Design err imports r s).2.1 ∧
  (∀ q, is_Some (fs s.2 !! q) →
        is_Some (fs (per_resource Design err imports r s).2.2 !! q)) ∧
  (is_Some (fs (per_resource Design err imports r s).2.2 !! filename_of s.1 r) ∨
   is_Some (SourceFileFor_fault (filename_of s.1 r))).
Proof.
  destruct s as [g w]. cbn [fst snd]. intros HF.
  rewrite per_resource_run, HF.
  destruct (os_Stat (filename_of g r) w) eqn:Hstat.
  - cbn [fst snd]. split_and!; [apply same_config_refl|done|].
    left. by apply os_Stat_true.
  - pose proof (local_resource_stub Design err imports r (filename_of g r)) as Hloc.
    split_and!.
    + apply (local_config _ _ Hloc (g, w)).
    + intros q Hq. by apply (local_keeps_all _ _ (g, w) q Hloc).
    + apply resource_stub_exists.
Qed.

Lemma Iterate_per_resource_keeps (err : option error) (imports : list string) (rs : list ResourceDefinition) (s : State) :
  Force s.1 = false →
  (Iterate (per_resource Design err imports) rs s).1 = None →
  same_config s.1 (Iterate (per_resource Design err imports) rs s).2.1 ∧
  (∀ q, is_Some (fs s.2 !! q) →
        is_Some (fs (Iterate (per_resource Design err imports) rs s).2.2 !! q)) ∧
  (∀ r, r ∈ rs →
        is_Some (fs (Iterate (per_resource Design err imports) rs s).2.2
                   !! filename_of s.1 r) ∨
        is_Some (SourceFileFor_fault (filename_of s.1 r))).
Proof.
  revert s. induction rs as [|r rs IH]; intros s HF.
  - intros _. split_and!; [apply same_config_refl|done|]. by intros r ?%elem_of_nil.
  - rewrite Iterate_cons.
    destruct (per_resource_keeps err imports r s HF) as (Hc & Hk & Hr).
    destruct (per_resource Design err imports r s) as [[e|] s1]; [done|].
    cbn [fst snd] in *. intros Hnone.
    assert (HF1 : Force s1.1 = false) by (destruct Hc as (_&_&_&_&<-); done).
    destruct (IH s1 HF1 Hnone) as (Hc' & Hk' & Hr').
    split_and!.
    + by eapply same_config_trans.
    + intros q Hq. by apply Hk', Hk.
    + intros r' [->|Hin]%elem_of_cons.
      * destruct Hr as [Hr|Hr]; [left; by apply Hk'|by right].
      * rewrite (filename_of_config _ _ r' Hc). by apply Hr'.
Qed.

Lemma set_genfiles_id (g : Generator) : set_genfiles (genfiles g ++ []) g = g.
Proof. destruct g. unfold set_genfiles. simpl. by rewrite app_nil_r. Qed.

(** One resource whose file is there, or on which [SourceFileFor] fails:
    nothing is written, and the path is recorded only when the file is not
    there. *)
Lemma per_resource_skip (imports : list string) (r : ResourceDefinition) (g : Generator) (w : World) :
  Force g = false →
  is_Some (fs w !! filename_of g r) ∨ is_Some (SourceFileFor_fault (filename_of g r)) →
  ∃ extra,
    per_resource Design None imports r (g, w) =
      (None, (set_genfiles (genfiles g ++ extra) g, w)) ∧
    ∀ p, p ∈ extra →
         p = filename_of g r ∧ fs w !! p = None ∧ is_Some (SourceFileFor_fault p).
Proof.
  intros HF Hr. rewrite per_resource_run, HF.
  destruct (os_Stat (filename_of g r) w) eqn:Hstat.
  - exists []. rewrite set_genfiles_id. split; [done|]. by intros p ?%elem_of_nil.
  - apply os_Stat_false in Hstat.
    destruct Hr as [Hr|Hr]; [rewrite Hstat in Hr; by destruct Hr|].
    exists [filename_of g r]. rewrite resource_stub_run.
    rewrite SourceFileFor_result, (SourceFileFor_fault_state _ w Hr).
    destruct Hr as [e He]. rewrite He. split; [done|].
    intros p ->%list_elem_of_singleton. split_and!; [done|done|]. rewrite He. by eexists.
Qed.

Lemma Iterate_per_resource_skip (imports : list string) (rs : list ResourceDefinition) (g : Generator) (w : World) :
  Force g = false →
  (∀ r, r ∈ rs →
        is_Some (fs w !! filename_of g r) ∨
        is_Some (SourceFileFor_fault (filename_of g r))) →
  ∃ extra,
    Iterate (per_resource Design None imports) rs (g, w) =
      (None, (set_genfiles (genfiles g ++ extra) g, w)) ∧
    ∀ p, p ∈ extra →
         p ∈ (filename_of g <$> rs) ∧ fs w !! p = None ∧
         is_Some (SourceFileFor_fault p).
Proof.
  revert g. induction rs as [|r rs IH]; intros g HF Hrs.
  - exists []. rewrite set_genfiles_id. split; [done|]. by intros p ?%elem_of_nil.
  - destruct (per_resource_skip imports r g w HF) as (e1 & Hrun & He1).
    { apply Hrs. by left. }
    destruct (IH (set_genfiles (genfiles g ++ e1) g) HF) as (e2 & Hrun' & He2).
    { intros r' Hin. apply Hrs. by right. }
    exists (e1 ++ e2). rewrite Iterate_cons, Hrun. cbn [fst snd].
    rewrite Hrun'. cbn [genfiles set_genfiles]. rewrite app_assoc. split; [done|].
    intros p [Hp|Hp]%elem_of_app.
    + destruct (He1 p Hp) as (-> & ? & ?). split_and!; [|done..].
      rewrite fmap_cons. by left.
    + destruct (He2 p Hp) as (? & ? & ?). split_and!; [|done..].
      rewrite fmap_cons. by right.
Qed.

(** C5: after a run without force that succeeded, a second run on the
    same design and output directory, without force, changes no file, and
    returns the log it started with: it records no path whose file is
    there, and none at all unless the first run could not open some
    resource file. *)
Theorem Generate_idempotent (g g2 : Generator) (w : World) (files : list string) :
  Force g = false →
  (Generate Design (g, w)).1 = Ok files →
  API g2 = API g → OutDir g2 = OutDir g → Force g2 = false →
  fs (Generate Design (g2, (Generate Design (g, w)).2.2)).2.2 =
    fs (Generate Design (g, w)).2.2 ∧
  ∃ extra,
    (Generate Design (g2, (Generate Design (g, w)).2.2)).1 = Ok (genfiles g2 ++ extra) ∧
    (∀ p, p ∈ extra → fs (Generate Design (g, w)).2.2 !! p = None) ∧
    ((∀ p, p ∈ targets g → SourceFileFor_fault p = None) → extra = []).
Proof.
  intros HF Hok HAPI HOut HF2.
  (* the first run *)
  rewrite Generate_run in Hok. rewrite (Generate_run Design g w).
  rewrite Generate_body_run in *.
  destruct (configured_config g) as (HAPIc & HOutc & HFc & _).
  destruct (PackagePath (OutDir g)) as [imp|e] eqn:Hpkg; [|done].
  cbn zeta in *.
  assert (Hmain : ∃ s1,
    (if os_Stat (mainFile_of g) (prepared g w).2 then (None, prepared g w)
     else createMainFile (mainFile_of g) (prepared g w)) = (None, s1) ∧
    Force s1.1 = false ∧ API s1.1 = API g ∧ OutDir s1.1 = OutDir g ∧
    is_Some (fs s1.2 !! mainFile_of g)).
  { destruct (os_Stat (mainFile_of g) (prepared g w).2) eqn:Hstat.
    - eexists. split; [done|]. unfold prepared at 1 2 3. cbn [fst].
      split_and!; [congruence..|]. by apply os_Stat_true.
    - pose proof (createMainFile_exists (mainFile_of g) (prepared g w)) as Hex.
      pose proof (local_config _ _ (local_createMainFile (mainFile_of g)) (prepared g w))
        as (Ha & Ho & _ & _ & Hf).
      destruct (createMainFile (mainFile_of g) (prepared g w)) as [[e|] s1]; [done|].
      exists s1. split; [done|]. unfold prepared in Ha, Ho, Hf. cbn [fst snd] in *.
      split_and!; [congruence..|]. by apply Hex. }
  destruct Hmain as (s1 & Hs1 & HF1 & HAPI1 & HOut1 & Hmain1).
  rewrite Hs1 in *. cbn [fst snd] in *.
  pose proof (Iterate_per_resource_keeps None (resource_imports imp)
                (API_Resources (API g)) s1 HF1) as Hkeep.
  destruct (Iterate _ _ s1) as [[e|] s'] eqn:Hiter; [done|]. cbn [fst snd] in *.
  destruct (Hkeep eq_refl) as (Hc & Hk & Hrs). clear Hkeep Hok.
  (* the second run *)
  rewrite (Generate_run Design g2 s'.2), Generate_body_run.
  rewrite HOut, Hpkg, HAPI. cbn zeta.
  assert (Hmf : mainFile_of g2 = mainFile_of g) by (unfold mainFile_of; by rewrite HOut).
  assert (Hfs2 : fs (prepared g2 s'.2).2 = fs s'.2)
    by (unfold prepared; rewrite HF2; done).
  rewrite Hmf.
  assert (os_Stat (mainFile_of g) (prepared g2 s'.2).2 = true) as ->.
  { apply os_Stat_true. rewrite Hfs2. by apply Hk. }
  cbn [fst snd].
  destruct (configured_config g2) as (HAPIc2 & HOutc2 & HFc2 & Hgf2).
  destruct (Iterate_per_resource_skip (resource_imports imp) (API_Resources (API g))
              (prepared g2 s'.2).1 (prepared g2 s'.2).2) as (extra & Hrun & Hextra).
  { unfold prepared. cbn [fst]. congruence. }
  { intros r Hr. rewrite Hfs2.
    assert (filename_of (prepared g2 s'.2).1 r = filename_of s1.1 r) as ->.
    { unfold filename_of, prepared. cbn [fst]. congruence. }
    by apply Hrs. }
  rewrite <- surjective_pairing in Hrun. rewrite Hrun. cbn [fst snd genfiles set_genfiles].
  split; [done|]. exists extra. unfold prepared at 1. cbn [fst]. rewrite Hgf2.
  split_and!; [done| |].
  - intros p Hp. destruct (Hextra p Hp) as (_ & Hnone & _). by rewrite <- Hfs2.
  - intros Hnofault. destruct extra as [|p extra]; [done|].
    destruct (Hextra p ltac:(by left)) as (Hin & _ & Hfault).
    rewrite Hnofault in Hfault; [by destruct Hfault|].
    unfold targets. right.
    assert (filename_of (prepared g2 s'.2).1 = filename_of g) as <-; [|done].
    unfold filename_of, prepared. cbn [fst]. by rewrite HOutc2, HOut.
Qed.

End without_force.

(** ** The log of a step *)

Section step_log.
Context {C : Collaborators}.
Variable Design : APIDefinition.

Lemma keeps_gen_ret {R : Type} (x : R) : keeps_gen (ret (S := State) x).
Proof. done. Qed.

Lemma keeps_gen_bind {R R' : Type} (m : M State R) (k : R → M State R') :
  keeps_gen m → (∀ x, keeps_gen (k x)) → keeps_gen (bind m k).
Proof. intros Hm Hk s. rewrite bind_run. by rewrite Hk, Hm. Qed.

Lemma keeps_gen_get_gen : keeps_gen get_gen.
Proof. done. Qed.

Lemma keeps_gen_on_world {R : Type} (f : World → R * World) : keeps_gen (on_world f).
Proof. intros [g w]. unfold on_world. simpl. by destruct (f w). Qed.

Lemma keeps_gen_update_world (f : World → World) : keeps_gen (update_world f).
Proof. done. Qed.

Lemma keeps_gen_Iterate {A : Type} (it : A → M State (option error)) (l : list A) :
  (∀ x, keeps_gen (it x)) → keeps_gen (Iterate it l).
Proof.
  intros Hit. induction l as [|x l IH]; simpl; [done|].
  apply keeps_gen_bind; [done|]. by intros [e|].
Qed.

Ltac keeps_gen_step :=
  first
    [ apply keeps_gen_ret
    | apply keeps_gen_get_gen
    | apply keeps_gen_on_world
    | apply keeps_gen_update_world
    | apply keeps_gen_Iterate; intros ?
    | apply keeps_gen_bind; [|intros ?]
    | match goal with
      | |- keeps_gen (match ?x with _ => _ end) => destruct x
      end ].

Lemma keeps_gen_write_stub (err : option error) (imports : list string) (r : ResourceDefinition) (p : string) :
  keeps_gen (write_stub Design err imports r p).
Proof. unfold write_stub, per_action. repeat keeps_gen_step. Qed.

Lemma keeps_gen_write_main (p : string) : keeps_gen (write_main p).
Proof. unfold write_main. repeat keeps_gen_step. Qed.

(** The stub of a resource and the main file record their one path. *)
Lemma resource_stub_genfiles (err : option error) (imports : list string) (r : ResourceDefinition) (f : string) (g : Generator) (w : World) :
  (resource_stub Design err imports r f (g, w)).2.1 = set_genfiles (genfiles g ++ [f]) g.
Proof.
  rewrite resource_stub_run. destruct (SourceFileFor f w).1; [done|].
  by rewrite keeps_gen_write_stub.
Qed.

Lemma createMainFile_genfiles (f : string) (g : Generator) (w : World) :
  (createMainFile f (g, w)).2.1 = set_genfiles (genfiles g ++ [f]) g.
Proof.
  rewrite createMainFile_run. destruct (SourceFileFor f w).1; [done|].
  by rewrite keeps_gen_write_main.
Qed.

Lemma os_Stat_Remove (p : string) (w : World) : os_Stat p (os_Remove p w) = false.
Proof. apply os_Stat_false. simpl. apply lookup_delete_eq. Qed.

End step_log.

(** ** The runs of the sample *)

Lemma Generate_idempotent_witness :
  Force (demo_generator false) = false ∧
  (Generate demo_design (demo_generator false, world0)).1 =
    Ok ["out/main.go"; "out/bottle.go"] ∧
  fs (Generate demo_design
        (demo_generator false,
         (Generate demo_design (demo_generator false, world0)).2.2)).2.2 =
    fs (Generate demo_design (demo_generator false, world0)).2.2.
Proof.
  assert (Hok : (Generate demo_design (demo_generator false, world0)).1 =
                Ok ["out/main.go"; "out/bottle.go"])
    by (vm_compute; reflexivity).
  split; [reflexivity|]. split; [exact Hok|].
  exact (proj1 (Generate_idempotent demo_design (demo_generator false)
                  (demo_generator false) world0 ["out/main.go"; "out/bottle.go"]
                  eq_refl Hok eq_refl eq_refl eq_refl)).
Defined.

(** * More of the generator *)

(** ** What a run touches *)

Section run_frame.
Context {C : Collaborators}.
Variable Design : APIDefinition.

(** [Cleanup] removes the recorded files and no other: a file that is
    already gone is no error, and the counter, the reserved names and the
    configuration stay. *)
Theorem Cleanup_removes_recorded (g : Generator) (w : World) (p : string) :
  fs (Cleanup (g, w)).2.2 !! p =
    (if decide (p ∈ genfiles g) then None else fs w !! p) ∧
  tempCount (Cleanup (g, w)).2.2 = tempCount w ∧
  Reserved (Cleanup (g, w)).2.2 = Reserved w ∧
  same_config g (Cleanup (g, w)).2.1.
Proof.
  rewrite Cleanup_run. cbn [fst snd]. split_and!.
  - apply remove_all_lookup.
  - induction (genfiles g) as [|f l IH] using rev_ind; [done|].
    by rewrite foldl_app.
  - induction (genfiles g) as [|f l IH] using rev_ind; [done|].
    by rewrite foldl_app.
  - apply same_config_genfiles.
Qed.

Lemma filename_of_set_genfiles (l : list string) (g : Generator) :
  filename_of (set_genfiles l g) = filename_of g.
Proof. done. Qed.

Lemma filename_of_configured (g : Generator) :
  filename_of (configured g) = filename_of g.
Proof.
  destruct (configured_config g) as (_ & HOut & _). unfold filename_of.
  by rewrite HOut.
Qed.

(** The closure changes no file but the one of its resource. *)
Lemma per_resource_frame (err : option error) (imports : list string) (r : ResourceDefinition) (s : State) (p : string) :
  p ≠ filename_of s.1 r →
  fs (per_resource Design err imports r s).2.2 !! p = fs s.2 !! p.
Proof.
  destruct s as [g w]. cbn [fst snd]. intros Hp. rewrite per_resource_run.
  assert (Hrm : fs (if Force g then os_Remove (filename_of g r) w else w) !! p = fs w !! p).
  { destruct (Force g); [|done]. simpl. by rewrite lookup_delete_ne. }
  destruct (os_Stat _ _); [done|].
  by rewrite (local_frame _ _ (local_resource_stub Design err imports r (filename_of g r))).
Qed.

(** The closure records the file of its resource, or nothing. *)
Lemma per_resource_log (err : option error) (imports : list string) (r : ResourceDefinition) (g : Generator) (w : World) :
  ∃ extra,
    (per_resource Design err imports r (g, w)).2.1 = set_genfiles (genfiles g ++ extra) g ∧
    ∀ p, p ∈ extra → p = filename_of g r.
Proof.
  rewrite per_resource_run. destruct (os_Stat _ _).
  - exists []. cbn [fst snd]. rewrite set_genfiles_id. split; [done|].
    by intros p ?%elem_of_nil.
  - exists [filename_of g r]. rewrite resource_stub_genfiles. split; [done|].
    by intros p ->%list_elem_of_singleton.
Qed.

Lemma Iterate_per_resource_frame (err : option error) (imports : list string) (rs : list ResourceDefinition) (g : Generator) (w : World) :
  (∀ p, p ∉ (filename_of g <$> rs) →
        fs (Iterate (per_resource Design err imports) rs (g, w)).2.2 !! p = fs w !! p) ∧
  ∃ extra,
    (Iterate (per_resource Design err imports) rs (g, w)).2.1 =
      set_genfiles (genfiles g ++ extra) g ∧
    ∀ p, p ∈ extra → p ∈ (filename_of g <$> rs).
Proof.
  revert g w. induction rs as [|r rs IH]; intros g w.
  - split; [done|]. exists []. cbn [Iterate ret fst snd]. rewrite set_genfiles_id.
    split; [done|]. by intros p ?%elem_of_nil.
  - rewrite Iterate_cons.
    destruct (per_resource_log err imports r g w) as (e1 & Hg1 & He1).
    pose proof (λ p, per_resource_frame err imports r (g, w) p) as Hfr.
    destruct (per_resource Design err imports r (g, w)) as [[e|] [g1 w1]];
      cbn [fst snd] in *; subst g1.
    + split.
      * intros p Hp. apply Hfr. intros ->. apply Hp. rewrite fmap_cons. by left.
      * exists e1. split; [done|]. intros p Hp. rewrite (He1 p Hp), fmap_cons. by left.
    + destruct (IH (set_genfiles (genfiles g ++ e1) g) w1) as (Hfr' & e2 & Hg2 & He2).
      rewrite filename_of_set_genfiles in *. split.
      * intros p Hp. rewrite Hfr'.
        -- apply Hfr. intros ->. apply Hp. rewrite fmap_cons. by left.
        -- intros Hin. apply Hp. rewrite fmap_cons. by right.
      * exists (e1 ++ e2). rewrite Hg2. cbn [genfiles set_genfiles].
        rewrite app_assoc. split; [done|].
        intros p [Hp|Hp]%elem_of_app; rewrite fmap_cons.
        -- rewrite (He1 p Hp). by left.
        -- right. by apply He2.
Qed.

(** [Generate] before the deferred [Cleanup]: only targets are touched and
    only targets are recorded. *)
Lemma Generate_body_frame (g : Generator) (w : World) :
  (∀ p, p ∉ targets g → fs (Generate_body Design (g, w)).2.2 !! p = fs w !! p) ∧
  ∃ extra,
    (Generate_body Design (g, w)).2.1 = set_genfiles (genfiles g ++ extra) (configured g) ∧
    ∀ p, p ∈ extra → p ∈ targets g.
Proof.
  destruct (configured_config g) as (HAPIc & HOutc & HFc & Hgfc).
  assert (Hprep : (∀ p, p ≠ mainFile_of g → fs (prepared g w).2 !! p = fs w !! p) ∧
                  (prepared g w).1 = configured g).
  { unfold prepared. cbn [fst snd]. split; [|done]. intros p Hp.
    destruct (Force g); [|done]. simpl. by rewrite lookup_delete_ne. }
  destruct Hprep as [Hpfs Hpg].
  assert (Hid : set_genfiles (genfiles g ++ []) (configured g) = configured g)
    by (rewrite <- Hgfc; apply set_genfiles_id).
  assert (Hmain_notin : ∀ p, p ∉ targets g → p ≠ mainFile_of g).
  { intros p Hp ->. apply Hp. unfold targets. by left. }
  assert (Hres_notin : ∀ p, p ∉ targets g → p ∉ (filename_of g <$> API_Resources (API g))).
  { intros p Hp Hin. apply Hp. unfold targets. by right. }
  rewrite Generate_body_run.
  destruct (PackagePath (OutDir g)) as [imp|e].
  2:{ cbn [fst snd]. split; [by auto|]. exists []. rewrite Hpg, Hid.
      split; [done|]. by intros p ?%elem_of_nil. }
  cbn zeta.
  assert (Hmain : ∃ e0 m extra,
    (if os_Stat (mainFile_of g) (prepared g w).2 then (None, prepared g w)
     else createMainFile (mainFile_of g) (prepared g w)) = (e0, m) ∧
    (∀ p, p ∉ targets g → fs m.2 !! p = fs w !! p) ∧
    m.1 = set_genfiles (genfiles g ++ extra) (configured g) ∧
    ∀ p, p ∈ extra → p ∈ targets g).
  { destruct (os_Stat _ _).
    - exists None, (prepared g w), []. rewrite Hpg, Hid.
      split_and!; [done|by auto|done|]. by intros p ?%elem_of_nil.
    - pose proof (createMainFile_genfiles (mainFile_of g) (prepared g w).1 (prepared g w).2)
        as Hg.
      rewrite <- surjective_pairing in Hg.
      pose proof (local_frame _ _ (local_createMainFile (mainFile_of g)) (prepared g w))
        as Hfr.
      destruct (createMainFile _ _) as [e0 m]. cbn [fst snd] in *.
      exists e0, m, [mainFile_of g]. split_and!; [done| | |].
      + intros p Hp. rewrite Hfr by auto. auto.
      + by rewrite Hg, Hpg, Hgfc.
      + intros p ->%list_elem_of_singleton. unfold targets. by left. }
  destruct Hmain as (e0 & m & e1 & -> & Hmfs & Hmg & He1). cbn [fst snd].
  destruct e0 as [e|].
  { cbn [fst snd]. split; [done|]. by exists e1. }
  destruct (Iterate_per_resource_frame None (resource_imports imp)
              (API_Resources (API g)) m.1 m.2) as (Hfr & e2 & Hg2 & He2).
  rewrite <- surjective_pairing in Hfr, Hg2.
  rewrite Hmg, filename_of_set_genfiles, filename_of_configured in Hfr, He2.
  assert (Hend : (∀ p, p ∉ targets g →
                    fs (Iterate (per_resource Design None (resource_imports imp))
                          (API_Resources (API g)) m).2.2 !! p = fs w !! p) ∧
                 ∃ extra,
                   (Iterate (per_resource Design None (resource_imports imp))
                      (API_Resources (API g)) m).2.1 =
                     set_genfiles (genfiles g ++ extra) (configured g) ∧
                   ∀ p, p ∈ extra → p ∈ targets g).
  { split.
    - intros p Hp. rewrite Hfr by auto. auto.
    - exists (e1 ++ e2). rewrite Hg2, Hmg. cbn [genfiles set_genfiles].
      rewrite app_assoc. split; [done|].
      intros p [Hp|Hp]%elem_of_app; [by auto|]. unfold targets. right. by apply He2. }
  by destruct (Iterate _ _ m) as [[e|] t].
Qed.

(** A run changes no file outside its targets and its log, whether it is
    forced or not and whether it succeeds or not. *)
Theorem Generate_frame (g : Generator) (w : World) (p : string) :
  p ∉ targets g → p ∉ genfiles g →
  fs (Generate Design (g, w)).2.2 !! p = fs w !! p.
Proof.
  intros Hp Hlog. destruct (Generate_body_frame g w) as (Hfr & extra & Hg & Hextra).
  rewrite Generate_run.
  destruct (Generate_body Design (g, w)) as [[files|e] [g' w']] eqn:Hbody;
    cbn [fst snd] in *; [by apply Hfr|].
  rewrite Cleanup_run. cbn [fst snd]. rewrite remove_all_lookup.
  rewrite decide_False; [by apply Hfr|].
  rewrite Hg. cbn [genfiles set_genfiles]. intros [?|?]%elem_of_app; [done|].
  by apply Hp, Hextra.
Qed.

End run_frame.

(** ** A run without force creates files only *)

Section creates_only.
Context {C : Collaborators}.
Variable Design : APIDefinition.

(** A step on a missing file that records it. *)
Lemma created_only_local (fs0 : gmap string string) (f : string) {R : Type} (op : M State R) (s : State) :
  local f op →
  (op s).2.1 = set_genfiles (genfiles s.1 ++ [f]) s.1 →
  fs s.2 !! f = None →
  created_only fs0 s → created_only fs0 (op s).2.
Proof.
  intros Hop Hg Hf (Ha & Hb & Hc). split_and!.
  - intros p c Hp. rewrite (local_frame _ _ Hop); [by apply Ha|].
    intros ->. rewrite (Ha _ _ Hp) in Hf. done.
  - intros p. rewrite Hg. cbn [genfiles set_genfiles].
    intros [Hp| ->%list_elem_of_singleton]%elem_of_app; [by apply Hb|].
    destruct (fs0 !! f) as [c|] eqn:H0; [|done]. by rewrite (Ha _ _ H0) in Hf.
  - intros p Hp. rewrite Hg. cbn [genfiles set_genfiles]. intros Hnot.
    rewrite (local_frame _ _ Hop).
    + apply Hc; [done|]. intros Hin. apply Hnot, elem_of_app. by left.
    + intros ->. apply Hnot, elem_of_app. right. by apply list_elem_of_singleton.
Qed.

Lemma per_resource_created_only (fs0 : gmap string string) (err : option error) (imports : list string) (r : ResourceDefinition) (g : Generator) (w : World) :
  Force g = false → created_only fs0 (g, w) →
  created_only fs0 (per_resource Design err imports r (g, w)).2 ∧
  (fs0 !! filename_of g r = None →
   filename_of g r ∈ genfiles (per_resource Design err imports r (g, w)).2.1).
Proof.
  intros HF Hinv. rewrite per_resource_run, HF.
  destruct (os_Stat (filename_of g r) w) eqn:Hstat.
  - cbn [fst snd]. split; [done|]. intros H0.
    destruct Hinv as (_ & _ & Hc). cbn [fst snd] in Hc. apply os_Stat_true in Hstat.
    destruct (decide (filename_of g r ∈ genfiles g)) as [|Hnot]; [done|].
    rewrite (Hc _ H0 Hnot) in Hstat. by destruct Hstat.
  - apply os_Stat_false in Hstat.
    pose proof (resource_stub_genfiles Design err imports r (filename_of g r) g w) as Hg.
    split.
    + by apply (created_only_local fs0 (filename_of g r) _ (g, w));
        [apply local_resource_stub|..].
    + intros _. rewrite Hg. cbn [genfiles set_genfiles]. apply elem_of_app. right.
      by apply list_elem_of_singleton.
Qed.

Lemma Iterate_per_resource_created_only (fs0 : gmap string string) (err : option error) (imports : list string) (rs : list ResourceDefinition) (g : Generator) (w : World) :
  Force g = false → created_only fs0 (g, w) →
  created_only fs0 (Iterate (per_resource Design err imports) rs (g, w)).2 ∧
  ((Iterate (per_resource Design err imports) rs (g, w)).1 = None →
   ∀ r, r ∈ rs → fs0 !! filename_of g r = None →
        filename_of g r ∈ genfiles (Iterate (per_resource Design err imports) rs (g, w)).2.1).
Proof.
  revert g w. induction rs as [|r rs IH]; intros g w HF Hinv.
  - split; [done|]. by intros _ r ?%elem_of_nil.
  - rewrite Iterate_cons.
    destruct (per_resource_created_only fs0 err imports r g w HF Hinv) as [Hinv1 Hrec].
    destruct (per_resource_log Design err imports r g w) as (e1 & Hg1 & _).
    destruct (per_resource Design err imports r (g, w)) as [[e|] [g1 w1]];
      cbn [fst snd] in *; [done|]. subst g1.
    destruct (IH (set_genfiles (genfiles g ++ e1) g) w1 HF Hinv1) as [Hinv2 Hrec2].
    split; [done|].
    intros Hnone r' [->|Hin]%elem_of_cons H0.
    + destruct (Iterate_per_resource_frame Design err imports rs
                  (set_genfiles (genfiles g ++ e1) g) w1) as (_ & e2 & -> & _).
      cbn [genfiles set_genfiles]. apply elem_of_app. left. by apply Hrec.
    + by apply (Hrec2 Hnone r' Hin).
Qed.

(** [Generate] before the deferred [Cleanup], without force and from a
    log of paths that have no file. *)
Lemma Generate_body_created_only (g : Generator) (w : World) :
  Force g = false → (∀ p, p ∈ genfiles g → fs w !! p = None) →
  created_only (fs w) (Generate_body Design (g, w)).2 ∧
  ∀ files, (Generate_body Design (g, w)).1 = Ok files →
    ∀ p, p ∈ targets g → fs w !! p = None → p ∈ files.
Proof.
  intros HF Hlog.
  destruct (configured_config g) as (HAPIc & HOutc & HFc & Hgfc).
  assert (Hprep : created_only (fs w) (prepared g w) ∧ Force (prepared g w).1 = false).
  { unfold prepared. rewrite HF. cbn [fst snd]. split; [|congruence].
    split_and!; [done| |done]. cbn [fst]. rewrite Hgfc. done. }
  destruct Hprep as [Hinv0 HF0].
  rewrite Generate_body_run.
  destruct (PackagePath (OutDir g)) as [imp|e]; [|done]. cbn zeta.
  assert (Hmain : ∃ e0 m,
    (if os_Stat (mainFile_of g) (prepared g w).2 then (None, prepared g w)
     else createMainFile (mainFile_of g) (prepared g w)) = (e0, m) ∧
    created_only (fs w) m ∧ Force m.1 = false ∧
    filename_of m.1 = filename_of g ∧
    (fs w !! mainFile_of g = None → mainFile_of g ∈ genfiles m.1)).
  { destruct (os_Stat (mainFile_of g) (prepared g w).2) eqn:Hstat.
    - exists None, (prepared g w). split_and!; [done..| |].
      + unfold prepared. cbn [fst]. apply filename_of_configured.
      + intros H0. apply os_Stat_true in Hstat. destruct Hinv0 as (_ & _ & Hc).
        destruct (decide (mainFile_of g ∈ genfiles (prepared g w).1)) as [|Hnot]; [done|].
        rewrite (Hc _ H0 Hnot) in Hstat. by destruct Hstat.
    - apply os_Stat_false in Hstat.
      pose proof (createMainFile_genfiles (mainFile_of g) (prepared g w).1 (prepared g w).2)
        as Hg.
      rewrite <- surjective_pairing in Hg.
      pose proof (created_only_local (fs w) (mainFile_of g) _ (prepared g w)
                    (local_createMainFile (mainFile_of g)) Hg Hstat Hinv0) as Hinv1.
      destruct (createMainFile _ _) as [e0 m]. cbn [fst snd] in *.
      exists e0, m. split_and!; [done|done|by rewrite Hg| |].
      + rewrite Hg, filename_of_set_genfiles. unfold prepared. cbn [fst].
        apply filename_of_configured.
      + intros _. rewrite Hg. cbn [genfiles set_genfiles]. apply elem_of_app.
        right. by apply list_elem_of_singleton. }
  destruct Hmain as (e0 & [gm wm] & -> & Hinvm & HFm & Hnames & Hmainrec).
  cbn [fst snd] in *. destruct e0 as [e|]; [done|].
  destruct (Iterate_per_resource_created_only (fs w) None (resource_imports imp)
              (API_Resources (API g)) gm wm HFm Hinvm) as [Hinv Hrec].
  destruct (Iterate_per_resource_frame Design None (resource_imports imp)
              (API_Resources (API g)) gm wm) as (_ & e2 & Hg2 & _).
  destruct (Iterate _ _ (gm, wm)) as [[e|] [gt wt]]; cbn [fst snd] in *; [done|].
  split; [done|]. intros files [= <-] p Hp H0. unfold targets in Hp.
  apply elem_of_cons in Hp as [->|Hp].
  - subst gt. cbn [genfiles set_genfiles]. apply elem_of_app. left. by apply Hmainrec.
  - apply list_elem_of_fmap in Hp as (r & -> & Hr).
    rewrite <- Hnames. apply (Hrec eq_refl r Hr). by rewrite Hnames.
Qed.

(** Without force, and from a log of paths that have no file (an empty log,
    say), a run never changes or removes a file that is there: whether it
    succeeds or fails, every file keeps its content. *)
Theorem Generate_keeps_existing (g : Generator) (w : World) (p c : string) :
  Force g = false → (∀ q, q ∈ genfiles g → fs w !! q = None) →
  fs w !! p = Some c →
  fs (Generate Design (g, w)).2.2 !! p = Some c.
Proof.
  intros HF Hlog Hp.
  destruct (Generate_body_created_only g w HF Hlog) as [(Ha & Hb & _) _].
  rewrite Generate_run.
  destruct (Generate_body Design (g, w)) as [[files|e] [g' w']];
    cbn [fst snd] in *; [by apply Ha|].
  rewrite Cleanup_run. cbn [fst snd]. rewrite remove_all_lookup.
  rewrite decide_False; [by apply Ha|]. intros Hin. by rewrite (Hb _ Hin) in Hp.
Qed.

(** Without force, and from a log of paths that have no file, a run that
    returns an error leaves the files exactly as they were. *)
Theorem Generate_failure_restores (g : Generator) (w : World) (e : error) :
  Force g = false → (∀ q, q ∈ genfiles g → fs w !! q = None) →
  (Generate Design (g, w)).1 = Err e →
  fs (Generate Design (g, w)).2.2 = fs w.
Proof.
  intros HF Hlog.
  destruct (Generate_body_created_only g w HF Hlog) as [(Ha & Hb & Hc) _].
  rewrite Generate_run.
  destruct (Generate_body Design (g, w)) as [[files|e'] [g' w']];
    cbn [fst snd] in *; [done|]. intros _.
  rewrite Cleanup_run. cbn [fst snd]. apply map_eq. intros p.
  rewrite remove_all_lookup. case_decide as Hin.
  - by rewrite (Hb _ Hin).
  - destruct (fs w !! p) as [c|] eqn:H0; [by apply Ha|by apply Hc].
Qed.

(** Without force, and from a log of paths that have no file, the list a
    run returns holds the paths of that log and the targets that had no
    file, and no other path. *)
Theorem Generate_returns_missing (g : Generator) (w : World) (files : list string) (p : string) :
  Force g = false → (∀ q, q ∈ genfiles g → fs w !! q = None) →
  (Generate Design (g, w)).1 = Ok files →
  p ∈ files ↔ p ∈ genfiles g ∨ (p ∈ targets g ∧ fs w !! p = None).
Proof.
  intros HF Hlog.
  destruct (Generate_body_created_only g w HF Hlog) as [(_ & Hb & _) Hrec].
  destruct (Generate_body_frame Design g w) as (_ & extra & Hg & Hextra).
  rewrite Generate_run.
  assert (Hfiles : ∀ l, (Generate_body Design (g, w)).1 = Ok l →
                        l = genfiles (Generate_body Design (g, w)).2.1).
  { rewrite Generate_body_run. destruct (PackagePath _); [|done]. cbn zeta.
    destruct (_ : option error * State) as [[?|] m]; [done|]. cbn [fst snd].
    destruct (Iterate _ _ m) as [[?|] t]; [done|]. by intros l [= <-]. }
  destruct (Generate_body Design (g, w)) as [[l|e'] [g' w']];
    cbn [fst snd] in *; [|done]. intros [= ->].
  pose proof (Hfiles files eq_refl) as Heq. clear Hfiles. split.
  - intros Hin. rewrite Heq in Hin. pose proof (Hb _ Hin) as H0. rewrite Hg in Hin.
    cbn [genfiles set_genfiles] in Hin.
    apply elem_of_app in Hin as [?|?]; [by left|]. right. split; [by apply Hextra|done].
  - intros [Hin|[Hin H0]].
    + rewrite Heq, Hg. cbn [genfiles set_genfiles]. apply elem_of_app. by left.
    + by apply (Hrec files eq_refl p).
Qed.

End creates_only.

(** ** The content of the generated files *)

Section file_content.
Context {C : Collaborators}.
Variable Design : APIDefinition.

Lemma with_file_again (f c c' : string) (w : World) :
  with_file f c' (with_file f c w) = with_file f c' w.
Proof. unfold with_file, set_fs. simpl. by rewrite insert_insert_eq. Qed.

Lemma with_file_Remove (f c : string) (w : World) :
  with_file f c (os_Remove f w) = with_file f c w.
Proof. unfold with_file, os_Remove, set_fs. simpl. by rewrite insert_delete_eq. Qed.

Lemma SourceFileFor_ok (f : string) (w : World) :
  SourceFileFor_fault f = None → SourceFileFor f w = (None, w).
Proof. intros Hfault. unfold SourceFileFor. by rewrite Hfault. Qed.

Lemma file_Write_absent (f text : string) (w : World) :
  fs w !! f = None → file_Write f text w = with_file f text w.
Proof. intros Hf. unfold file_Write, with_file, set_fs. by rewrite Hf. Qed.

Lemma file_Write_with_file (f c text : string) (w : World) :
  file_Write f text (with_file f c w) = with_file f (c +:+ text) w.
Proof.
  unfold file_Write, with_file, set_fs. simpl.
  by rewrite lookup_insert_eq, insert_insert_eq.
Qed.

Lemma ExecuteTemplate_with_file (f name c text : string) (w : World) :
  ExecuteTemplate_fault name f text = None →
  ExecuteTemplate f name text (with_file f c w) = (None, with_file f (c +:+ text) w).
Proof. intros Hfault. unfold ExecuteTemplate. by rewrite Hfault, file_Write_with_file. Qed.

Lemma FormatCode_with_file (f c formatted : string) (w : World) :
  gofmt c = Ok formatted →
  FormatCode f (with_file f c w) = (None, with_file f formatted w).
Proof.
  intros Hfmt. rewrite <- (with_file_again f c formatted w).
  unfold FormatCode, with_file at 1 3, set_fs at 1 3. cbn [fs].
  rewrite lookup_insert_eq. unfold default, from_option, id. by rewrite Hfmt.
Qed.

Lemma on_world_run {R : Type} (op : World → R * World) (g : Generator) (w : World) :
  on_world op (g, w) = ((op w).1, (g, (op w).2)).
Proof. unfold on_world. cbn [fst snd]. by destruct (op w). Qed.

Lemma update_world_run (op : World → World) (g : Generator) (w : World) :
  update_world op (g, w) = (tt, (g, op w)).
Proof. done. Qed.

(** The main template reads no file. *)
Lemma mainT_range_set_fs (g : Generator) (rs : list ResourceDefinition) (h : gmap string string → gmap string string) (w : World) :
  mainT_range g rs (set_fs h w) =
    ((mainT_range g rs w).1, set_fs h (mainT_range g rs w).2).
Proof.
  revert w. induction rs as [|res rs IH]; intros w; [done|].
  rewrite !mainT_range_cons. cbn [fst snd].
  change (mainT_mount g res (set_fs h w))
    with ((mainT_mount g res w).1, set_fs h (mainT_mount g res w).2).
  cbn [fst snd]. by rewrite IH.
Qed.

Lemma mainT_range_set_genfiles (l : list string) (g : Generator) (rs : list ResourceDefinition) (w : World) :
  mainT_range (set_genfiles l g) rs w = mainT_range g rs w.
Proof.
  revert w. induction rs as [|res rs IH]; intros w; [done|].
  rewrite !mainT_range_cons.
  change (mainT_mount (set_genfiles l g) res w) with (mainT_mount g res w).
  by rewrite IH.
Qed.

Lemma mainT_set_genfiles (l : list string) (g : Generator) (w : World) :
  mainT (set_genfiles l g) w = mainT g w.
Proof.
  unfold mainT. rewrite mainT_range_set_genfiles.
  by change (API (set_genfiles l g)) with (API g).
Qed.

Lemma mainT_set_fs (g : Generator) (h : gmap string string → gmap string string) (w : World) :
  mainT g (set_fs h w) = ((mainT g w).1, set_fs h (mainT g w).2).
Proof.
  unfold mainT. rewrite mainT_range_set_fs.
  by destruct (mainT_range g (API_Resources (API g)) w).
Qed.

Lemma mainT_with_file (g : Generator) (f c : string) (w : World) :
  mainT g (with_file f c w) = ((mainT g w).1, with_file f c (mainT g w).2).
Proof.
  unfold mainT, with_file. rewrite mainT_range_set_fs.
  by destruct (mainT_range g (API_Resources (API g)) w).
Qed.

(** The templates and the resolver read the target package of [g] and
    nothing else of it. *)
Lemma action_text_set_genfiles (l : list string) (g : Generator) (a : ActionDefinition) :
  action_text Design (set_genfiles l g) a = action_text Design g a.
Proof. done. Qed.

Lemma per_action_with_file (f c : string) (a : ActionDefinition) (g : Generator) (w : World) :
  ExecuteTemplate_fault (action_template a) f (action_text Design g a) = None →
  per_action Design f a (g, with_file f c w) =
    (None, (g, with_file f (c +:+ action_text Design g a) w)).
Proof.
  intros Ha. rewrite per_action_run. unfold action_template, action_text in *.
  destruct (Action_WebSocket a); by rewrite ExecuteTemplate_with_file.
Qed.

Lemma Iterate_per_action_content (f c : string) (l : list ActionDefinition) (g : Generator) (w : World) :
  (∀ a, a ∈ l →
        ExecuteTemplate_fault (action_template a) f (action_text Design g a) = None) →
  Iterate (per_action Design f) l (g, with_file f c w) =
    (None, (g, with_file f (c +:+ actions_text Design g l) w)).
Proof.
  revert c. induction l as [|a l IH]; intros c Hfault.
  - cbn [Iterate actions_text foldr]. by rewrite append_nil_r.
  - rewrite Iterate_cons, per_action_with_file by (apply Hfault; by left).
    cbn [fst snd]. rewrite IH.
    + cbn [actions_text foldr]. by rewrite append_assoc.
    + intros a' Ha'. apply Hfault. by right.
Qed.

(** The closure, where nothing fails, on a resource whose file is missing
    or is removed by force: it records the path and leaves in the file the
    formatted header, controller stub and one handler per action, in the
    order of the actions, a streaming action by [actionWST] and any other
    by [actionT]. *)
Lemma per_resource_content (err : option error) (imports : list string) (r : ResourceDefinition) (g : Generator) (w : World) (formatted : string) :
  Force g = true ∨ fs w !! filename_of g r = None →
  SourceFileFor_fault (filename_of g r) = None →
  ExecuteTemplate_fault "controller" (filename_of g r) (ctrlT r) = None →
  (∀ a, a ∈ Resource_Actions r →
        ExecuteTemplate_fault (action_template a) (filename_of g r)
          (action_text Design g a) = None) →
  gofmt (stub_text Design g imports r) = Ok formatted →
  per_resource Design err imports r (g, w) =
    (None, (set_genfiles (genfiles g ++ [filename_of g r]) g,
            with_file (filename_of g r) formatted w)).
Proof.
  intros Hmiss Hopen Hctrl Hacts Hfmt. set (f := filename_of g r) in *.
  rewrite per_resource_run. fold f.
  set (w0 := if Force g then os_Remove f w else w).
  assert (H0 : fs w0 !! f = None).
  { unfold w0. destruct (Force g); [simpl; apply lookup_delete_eq|].
    by destruct Hmiss. }
  assert (Hw0 : with_file f formatted w0 = with_file f formatted w).
  { unfold w0. destruct (Force g); [apply with_file_Remove|done]. }
  rewrite (proj2 (os_Stat_false f w0) H0), resource_stub_run.
  rewrite (SourceFileFor_ok f w0 Hopen). cbn [fst snd].
  set (g' := set_genfiles (genfiles g ++ [f]) g).
  unfold write_stub. rewrite bind_run, update_world_run. cbn [fst snd].
  unfold WriteHeader. rewrite (file_Write_absent f _ w0 H0).
  rewrite bind_run, on_world_run.
  rewrite (ExecuteTemplate_with_file f "controller" _ (ctrlT r) w0 Hctrl). cbn [fst snd].
  rewrite bind_run, Iterate_per_action_content by done. cbn [fst snd].
  rewrite bind_run, on_world_run.
  rewrite (FormatCode_with_file f _ formatted w0).
  - cbn [fst snd]. unfold ret. by rewrite Hw0.
  - rewrite !append_assoc. exact Hfmt.
Qed.

(** [createMainFile], where nothing fails, on a main file that is missing:
    it records the path, advances the counter as the main template does,
    and leaves in the file the formatted [go:generate] line, header and
    rendered main template. *)
Lemma createMainFile_content (f : string) (g : Generator) (w : World) (outPkg formatted : string) :
  fs w !! f = None →
  SourceFileFor_fault f = None →
  PackagePath (OutDir g) = Ok outPkg →
  ExecuteTemplate_fault "main" f (mainT g w).1 = None →
  gofmt (main_text g outPkg (mainT g w).1) = Ok formatted →
  createMainFile f (g, w) =
    (None, (set_genfiles (genfiles g ++ [f]) g, with_file f formatted (mainT g w).2)).
Proof.
  intros H0 Hopen Hpkg Hexec Hfmt.
  rewrite createMainFile_run, (SourceFileFor_ok f w Hopen). cbn [fst snd].
  unfold write_main. rewrite bind_run. unfold get_gen. cbn [fst snd].
  change (OutDir (set_genfiles (genfiles g ++ [f]) g)) with (OutDir g).
  change (DesignPkg (set_genfiles (genfiles g ++ [f]) g)) with (DesignPkg g).
  rewrite Hpkg, bind_run, update_world_run. cbn [fst snd].
  rewrite (file_Write_absent f _ w H0).
  rewrite bind_run, update_world_run. cbn [fst snd].
  unfold WriteHeader. rewrite file_Write_with_file.
  rewrite bind_run, on_world_run, ExecuteTemplate_main_run.
  rewrite mainT_set_genfiles, mainT_with_file. cbn [fst snd].
  rewrite Hexec, file_Write_with_file. cbn [fst snd].
  rewrite on_world_run.
  rewrite (FormatCode_with_file f _ formatted); [done|].
  unfold main_text in Hfmt. rewrite !append_assoc in *. exact Hfmt.
Qed.

Lemma mainT_text_reads (g : Generator) (w1 w2 : World) :
  tempCount w1 = tempCount w2 → (mainT g w1).1 = (mainT g w2).1.
Proof.
  intros Ht. destruct (mainT_run g w1) as (_ & _ & text & Htext).
  rewrite !Htext. f_equal. by apply mainT_range_reads.
Qed.

Lemma stub_text_set_genfiles (l : list string) (g : Generator) (imports : list string) (r : ResourceDefinition) :
  stub_text Design (set_genfiles l g) imports r = stub_text Design g imports r.
Proof. done. Qed.

(** The closure over resources with distinct files, each missing or
    removed by force, where nothing fails: every file is recorded and
    holds its formatted stub, and no other file changes. *)
Lemma Iterate_per_resource_content (err : option error) (imports : list string) (fmt : string → string) (rs : list ResourceDefinition) (g : Generator) (w : World) :
  Force g = true ∨ (∀ r, r ∈ rs → fs w !! filename_of g r = None) →
  NoDup (filename_of g <$> rs) →
  (∀ r, r ∈ rs → SourceFileFor_fault (filename_of g r) = None) →
  (∀ name r text, r ∈ rs → ExecuteTemplate_fault name (filename_of g r) text = None) →
  (∀ r, r ∈ rs →
        gofmt (stub_text Design g imports r) = Ok (fmt (stub_text Design g imports r))) →
  ∃ w', Iterate (per_resource Design err imports) rs (g, w) =
          (None, (set_genfiles (genfiles g ++ (filename_of g <$> rs)) g, w')) ∧
        (∀ r, r ∈ rs →
              fs w' !! filename_of g r = Some (fmt (stub_text Design g imports r))) ∧
        (∀ p, p ∉ (filename_of g <$> rs) → fs w' !! p = fs w !! p).
Proof.
  revert g w. induction rs as [|r rs IH]; intros g w Hmiss Hnodup Hopen Hexec Hfmt.
  - exists w. cbn [Iterate fmap list_fmap]. rewrite set_genfiles_id.
    split_and!; [done| |done]. by intros r ?%elem_of_nil.
  - rewrite fmap_cons in Hnodup. apply NoDup_cons in Hnodup as [Hfresh Hnodup].
    set (f := filename_of g r) in *.
    rewrite Iterate_cons.
    rewrite (per_resource_content err imports r g w (fmt (stub_text Design g imports r))).
    2:{ destruct Hmiss as [?|Hmiss]; [by left|right]. apply Hmiss. by left. }
    2:{ apply Hopen. by left. }
    2:{ apply Hexec. by left. }
    2:{ intros a _. apply Hexec. by left. }
    2:{ apply Hfmt. by left. }
    cbn [fst snd]. fold f.
    set (g1 := set_genfiles (genfiles g ++ [f]) g).
    set (w1 := with_file f (fmt (stub_text Design g imports r)) w).
    assert (Hne : ∀ r', r' ∈ rs → filename_of g r' ≠ f).
    { intros r' Hr' Heq. apply Hfresh. rewrite <- Heq.
      apply list_elem_of_fmap. by exists r'. }
    destruct (IH g1 w1) as (w' & Hrun & Hcontent & Hframe).
    { destruct Hmiss as [?|Hmiss]; [by left|right]. intros r' Hr'.
      change (filename_of g1 r') with (filename_of g r').
      unfold w1, with_file. cbn [fs set_fs]. rewrite lookup_insert_ne by (by apply not_eq_sym, Hne).
      apply Hmiss. by right. }
    { exact Hnodup. }
    { intros r' Hr'. apply Hopen. by right. }
    { intros name r' text Hr'. apply (Hexec name r' text). by right. }
    { intros r' Hr'. apply Hfmt. by right. }
    exists w'. rewrite Hrun. split_and!.
    + do 2 f_equal. unfold g1. cbn [genfiles set_genfiles fmap list_fmap].
      change (filename_of g1) with (filename_of g). fold f.
      unfold set_genfiles. cbn. by rewrite <- app_assoc.
    + intros r' [->|Hr']%elem_of_cons.
      * fold f. rewrite Hframe by exact Hfresh.
        unfold w1, with_file. cbn [fs set_fs]. by rewrite lookup_insert_eq.
      * exact (Hcontent r' Hr').
    + intros p Hp. rewrite fmap_cons in Hp. apply not_elem_of_cons in Hp as [Hpf Hp].
      rewrite Hframe by exact Hp. unfold w1, with_file. cbn [fs set_fs].
      by rewrite lookup_insert_ne.
Qed.

(** A run where nothing fails, on targets with distinct paths, each
    missing or removed by force: it returns the log followed by the
    targets, the main file holds the formatted [go:generate] line, header
    and main template, and the file of each resource the formatted header,
    controller and one handler for each action. The main file imports the
    package path as [PackagePath] returns it, the files of the resources
    import it passed through [filepath.ToSlash]. The formatter has to
    succeed on the texts of the run only, [fmt] being what it makes of
    them. *)
Theorem Generate_content (g : Generator) (w : World) (imp : string) (fmt : string → string) :
  Force g = true ∨ (∀ p, p ∈ targets g → fs w !! p = None) →
  NoDup (targets g) →
  PackagePath (OutDir g) = Ok imp →
  (∀ p, p ∈ targets g → SourceFileFor_fault p = None) →
  (∀ name p text, p ∈ targets g → ExecuteTemplate_fault name p text = None) →
  gofmt (main_text (configured g) imp (mainT (configured g) w).1) =
    Ok (fmt (main_text (configured g) imp (mainT (configured g) w).1)) →
  (∀ r, r ∈ API_Resources (API g) →
        gofmt (stub_text Design (configured g) (resource_imports imp) r) =
          Ok (fmt (stub_text Design (configured g) (resource_imports imp) r))) →
  (Generate Design (g, w)).1 = Ok (genfiles g ++ targets g) ∧
  fs (Generate Design (g, w)).2.2 !! mainFile_of g =
    Some (fmt (main_text (configured g) imp (mainT (configured g) w).1)) ∧
  ∀ r, r ∈ API_Resources (API g) →
       fs (Generate Design (g, w)).2.2 !! filename_of g r =
         Some (fmt (stub_text Design (configured g) (resource_imports imp) r)).
Proof.
  intros Hmiss Hnodup Hpkg Hopen Hexec Hfmt_main Hfmt.
  destruct (configured_config g) as (HAPI & HOut & HF & Hgf).
  unfold targets in Hnodup. apply NoDup_cons in Hnodup as [Hmain_fresh Hnodup].
  assert (Hprep : fs (prepared g w).2 !! mainFile_of g = None ∧
                  tempCount (prepared g w).2 = tempCount w ∧
                  ∀ p, p ≠ mainFile_of g → fs (prepared g w).2 !! p = fs w !! p).
  { unfold prepared. cbn [snd]. destruct (Force g) eqn:HFg.
    - split_and!; [apply lookup_delete_eq|done|].
      intros p Hp. cbn [fs os_Remove set_fs]. by rewrite lookup_delete_ne.
    - destruct Hmiss as [?|Hmiss]; [done|]. split_and!; [|done..].
      apply Hmiss. by left. }
  destruct Hprep as (Hp0 & Hpt & Hpfs).
  rewrite Generate_run, Generate_body_run, Hpkg.
  rewrite (proj2 (os_Stat_false _ _) Hp0). cbn zeta.
  assert (Hcreate := createMainFile_content (mainFile_of g) (prepared g w).1 (prepared g w).2 imp
            (fmt (main_text (configured g) imp (mainT (configured g) w).1))).
  rewrite <- surjective_pairing in Hcreate.
  change (prepared g w).1 with (configured g) in Hcreate.
  rewrite (mainT_text_reads (configured g) (prepared g w).2 w Hpt) in Hcreate.
  rewrite Hcreate; clear Hcreate.
  2:{ exact Hp0. }
  2:{ apply Hopen. by left. }
  2:{ by rewrite HOut. }
  2:{ apply Hexec. by left. }
  2:{ exact Hfmt_main. }
  cbn [fst snd].
  set (g1 := set_genfiles _ (configured g)).
  set (w1 := with_file _ _ _).
  assert (Hfn : filename_of g1 = filename_of g).
  { unfold g1. rewrite filename_of_set_genfiles. apply filename_of_configured. }
  assert (Hw1 : ∀ p, p ≠ mainFile_of g → fs w1 !! p = fs w !! p).
  { intros p Hp. unfold w1, with_file. cbn [fs set_fs]. rewrite lookup_insert_ne by done.
    rewrite (proj1 (mainT_run (configured g) (prepared g w).2)). by apply Hpfs. }
  destruct (Iterate_per_resource_content None (resource_imports imp) fmt
              (API_Resources (API g)) g1 w1) as (w' & Hrun & Hcontent & Hframe).
  { destruct Hmiss as [?|Hmiss];
      [left; change (Force (configured g) = true); by rewrite HF|right].
    intros r Hr. rewrite Hfn.
    assert (Hin : filename_of g r ∈ filename_of g <$> API_Resources (API g))
      by (apply list_elem_of_fmap; by exists r).
    rewrite Hw1 by (intros Heq; apply Hmain_fresh; by rewrite <- Heq).
    apply Hmiss. by right. }
  { by rewrite Hfn. }
  { intros r Hr. rewrite Hfn. apply Hopen. right. apply list_elem_of_fmap. by exists r. }
  { intros name r text Hr. rewrite Hfn. apply Hexec. right.
    apply list_elem_of_fmap. by exists r. }
  { intros r Hr. exact (Hfmt r Hr). }
  rewrite Hrun. cbn [fst snd]. split_and!.
  - f_equal. cbn [genfiles set_genfiles g1]. rewrite Hgf, Hfn, <- app_assoc. done.
  - rewrite Hframe by (by rewrite Hfn). unfold w1, with_file. cbn [fs set_fs].
    by rewrite lookup_insert_eq.
  - intros r Hr. rewrite <- Hfn. exact (Hcontent r Hr).
Qed.

(** The closure with force, where nothing fails: the file of each
    resource in turn is replaced by its formatted stub. *)
Lemma Iterate_per_resource_forced (err : option error) (imports : list string) (fmt : string → string) (rs : list ResourceDefinition) (g : Generator) (w : World) :
  Force g = true →
  (∀ r, r ∈ rs → SourceFileFor_fault (filename_of g r) = None) →
  (∀ name r text, r ∈ rs → ExecuteTemplate_fault name (filename_of g r) text = None) →
  (∀ r, r ∈ rs →
        gofmt (stub_text Design g imports r) = Ok (fmt (stub_text Design g imports r))) →
  Iterate (per_resource Design err imports) rs (g, w) =
    (None, (set_genfiles (genfiles g ++ (filename_of g <$> rs)) g,
            foldl (λ w r, with_file (filename_of g r)
                            (fmt (stub_text Design g imports r)) w) w rs)).
Proof.
  revert g w. induction rs as [|r rs IH]; intros g w HF Hopen Hexec Hfmt.
  - cbn [Iterate fmap list_fmap foldl]. by rewrite set_genfiles_id.
  - rewrite Iterate_cons.
    rewrite (per_resource_content err imports r g w (fmt (stub_text Design g imports r))).
    2:{ by left. }
    2:{ apply Hopen. by left. }
    2:{ apply Hexec. by left. }
    2:{ intros a _. apply Hexec. by left. }
    2:{ apply Hfmt. by left. }
    cbn [fst snd foldl].
    rewrite (IH (set_genfiles (genfiles g ++ [filename_of g r]) g)).
    + do 2 f_equal. unfold set_genfiles. cbn. by rewrite <- app_assoc.
    + exact HF.
    + intros r' Hr'. apply Hopen. by right.
    + intros name r' text Hr'. apply (Hexec name r' text). by right.
    + intros r' Hr'. apply Hfmt. by right.
Qed.

(** The files after a sequence of files has been replaced. *)
Lemma replaced_lookup_notin {A : Type} (k v : A → string) (l : list A) (w : World) (p : string) :
  p ∉ k <$> l → fs (foldl (λ w x, with_file (k x) (v x) w) w l) !! p = fs w !! p.
Proof.
  revert w. induction l as [|x l IH]; intros w Hp; [done|].
  rewrite fmap_cons in Hp. apply not_elem_of_cons in Hp as [Hne Hp].
  cbn [foldl]. rewrite IH by done. unfold with_file. cbn [fs set_fs].
  by rewrite lookup_insert_ne.
Qed.

Lemma replaced_lookup_in {A : Type} (k v : A → string) (l : list A) (w : World) (p : string) :
  p ∈ k <$> l →
  ∃ x, x ∈ l ∧ k x = p ∧
       fs (foldl (λ w x, with_file (k x) (v x) w) w l) !! p = Some (v x).
Proof.
  revert w. induction l as [|x l IH]; intros w Hp; [by apply elem_of_nil in Hp|].
  cbn [foldl]. destruct (decide (p ∈ k <$> l)) as [Hin|Hnin].
  - destruct (IH (with_file (k x) (v x) w) Hin) as (y & Hy & Hk & Hfs).
    exists y. split_and!; [by right|done..].
  - rewrite fmap_cons in Hp. apply elem_of_cons in Hp as [->|?]; [|done].
    exists x. split_and!; [by left|done|].
    rewrite replaced_lookup_notin by done. unfold with_file. cbn [fs set_fs].
    by rewrite lookup_insert_eq.
Qed.

Lemma replaced_lookup_indep {A : Type} (k v : A → string) (l : list A) (w w' : World) (p : string) :
  p ∈ k <$> l ∨ fs w !! p = fs w' !! p →
  fs (foldl (λ w x, with_file (k x) (v x) w) w l) !! p =
    fs (foldl (λ w x, with_file (k x) (v x) w) w' l) !! p.
Proof.
  revert w w'. induction l as [|x l IH]; intros w w' Hp.
  - destruct Hp as [Hp|Hp]; [by apply elem_of_nil in Hp|done].
  - cbn [foldl]. apply IH. destruct (decide (p ∈ k <$> l)) as [Hin|Hnin]; [by left|].
    right. unfold with_file. cbn [fs set_fs].
    destruct (decide (p = k x)) as [->|Hne].
    + by rewrite !lookup_insert_eq.
    + rewrite !lookup_insert_ne by done.
      destruct Hp as [Hp|Hp]; [|done].
      rewrite fmap_cons in Hp. by apply elem_of_cons in Hp as [?|?].
Qed.

(** A run with force where nothing fails: it returns the log followed by
    the targets, and leaves the files with the main file replaced by its
    formatted text and then the file of each resource, in turn, by its
    formatted stub. *)
Lemma Generate_forced_run (g : Generator) (w : World) (imp : string) (fmt : string → string) :
  Force g = true →
  PackagePath (OutDir g) = Ok imp →
  (∀ p, p ∈ targets g → SourceFileFor_fault p = None) →
  (∀ name p text, p ∈ targets g → ExecuteTemplate_fault name p text = None) →
  gofmt (main_text (configured g) imp (mainT (configured g) w).1) =
    Ok (fmt (main_text (configured g) imp (mainT (configured g) w).1)) →
  (∀ r, r ∈ API_Resources (API g) →
        gofmt (stub_text Design (configured g) (resource_imports imp) r) =
          Ok (fmt (stub_text Design (configured g) (resource_imports imp) r))) →
  (Generate Design (g, w)).1 = Ok (genfiles g ++ targets g) ∧
  ∃ w0, fs w0 = fs w ∧
    (Generate Design (g, w)).2.2 =
      foldl (λ w r, with_file (filename_of g r)
                      (fmt (stub_text Design (configured g) (resource_imports imp) r)) w)
        (with_file (mainFile_of g)
           (fmt (main_text (configured g) imp (mainT (configured g) w).1)) w0)
        (API_Resources (API g)).
Proof.
  intros HFg Hpkg Hopen Hexec Hfmt_main Hfmt.
  destruct (configured_config g) as (HAPI & HOut & HF & Hgf).
  set (wR := {| fs := fs w; tempCount := tempCount w;
                Reserved := <[Target (configured g) := true]> (Reserved w) |}).
  assert (Hprep : fs (prepared g w).2 !! mainFile_of g = None ∧
                  tempCount (prepared g w).2 = tempCount w ∧
                  ∀ c, with_file (mainFile_of g) c (mainT (configured g) (prepared g w).2).2 =
                       with_file (mainFile_of g) c (mainT (configured g) wR).2).
  { unfold prepared. cbn [snd]. rewrite HFg. fold wR.
    split_and!; [apply lookup_delete_eq|done|]. intros c.
    unfold os_Remove. rewrite mainT_set_fs. cbn [snd].
    apply (with_file_Remove (mainFile_of g) c (mainT (configured g) wR).2). }
  destruct Hprep as (Hp0 & Hpt & Hw0).
  rewrite Generate_run, Generate_body_run, Hpkg.
  rewrite (proj2 (os_Stat_false _ _) Hp0). cbn zeta.
  assert (Hcreate := createMainFile_content (mainFile_of g) (prepared g w).1 (prepared g w).2 imp
            (fmt (main_text (configured g) imp (mainT (configured g) w).1))).
  rewrite <- surjective_pairing in Hcreate.
  change (prepared g w).1 with (configured g) in Hcreate.
  rewrite (mainT_text_reads (configured g) (prepared g w).2 w Hpt) in Hcreate.
  rewrite Hcreate; clear Hcreate.
  2:{ exact Hp0. }
  2:{ apply Hopen. by left. }
  2:{ by rewrite HOut. }
  2:{ apply Hexec. by left. }
  2:{ exact Hfmt_main. }
  cbn [fst snd]. rewrite Hw0.
  set (g1 := set_genfiles _ (configured g)).
  assert (Hfn : filename_of g1 = filename_of g).
  { unfold g1. rewrite filename_of_set_genfiles. apply filename_of_configured. }
  rewrite (Iterate_per_resource_forced None (resource_imports imp) fmt).
  - cbn [fst snd]. split.
    + f_equal. cbn [genfiles set_genfiles g1]. rewrite Hgf, Hfn, <- app_assoc. done.
    + exists (mainT (configured g) wR).2. split; [|by rewrite Hfn].
      by rewrite (proj1 (mainT_run (configured g) wR)).
  - change (Force (configured g) = true). by rewrite HF.
  - intros r Hr. rewrite Hfn. apply Hopen. right. apply list_elem_of_fmap. by exists r.
  - intros name r text Hr. rewrite Hfn. apply Hexec. right.
    apply list_elem_of_fmap. by exists r.
  - intros r Hr. exact (Hfmt r Hr).
Qed.

(** C6, as the code has it: with force the existence check of a target
    finds no file, whatever was there; and a run in which nothing fails
    (the package path resolves, the handles are built, the templates are
    executed and the texts formatted) records every target and leaves at
    each the text generated for it, formatted: at the file of a resource
    its stub, at the main file the main text unless the file of a resource
    has its path. What the run returns and leaves at the targets is the
    same for any other files it may start from. *)
Theorem Generate_force (g : Generator) (w w' : World) (imp : string) (fmt : string → string) :
  Force g = true →
  PackagePath (OutDir g) = Ok imp →
  (∀ p, p ∈ targets g → SourceFileFor_fault p = None) →
  (∀ name p text, p ∈ targets g → ExecuteTemplate_fault name p text = None) →
  gofmt (main_text (configured g) imp (mainT (configured g) w).1) =
    Ok (fmt (main_text (configured g) imp (mainT (configured g) w).1)) →
  (∀ r, r ∈ API_Resources (API g) →
        gofmt (stub_text Design (configured g) (resource_imports imp) r) =
          Ok (fmt (stub_text Design (configured g) (resource_imports imp) r))) →
  tempCount w' = tempCount w →
  (∀ p s, os_Stat p (remove_if_forced p (g, s)).2.2 = false) ∧
  (Generate Design (g, w)).1 = Ok (genfiles g ++ targets g) ∧
  (∀ p, p ∈ targets g →
     (∃ r, r ∈ API_Resources (API g) ∧ filename_of g r = p ∧
           fs (Generate Design (g, w)).2.2 !! p =
             Some (fmt (stub_text Design (configured g) (resource_imports imp) r))) ∨
     (p = mainFile_of g ∧
      fs (Generate Design (g, w)).2.2 !! p =
        Some (fmt (main_text (configured g) imp (mainT (configured g) w).1)))) ∧
  (Generate Design (g, w')).1 = (Generate Design (g, w)).1 ∧
  (∀ p, p ∈ targets g →
        fs (Generate Design (g, w')).2.2 !! p = fs (Generate Design (g, w)).2.2 !! p).
Proof.
  intros HF Hpkg Hopen Hexec Hfmt_main Hfmt Ht.
  assert (Htext : (mainT (configured g) w').1 = (mainT (configured g) w).1)
    by (by apply mainT_text_reads).
  destruct (Generate_forced_run g w imp fmt HF Hpkg Hopen Hexec Hfmt_main Hfmt)
    as (Hok & w0 & Hw0 & Hfs).
  destruct (Generate_forced_run g w' imp fmt HF Hpkg Hopen Hexec) as (Hok' & w0' & Hw0' & Hfs').
  { by rewrite Htext. }
  { exact Hfmt. }
  rewrite Htext in Hfs'. rewrite Hfs, Hfs'. split_and!.
  - intros p s. rewrite remove_if_forced_run, HF. apply os_Stat_Remove.
  - exact Hok.
  - intros p Hp.
    destruct (decide (p ∈ filename_of g <$> API_Resources (API g))) as [Hin|Hnin].
    + left. exact (replaced_lookup_in (filename_of g) _ _ _ p Hin).
    + right. unfold targets in Hp. apply elem_of_cons in Hp as [->|?]; [|done].
      split; [done|]. rewrite replaced_lookup_notin by done.
      unfold with_file. cbn [fs set_fs]. by rewrite lookup_insert_eq.
  - by rewrite Hok, Hok'.
  - intros p Hp. apply replaced_lookup_indep.
    destruct (decide (p ∈ filename_of g <$> API_Resources (API g))) as [Hin|Hnin];
      [by left|right].
    unfold targets in Hp. apply elem_of_cons in Hp as [->|?]; [|done].
    unfold with_file. cbn [fs set_fs]. by rewrite !lookup_insert_eq.
Qed.

End file_content.

(** ** The counter and the reserved names *)

Section process_state.
Context {C : Collaborators}.
Variable Design : APIDefinition.

Lemma files_only_ret {R : Type} (x : R) : files_only (ret (S := State) x).
Proof. done. Qed.

Lemma files_only_bind {R R' : Type} (m : M State R) (k : R → M State R') :
  files_only m → (∀ x, files_only (k x)) → files_only (bind m k).
Proof.
  intros Hm Hk s. rewrite bind_run.
  destruct (Hk (m s).1 (m s).2) as [-> ->]. apply Hm.
Qed.

Lemma files_only_get_gen : files_only get_gen.
Proof. done. Qed.

Lemma files_only_modify_gen (f : Generator → Generator) : files_only (modify_gen f).
Proof. done. Qed.

Lemma files_only_read_world {R : Type} (f : World → R) : files_only (read_world f).
Proof. done. Qed.

Lemma files_only_on_world {R : Type} (f : World → R * World) :
  files_only_world f → files_only (on_world f).
Proof. intros Hf [g w]. rewrite on_world_run. apply Hf. Qed.

Lemma files_only_update_world (h : gmap string string → gmap string string) :
  files_only (update_world (set_fs h)).
Proof. done. Qed.

Lemma files_only_Iterate {A : Type} (it : A → M State (option error)) (l : list A) :
  (∀ x, files_only (it x)) → files_only (Iterate it l).
Proof.
  intros Hit. induction l as [|x l IH]; cbn [Iterate]; [done|].
  apply files_only_bind; [done|]. by intros [e|].
Qed.

Lemma files_only_SourceFileFor (p : string) : files_only_world (SourceFileFor p).
Proof. intros w. unfold SourceFileFor. by destruct (SourceFileFor_fault p). Qed.

Lemma files_only_ExecuteTemplate (p name text : string) :
  files_only_world (ExecuteTemplate p name text).
Proof. intros w. unfold ExecuteTemplate. by destruct (ExecuteTemplate_fault _ _ _). Qed.

Lemma files_only_FormatCode (p : string) : files_only_world (FormatCode p).
Proof. intros w. unfold FormatCode. by destruct (gofmt _). Qed.

Ltac files_only_step :=
  first
    [ apply files_only_ret
    | apply files_only_get_gen
    | apply files_only_modify_gen
    | apply files_only_read_world
    | apply files_only_on_world;
        first [ apply files_only_SourceFileFor
              | apply files_only_ExecuteTemplate
              | apply files_only_FormatCode ]
    | apply files_only_update_world
    | apply files_only_Iterate; intros ?
    | apply files_only_bind; [|intros ?]
    | match goal with
      | |- files_only (match ?x with _ => _ end) => destruct x
      end ].

(** The closure works on files only. *)
Lemma files_only_per_resource (err : option error) (imports : list string) (r : ResourceDefinition) :
  files_only (per_resource Design err imports r).
Proof.
  unfold per_resource, remove_if_forced, resource_stub, record_file, write_stub,
    per_action, WriteHeader, file_Write, os_Remove.
  repeat files_only_step.
Qed.

Lemma files_only_Cleanup : files_only Cleanup.
Proof.
  intros [g w]. rewrite Cleanup_run. cbn [fst snd].
  generalize (genfiles g). intros l. revert w.
  induction l as [|f l IH]; intros w; [done|]. cbn [foldl].
  destruct (IH (os_Remove f w)) as [-> ->]. done.
Qed.

(** The range of [mainT] calls [tempvar] once for each resource. *)
Lemma mainT_mount_tempvar (g : Generator) (res : ResourceDefinition) (w : World) :
  mainT_mount g res w = (mount_text g res (tempvar w).1, (tempvar w).2).
Proof. done. Qed.

Lemma tempvars_S_state (n : nat) (w : World) :
  (tempvars (S n) w).2 = (tempvars n (tempvar w).2).2.
Proof. simpl. by destruct (tempvars n _). Qed.

Lemma mainT_range_state (g : Generator) (rs : list ResourceDefinition) (w : World) :
  (mainT_range g rs w).2 = (tempvars (length rs) w).2.
Proof.
  revert w. induction rs as [|res rs IH]; intros w; [done|].
  rewrite mainT_range_cons, mainT_mount_tempvar. cbn [fst snd length].
  by rewrite IH, tempvars_S_state.
Qed.

Lemma mainT_state (g : Generator) (w : World) :
  (mainT g w).2 = (tempvars (length (API_Resources (API g))) w).2.
Proof.
  destruct (mainT_run g w) as (_ & -> & _). apply mainT_range_state.
Qed.

(** The text of the range of [mainT]: one mount for each resource, in the
    order of the resources, the [i]-th with the name the [i]-th call of
    [tempvar] returns; the counter is left where as many calls of
    [tempvar] as there are resources leave it. *)
Theorem mainT_range_names (g : Generator) (rs : list ResourceDefinition) (w : World) :
  (mainT_range g rs w).1 =
    foldr (λ x rest, x +:+ rest) EmptyString
      (zip_with (mount_text g) rs (tempvars (length rs) w).1) ∧
  (mainT_range g rs w).2 = (tempvars (length rs) w).2 ∧
  (mainT g w).2 = (tempvars (length (API_Resources (API g))) w).2.
Proof.
  split_and!; [|apply mainT_range_state|apply mainT_state].
  revert w. induction rs as [|res rs IH]; intros w; [done|].
  rewrite mainT_range_cons, mainT_mount_tempvar. cbn [fst snd length].
  rewrite tempvars_S. cbn [zip_with foldr]. by rewrite IH.
Qed.

Lemma tempvars_Reserved (n : nat) (w : World) : Reserved (tempvars n w).2 = Reserved w.
Proof.
  revert w. induction n as [|n IH]; intros w; [done|].
  by rewrite tempvars_S_state, IH.
Qed.

Lemma tempvars_count (n : nat) (w w' : World) :
  tempCount w = tempCount w' → tempCount (tempvars n w).2 = tempCount (tempvars n w').2.
Proof.
  revert w w'. induction n as [|n IH]; intros w w' Ht; [done|].
  rewrite !tempvars_S_state. apply IH. unfold tempvar. cbn [snd tempCount]. by rewrite Ht.
Qed.

Lemma write_main_process (p : string) (g : Generator) (w : World) :
  tempCount (write_main p (g, w)).2.2 =
    match PackagePath (OutDir g), ExecuteTemplate_fault "main" p (mainT g w).1 with
    | Ok _, None => tempCount (tempvars (length (API_Resources (API g))) w).2
    | _, _ => tempCount w
    end ∧
  Reserved (write_main p (g, w)).2.2 = Reserved w.
Proof.
  unfold write_main. rewrite bind_run. unfold get_gen. cbn [fst snd].
  destruct (PackagePath (OutDir g)) as [outPkg|e]; [|done].
  rewrite bind_run, update_world_run. cbn [fst snd].
  rewrite bind_run, update_world_run. cbn [fst snd].
  set (w1 := WriteHeader _ _ _ _ _).
  assert (Hw1 : tempCount w1 = tempCount w ∧ Reserved w1 = Reserved w) by done.
  rewrite bind_run, on_world_run, ExecuteTemplate_main_run.
  rewrite (mainT_text_reads g w1 w (proj1 Hw1)).
  destruct (ExecuteTemplate_fault "main" p (mainT g w).1) as [e|]; cbn [fst snd].
  - exact Hw1.
  - destruct (files_only_on_world _ (files_only_FormatCode p)
                (g, file_Write p (mainT g w).1 (mainT g w1).2)) as [-> ->].
    cbn [fst snd]. change (tempCount (file_Write ?q ?t ?x)) with (tempCount x).
    change (Reserved (file_Write ?q ?t ?x)) with (Reserved x).
    rewrite mainT_state, tempvars_Reserved. split; [|apply Hw1].
    by apply tempvars_count.
Qed.

Lemma createMainFile_process (p : string) (g : Generator) (w : World) :
  tempCount (createMainFile p (g, w)).2.2 =
    match SourceFileFor_fault p, PackagePath (OutDir g),
          ExecuteTemplate_fault "main" p (mainT g w).1 with
    | None, Ok _, None => tempCount (tempvars (length (API_Resources (API g))) w).2
    | _, _, _ => tempCount w
    end ∧
  Reserved (createMainFile p (g, w)).2.2 = Reserved w.
Proof.
  rewrite createMainFile_run. unfold SourceFileFor.
  destruct (SourceFileFor_fault p) as [e|]; [done|]. cbn [fst snd].
  destruct (write_main_process p (set_genfiles (genfiles g ++ [p]) g) w) as [-> ->].
  by rewrite mainT_set_genfiles.
Qed.

Lemma prepared_process (g : Generator) (w : World) :
  tempCount (prepared g w).2 = tempCount w ∧
  Reserved (prepared g w).2 = <[Target (configured g) := true]> (Reserved w) ∧
  os_Stat (mainFile_of g) (prepared g w).2 =
    (if Force g then false else os_Stat (mainFile_of g) w).
Proof.
  unfold prepared. cbn [snd]. destruct (Force g); [|done].
  split_and!; [done..|]. apply os_Stat_Remove.
Qed.

Lemma Generate_body_process (g : Generator) (w : World) :
  tempCount (Generate_body Design (g, w)).2.2 =
    (if renders_main g w
     then tempCount (tempvars (length (API_Resources (API g))) w).2
     else tempCount w) ∧
  Reserved (Generate_body Design (g, w)).2.2 =
    <[Target (configured g) := true]> (Reserved w).
Proof.
  destruct (configured_config g) as (HAPI & HOut & _).
  destruct (prepared_process g w) as (Ht & HR & Hstat).
  rewrite Generate_body_run. unfold renders_main.
  destruct (PackagePath (OutDir g)) as [imp|e] eqn:Hpkg; [|done].
  set (main := if os_Stat (mainFile_of g) (prepared g w).2 then (None, prepared g w)
               else createMainFile (mainFile_of g) (prepared g w)).
  set (count :=
         if match SourceFileFor_fault (mainFile_of g),
                  ExecuteTemplate_fault "main" (mainFile_of g)
                    (mainT (configured g) w).1 with
            | None, None => Force g || negb (os_Stat (mainFile_of g) w)
            | _, _ => false
            end
         then tempCount (tempvars (length (API_Resources (API g))) w).2
         else tempCount w).
  assert (Hmain : tempCount main.2.2 = count ∧
                  Reserved main.2.2 = <[Target (configured g) := true]> (Reserved w)).
  { destruct (createMainFile_process (mainFile_of g) (prepared g w).1 (prepared g w).2)
      as [Hc HcR].
    rewrite <- surjective_pairing in Hc, HcR.
    change (prepared g w).1 with (configured g) in Hc. rewrite HOut, HAPI, Hpkg in Hc.
    rewrite (tempvars_count _ _ w Ht), Ht in Hc.
    rewrite (mainT_text_reads (configured g) _ w Ht) in Hc.
    unfold main, count. rewrite Hstat.
    destruct (Force g); cbn [orb].
    - rewrite Hc, HcR. split; [|done].
      destruct (SourceFileFor_fault _); [done|].
      by destruct (ExecuteTemplate_fault _ _ _).
    - destruct (os_Stat (mainFile_of g) w); cbn [negb fst snd].
      + split; [|done]. destruct (SourceFileFor_fault _); [done|].
        by destruct (ExecuteTemplate_fault _ _ _).
      + rewrite Hc, HcR. split; [|done].
        destruct (SourceFileFor_fault _); [done|].
        by destruct (ExecuteTemplate_fault _ _ _). }
  cbn zeta. destruct main.1 as [e|]; [cbn [fst snd]; exact Hmain|].
  set (stubs := Iterate _ _ main.2).
  assert (Hstubs : tempCount stubs.2.2 = tempCount main.2.2 ∧
                   Reserved stubs.2.2 = Reserved main.2.2).
  { apply files_only_Iterate. intros r. apply files_only_per_resource. }
  assert (Hend : tempCount stubs.2.2 = count ∧
                 Reserved stubs.2.2 = <[Target (configured g) := true]> (Reserved w)).
  { destruct Hstubs as [-> ->]. exact Hmain. }
  by destruct stubs.1.
Qed.

(** Whatever it returns, [Generate] leaves the target package set ("app"
    when it was empty) and reserved in [codegen.Reserved], every other
    entry of which it leaves as it was; a run that fails does not take the
    reservation back. *)
Theorem Generate_reserves_target (g : Generator) (w : World) :
  Target (Generate Design (g, w)).2.1 =
    (if bool_decide (Target g = EmptyString) then "app" else Target g) ∧
  Reserved (Generate Design (g, w)).2.2 =
    <[(if bool_decide (Target g = EmptyString) then "app" else Target g) := true]>
      (Reserved w).
Proof.
  assert (HT : Target (configured g) =
               (if bool_decide (Target g = EmptyString) then "app" else Target g)).
  { unfold configured. by case_bool_decide. }
  destruct (Generate_body_process g w) as [_ HR].
  destruct (Generate_body_frame Design g w) as (_ & extra & Hg & _).
  rewrite <- HT, Generate_run.
  destruct (Generate_body Design (g, w)) as [[files|e] [g' w']]; cbn [fst snd] in *.
  - by rewrite Hg.
  - destruct (files_only_Cleanup (g', w')) as [_ HRc]. cbn [fst snd] in HRc.
    rewrite HRc, HR. split; [|done]. rewrite Cleanup_run. cbn [fst snd]. by rewrite Hg.
Qed.

(** [Generate] calls [tempvar] only as it executes the main template,
    once for each resource. Where executing the main template does not
    fail, the counter moves when the package path of the output directory
    resolves, the main file is missing or removed by force, and its handle
    is built; otherwise it is left as it was. A run that fails later does
    not set it back. *)
Theorem Generate_counter (g : Generator) (w : World) :
  ExecuteTemplate_fault "main" (mainFile_of g) (mainT (configured g) w).1 = None →
  tempCount (Generate Design (g, w)).2.2 =
    match PackagePath (OutDir g), SourceFileFor_fault (mainFile_of g) with
    | Ok _, None =>
        if Force g || negb (os_Stat (mainFile_of g) w)
        then tempCount (tempvars (length (API_Resources (API g))) w).2
        else tempCount w
    | _, _ => tempCount w
    end.
Proof.
  intros Hexec. destruct (Generate_body_process g w) as [Ht _].
  unfold renders_main in Ht. rewrite Hexec in Ht.
  assert (Hbody : tempCount (Generate_body Design (g, w)).2.2 =
            match PackagePath (OutDir g), SourceFileFor_fault (mainFile_of g) with
            | Ok _, None =>
                if Force g || negb (os_Stat (mainFile_of g) w)
                then tempCount (tempvars (length (API_Resources (API g))) w).2
                else tempCount w
            | _, _ => tempCount w
            end).
  { rewrite Ht. destruct (PackagePath (OutDir g)); [|done].
    by destruct (SourceFileFor_fault (mainFile_of g)). }
  rewrite Generate_run.
  destruct (Generate_body Design (g, w)) as [[files|e] [g' w']]; cbn [fst snd] in *.
  - exact Hbody.
  - destruct (files_only_Cleanup (g', w')) as [Htc _]. cbn [fst snd] in Htc.
    by rewrite Htc.
Qed.

End process_state.

(** ** What a failed run leaves *)

Section failed_run.
Context {C : Collaborators}.
Variable Design : APIDefinition.

Lemma logs_changes_createMainFile (f : string) : logs_changes (createMainFile f).
Proof.
  intros [g w] p. rewrite createMainFile_genfiles. cbn [fst snd genfiles set_genfiles].
  split; [intros Hp; apply elem_of_app; by left|].
  destruct (decide (p = f)) as [->|Hne].
  - right. apply elem_of_app. right. by apply list_elem_of_singleton.
  - left. exact (local_frame _ _ (local_createMainFile f) (g, w) p Hne).
Qed.

Lemma logs_changes_per_resource (err : option error) (imports : list string) (r : ResourceDefinition) :
  logs_changes (per_resource Design err imports r).
Proof.
  intros [g w] p. cbn [fst snd].
  destruct (per_resource_log Design err imports r g w) as (extra & Hg & _).
  split; [intros Hp; rewrite Hg; apply elem_of_app; by left|].
  destruct (decide (p = filename_of g r)) as [->|Hne];
    [|left; exact (per_resource_frame Design err imports r (g, w) p Hne)].
  rewrite per_resource_run. destruct (Force g) eqn:HF.
  - rewrite os_Stat_Remove, resource_stub_genfiles. right.
    apply elem_of_app. right. by apply list_elem_of_singleton.
  - destruct (os_Stat _ _); [by left|]. rewrite resource_stub_genfiles. right.
    apply elem_of_app. right. by apply list_elem_of_singleton.
Qed.

Lemma logs_changes_Iterate {A : Type} (it : A → M State (option error)) (l : list A) :
  (∀ x, logs_changes (it x)) → logs_changes (Iterate it l).
Proof.
  intros Hit. induction l as [|x l IH]; intros s p; [split; [done|by left]|].
  rewrite Iterate_cons. destruct (Hit x s p) as [Hlog Hfs].
  destruct (it x s).1 as [e|]; cbn [fst snd]; [done|].
  destruct (IH (it x s).2 p) as [Hlog' Hfs']. split; [auto|].
  destruct Hfs' as [->|?]; [|by right]. destruct Hfs as [->|?]; [by left|auto].
Qed.

(** The body of a run from the prepared state on: every path holds what
    it held there, or is recorded. *)
Lemma Generate_body_logs_changes (g : Generator) (w : World) (p : string) :
  fs (Generate_body Design (g, w)).2.2 !! p = fs (prepared g w).2 !! p ∨
  p ∈ genfiles (Generate_body Design (g, w)).2.1.
Proof.
  rewrite Generate_body_run. destruct (PackagePath _) as [imp|e]; [|by left].
  set (main := if os_Stat (mainFile_of g) (prepared g w).2 then (None, prepared g w)
               else createMainFile (mainFile_of g) (prepared g w)).
  assert (Hmain : (p ∈ genfiles (prepared g w).1 → p ∈ genfiles main.2.1) ∧
                  (fs main.2.2 !! p = fs (prepared g w).2 !! p ∨ p ∈ genfiles main.2.1)).
  { unfold main. destruct (os_Stat _ _); [split; [done|by left]|].
    apply logs_changes_createMainFile. }
  cbn zeta. destruct main.1 as [e|]; [apply Hmain|].
  set (stubs := Iterate _ _ main.2).
  assert (Hstubs : (p ∈ genfiles main.2.1 → p ∈ genfiles stubs.2.1) ∧
                   (fs stubs.2.2 !! p = fs main.2.2 !! p ∨ p ∈ genfiles stubs.2.1)).
  { apply logs_changes_Iterate. intros r. apply logs_changes_per_resource. }
  assert (Hend : fs stubs.2.2 !! p = fs (prepared g w).2 !! p ∨ p ∈ genfiles stubs.2.1).
  { destruct Hstubs as [Hlog [->|?]]; [|by right].
    destruct Hmain as [_ [->|?]]; [by left|auto]. }
  by destruct stubs.1.
Qed.

(** A run that returns an error leaves no file that it wrote: every path
    is without a file or holds what it held before the run. *)
Theorem Generate_failure_no_partial (g : Generator) (w : World) (e : error) (p : string) :
  (Generate Design (g, w)).1 = Err e →
  fs (Generate Design (g, w)).2.2 !! p = None ∨
  fs (Generate Design (g, w)).2.2 !! p = fs w !! p.
Proof.
  pose proof (Generate_body_logs_changes g w p) as Hbody. rewrite Generate_run.
  destruct (Generate_body Design (g, w)) as [[files|e'] [g' w']];
    cbn [fst snd] in *; [done|]. intros _.
  rewrite Cleanup_run. cbn [fst snd]. rewrite remove_all_lookup.
  case_decide as Hin; [by left|]. destruct Hbody as [->|?]; [|done].
  unfold prepared. cbn [snd]. destruct (Force g); [|by right]. cbn [fs os_Remove set_fs].
  destruct (decide (p = mainFile_of g)) as [->|Hne].
  - left. apply lookup_delete_eq.
  - right. by apply lookup_delete_ne.
Qed.

(** With force, a run that returns an error leaves no main file, also
    where there was one before: the file is removed before anything can
    fail, and the rollback removes what was written in its place. *)
Theorem Generate_forced_failure_loses_main (g : Generator) (w : World) (e : error) :
  Force g = true →
  (Generate Design (g, w)).1 = Err e →
  fs (Generate Design (g, w)).2.2 !! mainFile_of g = None.
Proof.
  intros HF. pose proof (Generate_body_logs_changes g w (mainFile_of g)) as Hbody.
  rewrite Generate_run.
  destruct (Generate_body Design (g, w)) as [[files|e'] [g' w']];
    cbn [fst snd] in *; [done|]. intros _.
  rewrite Cleanup_run. cbn [fst snd]. rewrite remove_all_lookup.
  case_decide as Hin; [done|]. destruct Hbody as [->|?]; [|done].
  unfold prepared. cbn [snd]. rewrite HF. apply lookup_delete_eq.
Qed.

Lemma write_stub_error (imports : list string) (r : ResourceDefinition) (f : string) (s : State) (e : error) :
  (write_stub Design None imports r f s).1 = Some e → ∃ c, gofmt c = Err e.
Proof.
  unfold write_stub. rewrite !bind_run.
  destruct (on_world (ExecuteTemplate f "controller" (ctrlT r)) _) as [[e1|] s1];
    cbn [fst snd]; [done|].
  rewrite bind_run.
  destruct (Iterate (per_action Design f) (Resource_Actions r) s1) as [[e2|] [g2 w2]];
    cbn [fst snd]; [done|].
  rewrite bind_run, on_world_run. cbn [fst snd]. unfold FormatCode.
  destruct (gofmt _) as [formatted|e3] eqn:Hfmt; cbn [fst snd]; [done|].
  intros [= <-]. eauto.
Qed.

Lemma per_resource_error (imports : list string) (r : ResourceDefinition) (s : State) (e : error) :
  (per_resource Design None imports r s).1 = Some e → ∃ c, gofmt c = Err e.
Proof.
  destruct s as [g w]. rewrite per_resource_run.
  destruct (os_Stat _ _); [done|]. rewrite resource_stub_run.
  destruct (SourceFileFor _ _).1; [done|]. apply write_stub_error.
Qed.

Lemma Iterate_per_resource_error (imports : list string) (rs : list ResourceDefinition) (s : State) (e : error) :
  (Iterate (per_resource Design None imports) rs s).1 = Some e → ∃ c, gofmt c = Err e.
Proof.
  revert s. induction rs as [|r rs IH]; intros s; [done|].
  rewrite Iterate_cons.
  destruct (per_resource Design None imports r s).1 as [e1|] eqn:Hr; cbn [fst snd].
  - intros [= <-]. by apply (per_resource_error imports r s).
  - apply IH.
Qed.

(** The errors [Generate] returns: the error of [PackagePath], an error of
    [createMainFile] on a main file that is missing or removed by force,
    and an error of formatting the file of a resource. A failure to open
    the file of a resource or to render one of its templates is never
    returned. *)
Theorem Generate_error_origin (g : Generator) (w : World) (e : error) :
  (Generate Design (g, w)).1 = Err e →
  PackagePath (OutDir g) = Err e ∨
  (os_Stat (mainFile_of g) (prepared g w).2 = false ∧
   (createMainFile (mainFile_of g) (prepared g w)).1 = Some e) ∨
  ∃ c, gofmt c = Err e.
Proof.
  rewrite Generate_run.
  assert (Hbody : (Generate_body Design (g, w)).1 = Err e →
                  PackagePath (OutDir g) = Err e ∨
                  (os_Stat (mainFile_of g) (prepared g w).2 = false ∧
                   (createMainFile (mainFile_of g) (prepared g w)).1 = Some e) ∨
                  ∃ c, gofmt c = Err e).
  { rewrite Generate_body_run.
    destruct (PackagePath (OutDir g)) as [imp|e0]; [|intros [= <-]; by left].
    cbn zeta. destruct (os_Stat (mainFile_of g) (prepared g w).2); cbn [fst snd].
    - destruct (Iterate _ _ _).1 as [e1|] eqn:Hit; cbn [fst snd]; [|done].
      intros [= <-]. right. right. by apply Iterate_per_resource_error in Hit.
    - destruct (createMainFile _ _).1 as [e1|] eqn:Hmain; cbn [fst snd].
      + intros [= <-]. right. by left.
      + destruct (Iterate _ _ _).1 as [e1|] eqn:Hit; cbn [fst snd]; [|done].
        intros [= <-]. right. right. by apply Iterate_per_resource_error in Hit. }
  destruct (Generate_body Design (g, w)).1 as [files|e'] eqn:Hres; [done|].
  cbn [fst]. intros [= <-]. by apply Hbody.
Qed.

End failed_run.

(** ** More of the success-response resolver *)

Section okResp_more.
Context {C : Collaborators}.
Variable Design : APIDefinition.

(** The loop of [okResp] stops at the first response with status 200 it
    visits: the responses before it, of other statuses, and all the
    responses after it, of whatever status, do not count. *)
Theorem okResp_first_match (g : Generator) (before after : list ResponseDefinition) (resp : ResponseDefinition) :
  (∀ r, r ∈ before → Resp_Status r ≠ 200) →
  Resp_Status resp = 200 →
  okResp_visiting Design g (before ++ resp :: after) = okResp_of Design g (Some resp).
Proof.
  intros Hbefore Hresp. unfold okResp_visiting. f_equal.
  induction before as [|r before IH]; unfold find_ok; cbn [app find].
  - by rewrite bool_decide_eq_true_2.
  - rewrite bool_decide_eq_false_2 by (apply Hbefore; by left).
    apply IH. intros r' Hr'. apply Hbefore. by right.
Qed.

(** An action whose 200 response resolves to an error-shaped media type:
    the handler constructs [goa.ErrInternal("not implemented")], whatever
    the target package and the name [GoTypeRef] gives, and returns it
    through the response's method. *)
Theorem actionT_error_response (g : Generator) (a : ActionDefinition) (resp : ResponseDefinition) (mt pmt : MediaTypeDefinition) :
  find_ok (range_values (Action_Responses a)) = Some resp →
  API_MediaTypes Design !! CanonicalIdentifier (Resp_MediaType resp) = Some mt →
  Project mt (effective_view resp) = Some pmt →
  IsError pmt = true →
  actionT Design g a =
    actionT_head g a +:+
    " res := goa.ErrInternal(" +:+ dq +:+ "not implemented" +:+ dq +:+ ")" +:+ nl +:+
    " return ctx." +:+ Resp_Name resp +:+ name_suffix (effective_view resp) +:+
      "(res)" +:+ nl +:+
    "}" +:+ nl.
Proof.
  intros Hf Hmt Hp Herr. unfold actionT.
  rewrite (okResp_resolved Design g a resp mt pmt Hf Hmt Hp).
  unfold actionT_result, typeref_of. cbn [TypeRef Name]. rewrite Herr.
  f_equal. rewrite <- !append_assoc. done.
Qed.

End okResp_more.

(** ** The entry point *)

Section entry_point.
Context {C : Collaborators}.
Variable Design : APIDefinition.
Variable CheckVersion : string → option error.

(** The entry point without [-force] never changes or removes a file that
    is there, whether the run succeeds or fails, and when it returns an
    error (of the version check or of the run) the files are exactly as
    they were. *)
Theorem genmain_Generate_keeps_existing (flags : Flags) (w : World) :
  flag_force flags = false →
  (∀ p c, fs w !! p = Some c →
          fs (genmain_Generate Design CheckVersion flags w).2 !! p = Some c) ∧
  (∀ e, (genmain_Generate Design CheckVersion flags w).1 = Err e →
        fs (genmain_Generate Design CheckVersion flags w).2 = fs w).
Proof.
  intros HF. unfold genmain_Generate.
  destruct (CheckVersion (flag_version flags)) as [err|]; [done|].
  set (g := {| API := Design; OutDir := flag_out flags; DesignPkg := flag_design flags;
               Target := Goify (flag_pkg flags) false; Force := flag_force flags;
               genfiles := [] |}).
  assert (Hlog : ∀ q, q ∈ genfiles g → fs w !! q = None) by (by intros q ?%elem_of_nil).
  destruct (Generate_body_created_only Design g w HF Hlog) as [(Ha & Hb & Hc) _].
  rewrite Generate_run.
  destruct (Generate_body Design (g, w)) as [[files|e] [g' w']]; cbn [fst snd] in *.
  - split; [exact Ha|done].
  - rewrite Cleanup_run. cbn [fst snd].
    assert (Hfs : fs (foldl (λ w f, os_Remove f w) w' (genfiles g')) = fs w).
    { apply map_eq. intros p. rewrite remove_all_lookup. case_decide as Hin.
      - by rewrite (Hb _ Hin).
      - destruct (fs w !! p) as [c|] eqn:H0; [by apply Ha|by apply Hc]. }
    split; [|done]. intros p c Hp. by rewrite Hfs.
Qed.

End entry_point.

(** ** The theorems on the samples *)

Lemma Generate_frame_witness :
  fs (Generate demo_design (demo_generator true, world_notes)).2.2 !! "out/README.md" =
    Some "notes".
Proof.
  rewrite (Generate_frame demo_design (demo_generator true) world_notes "out/README.md").
  - reflexivity.
  - refine (bool_decide_unpack _ _). vm_compute. exact I.
  - refine (bool_decide_unpack _ _). vm_compute. exact I.
Defined.

Lemma Generate_keeps_existing_witness :
  fs (Generate demo_design (demo_generator false, world_old)).2.2 !! "out/main.go" =
    Some "// edited".
Proof.
  apply (Generate_keeps_existing demo_design (demo_generator false) world_old
           "out/main.go" "// edited").
  - reflexivity.
  - by intros q ?%elem_of_nil.
  - reflexivity.
Defined.

Lemma Generate_failure_restores_witness :
  (Generate fmt_fault_design (fmt_fault_generator, world0)).1 = Err "format" ∧
  fs (Generate fmt_fault_design (fmt_fault_generator, world0)).2.2 = fs world0.
Proof.
  assert (Herr : (Generate fmt_fault_design (fmt_fault_generator, world0)).1 =
                 Err "format")
    by (vm_compute; reflexivity).
  split; [exact Herr|].
  apply (Generate_failure_restores fmt_fault_design fmt_fault_generator world0 "format").
  - reflexivity.
  - by intros q ?%elem_of_nil.
  - exact Herr.
Defined.

Lemma Generate_returns_missing_witness :
  (Generate demo_design (demo_generator false, world0)).1 =
    Ok ["out/main.go"; "out/bottle.go"] ∧
  ("out/bottle.go" ∈ ["out/main.go"; "out/bottle.go"] ↔
   "out/bottle.go" ∈ genfiles (demo_generator false) ∨
   ("out/bottle.go" ∈ targets (demo_generator false) ∧
    fs world0 !! "out/bottle.go" = None)).
Proof.
  assert (Hok : (Generate demo_design (demo_generator false, world0)).1 =
                Ok ["out/main.go"; "out/bottle.go"])
    by (vm_compute; reflexivity).
  split; [exact Hok|].
  apply (Generate_returns_missing demo_design (demo_generator false) world0
           ["out/main.go"; "out/bottle.go"] "out/bottle.go").
  - reflexivity.
  - by intros q ?%elem_of_nil.
  - exact Hok.
Defined.

Lemma Generate_content_witness :
  (Generate stream_design (stream_generator false, world0)).1 =
    Ok ["out/main.go"; "out/bottle.go"; "out/feed.go"] ∧
  fs (Generate stream_design (stream_generator false, world0)).2.2 !! "out/feed.go" =
    Some (@Header sample_ok EmptyString "main"
            ["io"; "github.com/goadesign/goa"; "out/app"; "golang.org/x/net/websocket"] +:+
          @ctrlT sample_ok feed +:+ actionWST (configured (stream_generator false)) watch).
Proof.
  destruct (Generate_content stream_design (stream_generator false) world0 "out" (λ c, c))
    as (Hok & _ & Hstubs).
  - right. intros p _. apply lookup_empty.
  - refine (bool_decide_unpack _ _). vm_compute. exact I.
  - reflexivity.
  - intros p _. reflexivity.
  - intros name p text _. reflexivity.
  - reflexivity.
  - intros r _. reflexivity.
  - assert (Hfeed : feed ∈ API_Resources (API (stream_generator false)))
      by apply list_elem_of_further, list_elem_of_here.
    split; [exact Hok|exact (Hstubs feed Hfeed)].
Defined.

Lemma Generate_failure_no_partial_witness :
  (Generate fmt_fault_design (fmt_fault_forced, world_old)).1 = Err "format" ∧
  (fs (Generate fmt_fault_design (fmt_fault_forced, world_old)).2.2 !! "out/bottle.go" = None ∨
   fs (Generate fmt_fault_design (fmt_fault_forced, world_old)).2.2 !! "out/bottle.go" =
     fs world_old !! "out/bottle.go").
Proof.
  assert (Herr : (Generate fmt_fault_design (fmt_fault_forced, world_old)).1 =
                 Err "format")
    by (vm_compute; reflexivity).
  split; [exact Herr|].
  exact (Generate_failure_no_partial fmt_fault_design fmt_fault_forced world_old
           "format" "out/bottle.go" Herr).
Defined.

Lemma Generate_forced_failure_loses_main_witness :
  fs world_old !! "out/main.go" = Some "// edited" ∧
  (Generate fmt_fault_design (fmt_fault_forced, world_old)).1 = Err "format" ∧
  fs (Generate fmt_fault_design (fmt_fault_forced, world_old)).2.2 !! "out/main.go" = None.
Proof.
  assert (Herr : (Generate fmt_fault_design (fmt_fault_forced, world_old)).1 =
                 Err "format")
    by (vm_compute; reflexivity).
  split; [reflexivity|]. split; [exact Herr|].
  exact (Generate_forced_failure_loses_main fmt_fault_design fmt_fault_forced world_old
           "format" eq_refl Herr).
Defined.

Lemma okResp_first_match_witness :
  okResp_visiting demo_design (demo_generator false)
    ([resp_not_found] ++ resp_ok :: [resp_ok_again]) =
  okResp_of demo_design (demo_generator false) (Some resp_ok).
Proof.
  apply (okResp_first_match demo_design (demo_generator false)
           [resp_not_found] [resp_ok_again] resp_ok).
  - intros r ->%list_elem_of_singleton. discriminate.
  - reflexivity.
Defined.

Lemma actionT_error_response_witness :
  actionT error_design error_generator show_error =
    actionT_head error_generator show_error +:+
    " res := goa.ErrInternal(" +:+ dq +:+ "not implemented" +:+ dq +:+ ")" +:+ nl +:+
    " return ctx.OK(res)" +:+ nl +:+
    "}" +:+ nl.
Proof.
  rewrite (actionT_error_response error_design error_generator show_error
             resp_ok_error error_mt
             {| mt_TypeName := "error"; mt_Views := ["default"]; mt_IsError := true |}).
  - vm_compute. reflexivity.
  - vm_compute. reflexivity.
  - vm_compute. reflexivity.
  - vm_compute. reflexivity.
  - reflexivity.
Defined.

Lemma genmain_Generate_keeps_existing_witness :
  fs (genmain_Generate demo_design (λ _, None) (sample_flags false) world_old).2
    !! "out/bottle.go" = Some "// edited".
Proof.
  apply (proj1 (genmain_Generate_keeps_existing demo_design (λ _, None)
                  (sample_flags false) world_old eq_refl)).
  reflexivity.
Defined.

Lemma Generate_error_origin_witness :
  (Generate fmt_fault_design (fmt_fault_generator, world0)).1 = Err "format" ∧
  (@PackagePath sample_fmt_fault (OutDir fmt_fault_generator) = Err "format" ∨
   (os_Stat (mainFile_of fmt_fault_generator) (prepared fmt_fault_generator world0).2 = false ∧
    (createMainFile (mainFile_of fmt_fault_generator)
       (prepared fmt_fault_generator world0)).1 = Some "format") ∨
   ∃ c, @gofmt sample_fmt_fault c = Err "format").
Proof.
  assert (Herr : (Generate fmt_fault_design (fmt_fault_generator, world0)).1 =
                 Err "format")
    by (vm_compute; reflexivity).
  split; [exact Herr|].
  exact (Generate_error_origin fmt_fault_design fmt_fault_generator world0 "format" Herr).
Defined.

(** C6 as stated fails on a run that fails: with force and a package path
    that does not resolve, the main file is removed and not written again,
    and the file of the resource, which the run never reaches, is not
    removed. *)
Lemma Generate_force_failing_run :
  Force pkg_fault_forced = true ∧
  fs world_old !! "out/main.go" = Some "// edited" ∧
  (Generate pkg_fault_design (pkg_fault_forced, world_old)).1 = Err "no package" ∧
  fs (Generate pkg_fault_design (pkg_fault_forced, world_old)).2.2 !! "out/main.go" = None ∧
  fs (Generate pkg_fault_design (pkg_fault_forced, world_old)).2.2 !! "out/bottle.go" =
    Some "// edited".
Proof. split_and!; by vm_compute. Qed.

Lemma Generate_force_witness :
  fs world_old !! "out/bottle.go" = Some "// edited" ∧
  (Generate demo_design (demo_generator true, world_old)).1 =
    Ok ["out/main.go"; "out/bottle.go"] ∧
  fs (Generate demo_design (demo_generator true, world_old)).2.2 !! "out/bottle.go" =
    Some (stub_text demo_design (demo_generator true)
            ["io"; "github.com/goadesign/goa"; "out/app"; "golang.org/x/net/websocket"]
            bottle) ∧
  fs (Generate demo_design (demo_generator true, world0)).2.2 !! "out/bottle.go" =
    fs (Generate demo_design (demo_generator true, world_old)).2.2 !! "out/bottle.go".
Proof.
  destruct (Generate_force demo_design (demo_generator true) world_old world0 "out" (λ c, c))
    as (_ & Hok & Hregen & _ & Hsame).
  - reflexivity.
  - reflexivity.
  - intros p _. reflexivity.
  - intros name p text _. reflexivity.
  - reflexivity.
  - intros r _. reflexivity.
  - reflexivity.
  - assert (Hin : "out/bottle.go" ∈ targets (demo_generator true))
      by (refine (bool_decide_unpack _ _); vm_compute; exact I).
    split; [reflexivity|]. split; [exact Hok|]. split; [|exact (Hsame _ Hin)].
    destruct (Hregen _ Hin) as [(r & Hr & Hname & Hfs)|[Hmain _]].
    + apply list_elem_of_singleton in Hr. subst r. exact Hfs.
    + discriminate Hmain.
Defined.

Lemma Generate_counter_witness :
  tempCount world0 = 0 ∧
  tempCount (Generate demo_design (demo_generator false, world0)).2.2 = 1 ∧
  tempCount (Generate demo_design (demo_generator false, world_old)).2.2 = 0.
Proof.
  split; [reflexivity|]. split.
  - exact (Generate_counter demo_design (demo_generator false) world0 eq_refl).
  - exact (Generate_counter demo_design (demo_generator false) world_old eq_refl).
Defined.
